(** * Converter discovery, probing and batch processing (script.py)

    A shallow embedding of [ConverterDiscovery] and [ExcelPromptProcessor]
    from [script.py], with the properties of the discovery / probing /
    batch pipeline stated and proved on it.

    Conventions of the embedding.
    - A Python [str] is a Rocq [string] whose characters are read as the
      code points U+0000..U+00FF; [lower] and [isspace] below are CPython's
      on that range.
    - An exception value is an instance of [Exception]: the handlers of the
      script are all [except Exception] or narrower.
    - Converters are external collaborators.  A class is given by what its
      constructor does on a keyword dictionary, an instance by its two
      capability attributes and by what [convert_async] does on a prompt.
      Constructors and conversions that hold the thread for ever are not
      considered: nothing in the script can end them.
    - A table is given by the values that the script reads from it
      through [df.iloc[idx][label]]; a number is kept as the text that
      [str] gives for the value read, "7" or "7.0".
    - The script pins no version of pandas.  [process_excel] is the batch
      processor with a pandas before 3.0, where the assignment of a text
      turns a column of numbers into a column of objects;
      [Pandas3.process_excel] is the one with pandas 3.0 or later, where
      that assignment raises a [TypeError].  The two differ only for an
      input that has a column named like an output column and without a
      text in it.
    - Logging is not modelled.  Where a property speaks of what was
      attempted or invoked, the functions return a trace of events next to
      their result; the trace is ghost data and never influences control. *)

From Stdlib Require Import String Ascii ZArith QArith List Lia.
From stdpp Require Import base list strings gmap sorting.

Local Open Scope string_scope.
Local Open Scope list_scope.

(** ** Python strings *)

Module PyStr.

(** [chr(c).lower()] for a code point below 256: A..Z and the Latin-1
    capitals U+00C0..U+00DE (without the multiplication sign U+00D7) move
    up by 32, everything else is unchanged. *)
Definition lower_char (c : ascii) : ascii :=
  let n := N_of_ascii c in
  if ((65 <=? n) && (n <=? 90)
      || (192 <=? n) && (n <=? 222) && negb (n =? 215))%N
  then ascii_of_N (n + 32) else c.

(** [s.lower()] *)
Fixpoint lower (s : string) : string :=
  match s with
  | EmptyString => EmptyString
  | String c s' => String (lower_char c) (lower s')
  end.

(** [needle in haystack] *)
Fixpoint contains (needle haystack : string) : bool :=
  String.prefix needle haystack
  || match haystack with
     | EmptyString => false
     | String _ rest => contains needle rest
     end.

(** [s.startswith(p)] *)
Definition startswith (p s : string) : bool := String.prefix p s.

(** [s.endswith(p)] *)
Definition endswith (p s : string) : bool :=
  String.prefix (String.rev p) (String.rev s).

(** [chr(c).isspace()] for a code point below 256. *)
Definition isspace (c : ascii) : bool :=
  let n := N_of_ascii c in
  ((9 <=? n) && (n <=? 13) || (28 <=? n) && (n <=? 32)
   || (n =? 133) || (n =? 160))%N.

(** [s.lstrip()] *)
Fixpoint lstrip (s : string) : string :=
  match s with
  | EmptyString => EmptyString
  | String c s' => if isspace c then lstrip s' else s
  end.

(** [s.strip()] *)
Definition strip (s : string) : string :=
  String.rev (lstrip (String.rev (lstrip s))).

End PyStr.

(** ** Exceptions *)

(** The handler-relevant base of an exception: which of the [except]
    clauses of the script an instance matches.  [asyncio.TimeoutError] is
    what [asyncio.wait_for] raises at its deadline. *)
Inductive exn_base := TypeError | ValueError | TimeoutError | OtherException.

(** [type_name] is [type(e).__name__], [message] is [str(e)]. *)
Record exn := Exn {
  base : exn_base;
  type_name : string;
  message : string
}.

#[global] Instance exn_base_eq_dec : EqDecision exn_base.
Proof. solve_decision. Defined.

(** ** Converter classes and instances *)

(** Values passed as keyword arguments by the prober. *)
Inductive pyval :=
| PyNone
| PyBool (b : bool)
| PyInt (z : Z)
| PyStr (s : string).

(** A keyword dictionary, in insertion order. *)
Definition kwargs := list (string * pyval).

Inductive result (A : Type) :=
| Return (a : A)
| Raise (e : exn).
Arguments Return {A} a.
Arguments Raise {A} e.

(** What awaiting a coroutine does.  [Finishes]: it waits on the event
    loop (for a timer, a socket, another task) and ends after [elapsed]
    seconds by returning or raising; while it waits the loop has control,
    so that a deadline set by the caller can fire.  [Blocks]: it ends after
    [elapsed] seconds too, but holds the thread all that time
    ([time.sleep], a computation, a blocking request) and never leaves
    control to the loop; no timer can fire before it has ended.  [Hangs]:
    it waits on the event loop and never ends.  A coroutine that does the
    one and then the other is not modelled. *)
Inductive coroutine (A : Type) :=
| Finishes (elapsed : Q) (r : result A)
| Blocks (elapsed : Q) (r : result A)
| Hangs.
Arguments Finishes {A} elapsed r.
Arguments Blocks {A} elapsed r.
Arguments Hangs {A}.

(** The value of a capability attribute: a tuple or a list of kind names
    as in [PromptConverter], or a set or frozenset of them.  Membership and
    truth are those of the names; only a [Sequence] can be indexed. *)
Inductive capability :=
| Sequence (kinds : list string)
| KindSet (frozen : bool) (kinds : list string).

(** An instantiated converter.  [None] for a capability attribute is an
    instance without the attribute.  [convert_async prompt] is the call
    [convert_async(prompt=prompt, input_type="text")]; the value returned is
    the [output_text] of the [ConverterResult]. *)
Record plugin := Plugin {
  SUPPORTED_INPUT_TYPES : option capability;
  SUPPORTED_OUTPUT_TYPES : option capability;
  convert_async : string -> coroutine string
}.

(** A converter class: the outcome of calling the class with a keyword
    dictionary. *)
Record plugin_class := PluginClass {
  construct : kwargs -> result plugin
}.

(** ** Ghost trace *)

(** [Probe] is the [convert_async] call of the conversion test,
    [RowConvert] the one made for row [idx] of a batch. *)
Inductive event :=
| Construct (class_name : string) (params : kwargs)
| Probe (class_name : string) (prompt : string)
| RowConvert (idx : nat) (converter_name : string) (prompt : string).

(** ** The instantiation prober *)

(** The [patterns] list of [_try_instantiate]. *)
Definition patterns : list kwargs :=
  [ [];
    [("append_description", PyBool false)];
    [("caesar_offset", PyInt 13)];
    [("caesar_offset", PyInt 13); ("append_description", PyBool false)];
    [("font", PyStr "block")];
    [("font", PyStr "rand")];
    [("encoding_func", PyStr "b64encode")];
    [("encoding_name", PyStr "cipher")];
    [("bits_per_char", PyInt 8)];
    [("shift_value", PyInt 0)];
    [("template", PyNone)];
    [("output_format", PyStr "wav")];
    [("synthesis_language", PyStr "en-US")];
    [("recognition_language", PyStr "en-US")];
    [("img_to_add", PyStr "")];
    [("video_path", PyStr "")];
    [("text_to_add", PyStr "test")];
    [("word_selection_strategy", PyNone)];
    [("word_split_separator", PyStr " ")];
    [("converter_target", PyNone)];
    [("prompt_target", PyNone)] ].

(** The [for params in patterns] loop of [_try_instantiate], over the
    candidates still to try.  The second component lists the candidates on
    which the constructor was called, in call order.  The [class_name]
    argument of the method only serves its log lines. *)
Fixpoint try_patterns (converter_class : plugin_class)
    (todo : list kwargs) : option plugin * list kwargs :=
  match todo with
  | [] => (None, [])
  | params :: rest =>
      match construct converter_class params with
      | Return inst => (Some inst, [params])
      | Raise e =>
          match base e with
          | TypeError =>
              (* wrong parameters, continue *)
              let '(r, tried) := try_patterns converter_class rest in
              (r, params :: tried)
          | ValueError =>
              let error_str := PyStr.lower (message e) in
              if PyStr.contains "required" error_str
                 || PyStr.contains "empty" error_str
                 || PyStr.contains "valid" error_str
              then
                let '(r, tried) := try_patterns converter_class rest in
                (r, params :: tried)
              else (None, [params])
          | _ =>
              let error_str := PyStr.lower (message e) in
              if negb (PyStr.contains "required" error_str)
                 && negb (PyStr.contains "missing" error_str)
              then (None, [params])
              else
                let '(r, tried) := try_patterns converter_class rest in
                (r, params :: tried)
          end
      end
  end.

Definition _try_instantiate (converter_class : plugin_class)
    : option plugin * list kwargs :=
  try_patterns converter_class patterns.

(** ** The ledger *)

(** A [dict] whose iteration order is observed: assignment to a key that is
    present keeps its position, a new key goes to the end. *)
Module PyDict.

Definition t (V : Type) := list (string * V).

Fixpoint set {V} (k : string) (v : V) (d : t V) : t V :=
  match d with
  | [] => [(k, v)]
  | (k', v') :: d' =>
      if decide (k' = k) then (k, v) :: d' else (k', v') :: set k v d'
  end.

Fixpoint get {V} (k : string) (d : t V) : option V :=
  match d with
  | [] => None
  | (k', v') :: d' => if decide (k' = k) then Some v' else get k d'
  end.

Definition keys {V} (d : t V) : list string := d.*1.

End PyDict.

(** The value stored under a name in [working_converters]. *)
Record working_entry := WorkingEntry {
  instance : plugin;
  inputs : list string;
  outputs : list string;
  is_text_to_text : bool
}.

(** The three dictionaries of [ConverterDiscovery].  Only the order of
    [text_to_text_converters] is ever observed (by the batch processor);
    [verbose] only switches logging and is left out. *)
Record ConverterDiscovery := Ledger {
  working_converters : gmap string working_entry;
  failed_converters : gmap string string;
  text_to_text_converters : PyDict.t plugin
}.

(** [ConverterDiscovery.__init__] *)
Definition init : ConverterDiscovery :=
  {| working_converters := ∅; failed_converters := ∅;
     text_to_text_converters := [] |}.

Definition set_working (class_name : string) (e : working_entry)
    (self : ConverterDiscovery) : ConverterDiscovery :=
  {| working_converters := <[class_name := e]> (working_converters self);
     failed_converters := failed_converters self;
     text_to_text_converters := text_to_text_converters self |}.

Definition set_failed (name error_msg : string)
    (self : ConverterDiscovery) : ConverterDiscovery :=
  {| working_converters := working_converters self;
     failed_converters := <[name := error_msg]> (failed_converters self);
     text_to_text_converters := text_to_text_converters self |}.

Definition set_text_to_text (class_name : string) (c : plugin)
    (self : ConverterDiscovery) : ConverterDiscovery :=
  {| working_converters := working_converters self;
     failed_converters := failed_converters self;
     text_to_text_converters :=
       PyDict.set class_name c (text_to_text_converters self) |}.

(** ** The execution harness *)

Definition asyncio_TimeoutError : exn := Exn TimeoutError "TimeoutError" "".

(** [await asyncio.wait_for(aw, timeout)]: the result of [aw] when it
    finishes in time, [asyncio.TimeoutError] when the deadline passes
    while [aw] waits on the event loop.  Finishing at the very instant of
    the deadline counts as in time.  The timer is a callback of the loop:
    while [aw] holds the thread it cannot run, and when [aw] then ends its
    result is at hand before the overdue timer is looked at, so that the
    result of a blocking [aw] is returned however long it took. *)
Definition wait_for {A} (aw : coroutine A) (timeout : Q) : result A :=
  match aw with
  | Finishes elapsed r =>
      if Qle_bool elapsed timeout then r else Raise asyncio_TimeoutError
  | Blocks _ r => r
  | Hangs => Raise asyncio_TimeoutError
  end.

(** The kind names in [getattr(converter_instance, name, ())] for a
    capability attribute. *)
Definition getattr_types (attr : option capability) : list string :=
  match attr with
  | Some (Sequence kinds) => kinds
  | Some (KindSet _ kinds) => kinds
  | None => []
  end.

(** [supported[0] if supported else 'unknown'] for that value: a set
    with a member is true and cannot be indexed. *)
Definition first_kind (attr : option capability) : result string :=
  match attr with
  | Some (Sequence (kind :: _)) => Return kind
  | Some (KindSet frozen (_ :: _)) =>
      Raise (Exn TypeError "TypeError"
               ((if frozen then "'frozenset'" else "'set'")
                +:+ " object is not subscriptable"))
  | _ => Return "unknown"
  end.

(** The two assignments made for a converter that passed:
    [working_converters[class_name] = {...}] and, for a text-to-text
    converter, [text_to_text_converters[class_name] = converter_instance]. *)
Definition record_working (class_name : string) (converter_instance : plugin)
    (supported_inputs supported_outputs : list string)
    (is_text_to_text : bool) (self : ConverterDiscovery)
    : ConverterDiscovery :=
  let self :=
    set_working class_name
      {| instance := converter_instance; inputs := supported_inputs;
         outputs := supported_outputs;
         is_text_to_text := is_text_to_text |} self in
  if is_text_to_text
  then set_text_to_text class_name converter_instance self
  else self.

(** [_test_converter_class]: the updated ledger and the constructor and
    conversion calls that were made. *)
Definition _test_converter_class (self : ConverterDiscovery)
    (class_name : string) (converter_class : plugin_class)
    : ConverterDiscovery * list event :=
  let '(converter_instance, tried) := _try_instantiate converter_class in
  let constructions := Construct class_name <$> tried in
  match converter_instance with
  | None =>
      (set_failed class_name
         "Could not instantiate with any known parameters" self,
       constructions)
  | Some converter_instance =>
      let supported_inputs :=
        getattr_types (SUPPORTED_INPUT_TYPES converter_instance) in
      let supported_outputs :=
        getattr_types (SUPPORTED_OUTPUT_TYPES converter_instance) in
      let is_text_to_text :=
        bool_decide ("text" ∈ supported_inputs)
        && bool_decide ("text" ∈ supported_outputs) in
      if decide (class_name = "HumanInTheLoopConverter") then
        (* just mark it as working without testing *)
        (record_working class_name converter_instance supported_inputs
           supported_outputs is_text_to_text self,
         constructions)
      else
        let called := constructions ++ [Probe class_name "test"] in
        match wait_for (convert_async converter_instance "test") 5%Q with
        | Return test_result =>
            let self :=
              record_working class_name converter_instance supported_inputs
                supported_outputs is_text_to_text self in
            if is_text_to_text then (self, called)
            else
              (* the log line of a converter of another kind takes the
                 first kind of each attribute; an exception of that, like
                 one of the test, reaches the outer handler *)
              match first_kind (SUPPORTED_INPUT_TYPES converter_instance) with
              | Raise e =>
                  (set_failed class_name
                     ("Testing failed: " +:+ type_name e +:+ ": "
                      +:+ message e) self, called)
              | Return input_type =>
                  match
                    first_kind (SUPPORTED_OUTPUT_TYPES converter_instance)
                  with
                  | Raise e =>
                      (set_failed class_name
                         ("Testing failed: " +:+ type_name e +:+ ": "
                          +:+ message e) self, called)
                  | Return output_type => (self, called)
                  end
              end
        | Raise e =>
            match base e with
            | TimeoutError =>
                (set_failed class_name
                   "Conversion test timeout (likely interactive converter)"
                   self, called)
            | _ =>
                (set_failed class_name
                   ("Testing failed: " +:+ type_name e +:+ ": " +:+ message e)
                   self, called)
            end
        end
  end.

(* The candidate list is long: keep the prober folded under [simpl]. *)
Arguments _try_instantiate : simpl never.
Arguments _test_converter_class : simpl never.

(** ** The plugin registry *)

(** What [importlib.import_module] does for a module of the package: it
    raises, or yields a module whose class members, as listed by
    [inspect.getmembers(module, inspect.isclass)], are [classes]. *)
Inductive module_load :=
| ImportFails (e : exn)
| Imported (classes : list (string * plugin_class)).

(** [PurePath.stem] of a file name: the name without its last suffix. *)
Definition stem (name : string) : string :=
  match String.index 0 "." (String.rev name) with
  | Some (S j) =>
      let i := String.length name - S (S j) in
      if decide (0 < i) then String.substring 0 i name else name
  | _ => name
  end.

(** The order of [sorted] on the files of one directory. *)
Definition path_le (a b : string) : Prop := String.leb a b = true.

#[global] Instance path_le_dec a b : Decision (path_le a b).
Proof. unfold path_le. apply _. Defined.

Section Discovery.

(** [importlib.import_module] on [prompt_converter.<module_name>]. *)
Variable import_module : string -> module_load.

(** The loop over [converter_classes] in [_test_converter_module]. *)
Fixpoint test_classes (self : ConverterDiscovery)
    (converter_classes : list (string * plugin_class))
    : ConverterDiscovery * list event :=
  match converter_classes with
  | [] => (self, [])
  | (class_name, converter_class) :: rest =>
      let '(self, evs) :=
        _test_converter_class self class_name converter_class in
      let '(self, evs') := test_classes self rest in
      (self, evs ++ evs')
  end.

Definition _test_converter_module (self : ConverterDiscovery)
    (module_name : string) : ConverterDiscovery * list event :=
  match import_module module_name with
  | Imported classes =>
      let converter_classes :=
        filter (λ '(name, _),
                  PyStr.endswith "Converter" name = true
                  ∧ PyStr.startswith "_" name = false) classes in
      test_classes self converter_classes
  | ImportFails e =>
      let error_msg :=
        "Import failed: " +:+ type_name e +:+ ": " +:+ message e in
      (set_failed module_name error_msg self, [])
  end.

(** The loop over the sorted converter files. *)
Fixpoint test_modules (self : ConverterDiscovery)
    (converter_files : list string) : ConverterDiscovery * list event :=
  match converter_files with
  | [] => (self, [])
  | converter_file :: rest =>
      let module_name := stem converter_file in
      let '(self, evs) := _test_converter_module self module_name in
      let '(self, evs') := test_modules self rest in
      (self, evs ++ evs')
  end.

(** [sorted(converter_dir.glob("*_converter.py"))] *)
Definition sorted_converter_files (dir : list string) : list string :=
  let converter_files :=
    filter (λ name, PyStr.endswith "_converter.py" name = true) dir in
  merge_sort path_le converter_files.

(** [discover_and_test_converters]; [converter_dir] lists the file names
    of the [prompt_converter] directory, [None] when it does not exist. *)
Definition discover_and_test_converters (self : ConverterDiscovery)
    (converter_dir : option (list string))
    : ConverterDiscovery * list event :=
  match converter_dir with
  | None => (self, [])
  | Some dir => test_modules self (sorted_converter_files dir)
  end.

(** *** The run as a sequence of probes

    The same run, flattened: one item per module that failed to load and
    one per converter class met, in the order of the run. *)
Inductive probe_item :=
| LoadFailure (module_name : string) (e : exn)
| ClassProbe (class_name : string) (converter_class : plugin_class).

Definition module_items (module_name : string) : list probe_item :=
  match import_module module_name with
  | ImportFails e => [LoadFailure module_name e]
  | Imported classes =>
      (λ '(name, c), ClassProbe name c)
      <$> filter (λ '(name, _),
                    PyStr.endswith "Converter" name = true
                    ∧ PyStr.startswith "_" name = false) classes
  end.

Definition files_items (converter_files : list string) : list probe_item :=
  converter_files ≫= (λ converter_file, module_items (stem converter_file)).

Definition discovery_items (converter_dir : option (list string))
    : list probe_item :=
  match converter_dir with
  | None => []
  | Some dir => files_items (sorted_converter_files dir)
  end.

Definition run_item (self : ConverterDiscovery) (item : probe_item)
    : ConverterDiscovery * list event :=
  match item with
  | LoadFailure module_name e =>
      (set_failed module_name
         ("Import failed: " +:+ type_name e +:+ ": " +:+ message e) self,
       [])
  | ClassProbe class_name converter_class =>
      _test_converter_class self class_name converter_class
  end.

Fixpoint run_items (self : ConverterDiscovery) (items : list probe_item)
    : ConverterDiscovery * list event :=
  match items with
  | [] => (self, [])
  | item :: rest =>
      let '(self, evs) := run_item self item in
      let '(self, evs') := run_items self rest in
      (self, evs ++ evs')
  end.

End Discovery.


(** ** Tables *)

(** A cell of a table read from a spreadsheet or a delimited file: a
    missing value, a text or a number.  A number is given by what [str]
    makes of the value that [df.iloc[idx][label]] reads: "7" for an
    integer, "7.0" for the same number in a row or a column of floats. *)
Inductive cell :=
| NaN
| Text (s : string)
| Number (repr : string).

(** A [DataFrame] with the default index [0 .. nrows-1]: its columns in
    order, each with its label and its cells. *)
Record DataFrame := Frame {
  nrows : nat;
  columns : list (string * list cell)
}.

Module Pandas.

(** [pd.isna(x)] *)
Definition isna (x : cell) : bool :=
  match x with NaN => true | _ => false end.

(** [str(x)] *)
Definition str (x : cell) : string :=
  match x with
  | NaN => "nan"
  | Text s => s
  | Number repr => repr
  end.

(** [df.columns] *)
Definition labels (df : DataFrame) : list string := (columns df).*1.

(** [df[label]], the cells of the first column so labelled. *)
Definition column (label : string) (df : DataFrame) : option (list cell) :=
  PyDict.get label (columns df).

(** [df.head(n)], that is [df.iloc[:n]]: the first [n] rows, or for a
    negative [n] all rows but the last [-n]. *)
Definition head (n : Z) (df : DataFrame) : DataFrame :=
  let k := if (0 <=? n)%Z then Z.to_nat n
           else nrows df - Z.to_nat (- n) in
  {| nrows := k `min` nrows df;
     columns := (λ col, (col.1, take k col.2)) <$> columns df |}.

(** [df.loc[idx, label] = value] for [idx] below [nrows df], where pandas
    accepts the value: the cell is overwritten in every column with that
    label; without such a column, one is appended that is missing
    everywhere but at [idx]. *)
Definition loc_set (idx : nat) (label : string) (value : cell)
    (df : DataFrame) : DataFrame :=
  if decide (label ∈ labels df) then
    {| nrows := nrows df;
       columns :=
         (λ col, if decide (col.1 = label)
                 then (col.1, <[idx := value]> col.2) else col)
         <$> columns df |}
  else
    {| nrows := nrows df;
       columns :=
         columns df
         ++ [(label, <[idx := value]> (replicate (nrows df) NaN))] |}.

(** Whether pandas 3.0 or later accepts a text in [df.loc[idx, label]],
    for the table [df] as it was read: it raises a [TypeError] for a
    column of the type [int64] or [float64], which is the type of a column
    that holds numbers and missing values only. *)
Definition takes_text (label : string) (df : DataFrame) : bool :=
  forallb
    (λ col : string * list cell,
       negb (bool_decide (col.1 = label))
       || existsb (λ x, match x with Text _ => true | _ => false end) col.2)
    (columns df).

(** The cell at row [idx] under [label]; a label without a column reads
    as missing. *)
Definition at_ (idx : nat) (label : string) (df : DataFrame) : cell :=
  default NaN (column label df ≫= (.!! idx)).

(** Every column has one cell per row. *)
Definition wf (df : DataFrame) : Prop :=
  Forall (λ col : string * list cell, length col.2 = nrows df) (columns df).

End Pandas.

(** ** The batch processor *)

(** [await aw] without a deadline: [None] when [aw] never finishes. *)
Definition await {A} (aw : coroutine A) : option (result A) :=
  match aw with
  | Finishes _ r => Some r
  | Blocks _ r => Some r
  | Hangs => None
  end.

(** What [process_excel] does: it waits forever on a conversion, it logs an
    error and returns without writing, it writes [results], or it is left
    without a write by the [TypeError] of an assignment. *)
Inductive batch_outcome :=
| NeverReturns
| Rejected
| Saved (results : DataFrame) (calls : list event)
| Died (calls : list event).

(** The loop over [text_to_text_converters.items()] for one row. *)
Fixpoint run_converters (idx : nat) (prompt : string)
    (converters : PyDict.t plugin) (results : DataFrame)
    : option (DataFrame * list event) :=
  match converters with
  | [] => Some (results, [])
  | (converter_name, converter) :: rest =>
      match await (convert_async converter prompt) with
      | None => None
      | Some r =>
          let column_name := converter_name +:+ "_output" in
          let value :=
            match r with
            | Return output_text => Text output_text
            | Raise e => Text ("ERROR: " +:+ message e)
            end in
          match run_converters idx prompt rest
                  (Pandas.loc_set idx column_name value results) with
          | None => None
          | Some (results, calls) =>
              Some (results, RowConvert idx converter_name prompt :: calls)
          end
      end
  end.

(** [pd.isna(prompt) or str(prompt).strip() == ''] *)
Definition skipped (prompt : cell) : bool :=
  Pandas.isna prompt
  || bool_decide (PyStr.strip (Pandas.str prompt) = "").

(** The loop [for idx in range(len(df))], from row [idx] on; [prompts] are
    the cells of the prompt column from that row on. *)
Fixpoint run_rows (idx : nat) (prompts : list cell)
    (converters : PyDict.t plugin) (results : DataFrame)
    : option (DataFrame * list event) :=
  match prompts with
  | [] => Some (results, [])
  | prompt :: rest =>
      if skipped prompt then run_rows (S idx) rest converters results
      else
        match run_converters idx (Pandas.str prompt) converters results with
        | None => None
        | Some (results, calls) =>
            match run_rows (S idx) rest converters results with
            | None => None
            | Some (results, calls') => Some (results, calls ++ calls')
            end
        end
  end.

(** [if max_rows: df = df.head(max_rows)] *)
Definition cap_rows (max_rows : option Z) (df : DataFrame) : DataFrame :=
  match max_rows with
  | Some n => if decide (n = 0%Z) then df else Pandas.head n df
  | None => df
  end.

(** [process_excel] with a pandas before 3.0; [input] is what reading
    [input_file] gave, [None] when it could not be read.  [results] of
    [Saved] is the table handed to [to_excel]. *)
Definition process_excel (discovery : ConverterDiscovery)
    (input : option DataFrame) (prompt_column : string)
    (max_rows : option Z) : batch_outcome :=
  match input with
  | None => Rejected
  | Some df =>
      if decide (prompt_column ∈ Pandas.labels df) then
        let df := cap_rows max_rows df in
        let results := df in
        match run_rows 0 (default [] (Pandas.column prompt_column df))
                (text_to_text_converters discovery) results with
        | None => NeverReturns
        | Some (results, calls) => Saved results calls
        end
      else Rejected
  end.

(** ** The batch processor with pandas 3.0 or later *)

(** How a loop of the batch processor ends: it completes, it waits for ever
    on a conversion, or an assignment raises. *)
Inductive loop_outcome :=
| Completes (results : DataFrame) (calls : list event)
| Waits
| Raises (calls : list event).

Module Pandas3.

(** The loop over [text_to_text_converters.items()] for one row; [df] is
    the table as it was read, which fixes the types of the columns.  When
    pandas refuses the text for [results.loc[idx, column_name]], the
    [TypeError] is caught by the handler of the loop body, whose own
    assignment to the same cell raises again, out of the loop. *)
Fixpoint run_converters (df : DataFrame) (idx : nat) (prompt : string)
    (converters : PyDict.t plugin) (results : DataFrame) : loop_outcome :=
  match converters with
  | [] => Completes results []
  | (converter_name, converter) :: rest =>
      match await (convert_async converter prompt) with
      | None => Waits
      | Some r =>
          let column_name := converter_name +:+ "_output" in
          let value :=
            match r with
            | Return output_text => Text output_text
            | Raise e => Text ("ERROR: " +:+ message e)
            end in
          if Pandas.takes_text column_name df then
            match run_converters df idx prompt rest
                    (Pandas.loc_set idx column_name value results) with
            | Completes results calls =>
                Completes results
                  (RowConvert idx converter_name prompt :: calls)
            | Waits => Waits
            | Raises calls =>
                Raises (RowConvert idx converter_name prompt :: calls)
            end
          else Raises [RowConvert idx converter_name prompt]
      end
  end.

(** The loop [for idx in range(len(df))], from row [idx] on. *)
Fixpoint run_rows (df : DataFrame) (idx : nat) (prompts : list cell)
    (converters : PyDict.t plugin) (results : DataFrame) : loop_outcome :=
  match prompts with
  | [] => Completes results []
  | prompt :: rest =>
      if skipped prompt then run_rows df (S idx) rest converters results
      else
        match
          run_converters df idx (Pandas.str prompt) converters results
        with
        | Completes results calls =>
            match run_rows df (S idx) rest converters results with
            | Completes results calls' => Completes results (calls ++ calls')
            | Waits => Waits
            | Raises calls' => Raises (calls ++ calls')
            end
        | Waits => Waits
        | Raises calls => Raises calls
        end
  end.

(** [process_excel]: nothing is written when an assignment raises. *)
Definition process_excel (discovery : ConverterDiscovery)
    (input : option DataFrame) (prompt_column : string)
    (max_rows : option Z) : batch_outcome :=
  match input with
  | None => Rejected
  | Some df =>
      if decide (prompt_column ∈ Pandas.labels df) then
        (* [df.head] keeps the types of the columns *)
        let read := df in
        let df := cap_rows max_rows df in
        let results := df in
        match run_rows read 0 (default [] (Pandas.column prompt_column df))
                (text_to_text_converters discovery) results with
        | Completes results calls => Saved results calls
        | Waits => NeverReturns
        | Raises calls => Died calls
        end
      else Rejected
  end.

End Pandas3.

(** ** Fixtures *)

(** The [UpperCaseConverter] of the concrete scenario: a plugin with no
    required constructor argument that upper-cases its prompt.  It stands
    for a module dropped into [prompt_converter]; the repository has no
    such file. *)
Module UpperCase.

Definition upper_char (c : ascii) : ascii :=
  let n := N_of_ascii c in
  if ((97 <=? n) && (n <=? 122))%N then ascii_of_N (n - 32) else c.

Fixpoint upper (s : string) : string :=
  match s with
  | EmptyString => EmptyString
  | String c s' => String (upper_char c) (upper s')
  end.

Definition converter : plugin :=
  {| SUPPORTED_INPUT_TYPES := Some (Sequence ["text"]);
     SUPPORTED_OUTPUT_TYPES := Some (Sequence ["text"]);
     convert_async := λ prompt, Finishes 0 (Return (upper prompt)) |}.

Definition UpperCaseConverter : plugin_class :=
  {| construct := λ params,
       match params with
       | [] => Return converter
       | _ => Raise (Exn TypeError "TypeError"
                       "UpperCaseConverter() takes no arguments")
       end |}.

End UpperCase.

(** The concrete scenario: a plugin directory with the single module
    [upper_converter.py], which defines [UpperCaseConverter], and a table
    with the prompts "hi", "" and "go". *)
Module Scenario.

Definition import_module (module_name : string) : module_load :=
  Imported [("UpperCaseConverter", UpperCase.UpperCaseConverter)].

Definition dir : list string := ["upper_converter.py"].

Definition discovery : ConverterDiscovery :=
  (discover_and_test_converters import_module init (Some dir)).1.

Definition df : DataFrame :=
  {| nrows := 3; columns := [("prompt", [Text "hi"; Text ""; Text "go"])] |}.

End Scenario.

(** A plugin directory whose module defines [UpperCaseConverter] and a
    converter that copies its prompt but rejects the prompt "go". *)
Module Faulty.

Definition error : exn := Exn ValueError "ValueError" "bad input".

Definition picky : plugin :=
  {| SUPPORTED_INPUT_TYPES := Some (Sequence ["text"]);
     SUPPORTED_OUTPUT_TYPES := Some (Sequence ["text"]);
     convert_async := λ prompt,
       if decide (prompt = "go") then Finishes 0 (Raise error)
       else Finishes 0 (Return prompt) |}.

Definition PickyConverter : plugin_class :=
  {| construct := λ _, Return picky |}.

Definition import_module (module_name : string) : module_load :=
  Imported [("PickyConverter", PickyConverter);
            ("UpperCaseConverter", UpperCase.UpperCaseConverter)].

Definition discovery : ConverterDiscovery :=
  (discover_and_test_converters import_module init
     (Some ["text_converter.py"])).1.

(** A table with the prompt "go" and an empty column named like the
    output column of [PickyConverter]. *)
Definition df : DataFrame :=
  {| nrows := 1;
     columns := [("prompt", [Text "go"]);
                 ("PickyConverter_output", [NaN])] |}.

End Faulty.

(** Two inputs for the scenario converter: a table that already has a
    column [UpperCaseConverter_output], as the table written by an earlier
    run has, and a table without rows. *)
Module Reentry.

Definition df : DataFrame :=
  {| nrows := 1;
     columns := [("prompt", [Text "hi"]);
                 ("UpperCaseConverter_output", [Text "old"])] |}.


End Reentry.

(** A table with an identifier column and two prompts. *)
Module Clean.

Definition df : DataFrame :=
  {| nrows := 2;
     columns := [("id", [Number "1"; Number "2"]);
                 ("prompt", [Text "hi"; Text "go"])] |}.

End Clean.

(** A class whose constructor reports a missing setting with a
    [RuntimeError] when called without arguments and accepts
    [append_description]. *)
Module NeedsFlag.

Definition error : exn := Exn OtherException "RuntimeError" "missing api key".

Definition NeedsFlagConverter : plugin_class :=
  {| construct := λ params,
       match params with
       | [] => Raise error
       | _ => Return UpperCase.converter
       end |}.

End NeedsFlag.

(** A class whose constructor rejects every keyword dictionary. *)
Module Unbuildable.

Definition error : exn :=
  Exn TypeError "TypeError" "__init__() missing 1 required argument".

Definition UnbuildableConverter : plugin_class :=
  {| construct := λ _, Raise error |}.

End Unbuildable.

(** Two modules that each define a class [FooConverter]: the one of
    [a_converter.py] works, the constructor of the other one fails. *)
Module Clash.

Definition BrokenFoo : plugin_class :=
  {| construct := λ _, Raise (Exn OtherException "RuntimeError" "boom") |}.

Definition import_module (module_name : string) : module_load :=
  if decide (module_name = "a_converter")
  then Imported [("FooConverter", UpperCase.UpperCaseConverter)]
  else Imported [("FooConverter", BrokenFoo)].

Definition dir : list string := ["a_converter.py"; "b_converter.py"].

End Clash.

(** A class named [HumanInTheLoopConverter] whose conversion waits for a
    person and never finishes. *)
Module Interactive.

Definition converter : plugin :=
  {| SUPPORTED_INPUT_TYPES := Some (Sequence ["text"]);
     SUPPORTED_OUTPUT_TYPES := Some (Sequence ["text"]);
     convert_async := λ _, Hangs |}.

Definition HumanInTheLoopConverter : plugin_class :=
  {| construct := λ _, Return converter |}.

End Interactive.

(** A class whose conversion sleeps for 6 seconds with [time.sleep],
    which holds the thread, and then returns its prompt. *)
Module Blocking.

Definition converter : plugin :=
  {| SUPPORTED_INPUT_TYPES := Some (Sequence ["text"]);
     SUPPORTED_OUTPUT_TYPES := Some (Sequence ["text"]);
     convert_async := λ prompt, Blocks 6 (Return prompt) |}.


End Blocking.

(** A directory with a module that cannot be imported between two that
    can; [slow_converter] holds a class whose conversion takes 30 seconds. *)
Module Mixed.

Definition slow : plugin :=
  {| SUPPORTED_INPUT_TYPES := Some (Sequence ["text"]);
     SUPPORTED_OUTPUT_TYPES := Some (Sequence ["text"]);
     convert_async := λ prompt, Finishes 30 (Return prompt) |}.

Definition SlowConverter : plugin_class :=
  {| construct := λ _, Return slow |}.

Definition error : exn :=
  Exn OtherException "ModuleNotFoundError" "No module named 'pyrit'".

Definition import_module (module_name : string) : module_load :=
  if decide (module_name = "broken_converter") then ImportFails error
  else if decide (module_name = "slow_converter")
  then Imported [("SlowConverter", SlowConverter)]
  else Imported [("UpperCaseConverter", UpperCase.UpperCaseConverter)].

Definition dir : list string :=
  ["upper_converter.py"; "slow_converter.py"; "broken_converter.py";
   "README.md"].

End Mixed.

(** ** Notions used in the statements *)



(** The writes of one probe: the record of the instance as working, if
    the probe makes it, and then the failure reason, if the probe stores
    one. *)
Definition record_probe (class_name : string) (passed : option plugin)
    (reason : option string) (self : ConverterDiscovery)
    : ConverterDiscovery :=
  let self :=
    match passed with
    | Some inst =>
        record_working class_name inst
          (getattr_types (SUPPORTED_INPUT_TYPES inst))
          (getattr_types (SUPPORTED_OUTPUT_TYPES inst))
          (bool_decide ("text" ∈ getattr_types (SUPPORTED_INPUT_TYPES inst))
           && bool_decide
                ("text" ∈ getattr_types (SUPPORTED_OUTPUT_TYPES inst)))
          self
    | None => self
    end in
  match reason with
  | Some error_msg => set_failed class_name error_msg self
  | None => self
  end.

(** Two ledgers that differ at most in what [failed_converters] holds
    under [name]. *)
Definition same_but_failed_at (name : string) (a b : ConverterDiscovery)
    : Prop :=
  working_converters a = working_converters b
  ∧ text_to_text_converters a = text_to_text_converters b
  ∧ ∀ k, k ≠ name -> failed_converters a !! k = failed_converters b !! k.

(** The label of the output column of a converter. *)
Definition output_label (converter_name : string) : string :=
  converter_name +:+ "_output".

(** What the batch processor writes for the outcome of a conversion. *)
Definition outcome_cell (r : result string) : cell :=
  match r with
  | Return output_text => Text output_text
  | Raise e => Text ("ERROR: " +:+ message e)
  end.

(** The cell written for a converter on a prompt ([NaN] stands in for a
    conversion that never finishes). *)
Definition converted (c : plugin) (prompt : string) : cell :=
  match await (convert_async c prompt) with
  | Some r => outcome_cell r
  | None => NaN
  end.

(** Every conversion that a batch run starts finishes. *)
Definition all_finish (d : PyDict.t plugin) (prompts : list cell) : Prop :=
  ∀ x p, x ∈ d -> p ∈ prompts -> skipped p = false ->
         is_Some (await (convert_async x.2 (Pandas.str p))).

(** The conversions of a batch run from row [idx] on: row by row, and
    within a row in the order of the converters. *)
Fixpoint expected_calls (idx : nat) (prompts : list cell)
    (d : PyDict.t plugin) : list event :=
  match prompts with
  | [] => []
  | p :: rest =>
      (if skipped p then []
       else (λ x, RowConvert idx x.1 (Pandas.str p)) <$> d)
      ++ expected_calls (S idx) rest d
  end.





(** The value of a capability attribute can be indexed where the script
    does so: it is a tuple or a list, or it is empty or absent. *)
Definition indexable (attr : option capability) : Prop :=
  match attr with
  | Some (KindSet _ (_ :: _)) => False
  | _ => True
  end.

(** A converter declares text as an input and as an output kind. *)
Definition declares_text_to_text (c : plugin) : Prop :=
  "text" ∈ getattr_types (SUPPORTED_INPUT_TYPES c)
  ∧ "text" ∈ getattr_types (SUPPORTED_OUTPUT_TYPES c).

(** The invariant of the ledger that every probe keeps. *)
Definition ledger_ok (self : ConverterDiscovery) : Prop :=
  (∀ n, n ∈ PyDict.keys (text_to_text_converters self) ->
        n ∈ dom (working_converters self))
  ∧ (∀ n inst, (n, inst) ∈ text_to_text_converters self ->
               declares_text_to_text inst)
  ∧ NoDup (PyDict.keys (text_to_text_converters self)).

(** The failures after which the loop of [_try_instantiate] goes on with the
    next candidate (see [try_patterns_raise]). *)
Definition keeps_probing (e : exn) : bool :=
  let error_str := PyStr.lower (message e) in
  match base e with
  | TypeError => true
  | ValueError =>
      PyStr.contains "required" error_str
      || PyStr.contains "empty" error_str
      || PyStr.contains "valid" error_str
  | _ =>
      PyStr.contains "required" error_str
      || PyStr.contains "missing" error_str
  end.

#[global] Instance pyval_eq_dec : EqDecision pyval.
Proof. solve_decision. Defined.

(** * The rest of the scripts

    The parts of [script.py] around the discovery and the batch loops (the
    single-prompt processor, the failure report, reading and saving, [main])
    and the import patchers.  String literals of the scripts with
    characters above U+00FF (the marks of the status column) are kept as
    their UTF-8 bytes; no string method is applied to them. *)

(** ** More string methods *)

Module PyText.

(** [s.replace(old, new)] for a non-empty [old]: the occurrences of [old]
    are found from left to right and do not overlap.  [skip] counts the
    characters of the occurrence just replaced that are still to pass. *)
Fixpoint replace_from (old new : string) (skip : nat) (s : string) : string :=
  match s with
  | EmptyString => EmptyString
  | String c rest =>
      match skip with
      | S k => replace_from old new k rest
      | 0 =>
          if String.prefix old s
          then new +:+ replace_from old new (String.length old - 1) rest
          else String c (replace_from old new 0 rest)
      end
  end.

Definition replace (old new s : string) : string := replace_from old new 0 s.

(** [s.split(sep)[0]] for a non-empty [sep]: the text before the first
    occurrence of [sep], all of [s] when there is none. *)
Fixpoint before (sep s : string) : string :=
  if String.prefix sep s then EmptyString
  else match s with
       | EmptyString => EmptyString
       | String c rest => String c (before sep rest)
       end.

(** [s.split(sep)] for a separator of one character. *)
Fixpoint split (sep : ascii) (s : string) : list string :=
  match s with
  | EmptyString => [EmptyString]
  | String c rest =>
      if decide (c = sep) then EmptyString :: split sep rest
      else match split sep rest with
           | [] => [String c EmptyString]
           | w :: ws => String c w :: ws
           end
  end.

(** [sep.join(l)] *)
Fixpoint join (sep : string) (l : list string) : string :=
  match l with
  | [] => EmptyString
  | w :: ws =>
      match ws with
      | [] => w
      | _ => w +:+ sep +:+ join sep ws
      end
  end.

End PyText.

(** ** The single-prompt processor *)

(** The dictionary of four lists that [process_single_prompt] fills. *)
Record prompt_results := PromptResults {
  Converter : list string;
  Input : list string;
  Output : list string;
  Status : list string
}.

Definition success_status : string := "✅ Success".

Definition failure_status (e : exn) : string := "❌ " +:+ type_name e.

(** The loop of [process_single_prompt]; the second component lists the
    converters on which [convert_async] was called.  [None] when a
    conversion never finishes. *)
Fixpoint single_prompt_loop (prompt : string) (converters : PyDict.t plugin)
    (results : prompt_results) : option (prompt_results * list string) :=
  match converters with
  | [] => Some (results, [])
  | (converter_name, converter) :: rest =>
      match await (convert_async converter prompt) with
      | None => None
      | Some r =>
          let results :=
            match r with
            | Return output_text =>
                {| Converter := Converter results ++ [converter_name];
                   Input := Input results ++ [prompt];
                   Output := Output results ++ [output_text];
                   Status := Status results ++ [success_status] |}
            | Raise e =>
                {| Converter := Converter results ++ [converter_name];
                   Input := Input results ++ [prompt];
                   Output := Output results ++ [message e];
                   Status := Status results ++ [failure_status e] |}
            end in
          match single_prompt_loop prompt rest results with
          | None => None
          | Some (results, called) => Some (results, converter_name :: called)
          end
      end
  end.

(** [pd.DataFrame(results)] for the four lists, which have one length. *)
Definition results_frame (results : prompt_results) : DataFrame :=
  {| nrows := length (Converter results);
     columns := [("Converter", Text <$> Converter results);
                 ("Input", Text <$> Input results);
                 ("Output", Text <$> Output results);
                 ("Status", Text <$> Status results)] |}.

Definition process_single_prompt (discovery : ConverterDiscovery)
    (prompt : string) : option (DataFrame * list string) :=
  match single_prompt_loop prompt (text_to_text_converters discovery)
          {| Converter := []; Input := []; Output := []; Status := [] |} with
  | None => None
  | Some (results, called) => Some (results_frame results, called)
  end.

(** ** The failure report *)

(** The order of [sorted] on the items of a dictionary of strings: tuples
    compare by their first components and, when these are equal, by their
    second ones. *)
Definition item_le (a b : string * string) : Prop :=
  if decide (a.1 = b.1) then String.leb a.2 b.2 = true
  else String.leb a.1 b.1 = true.

#[global] Instance item_le_dec a b : Decision (item_le a b).
Proof. unfold item_le. case_decide; apply _. Defined.

(** The entries that [discover_and_test_converters] prints when [verbose]
    is set: [sorted(self.failed_converters.items())[:20]]. *)
Definition failure_details (self : ConverterDiscovery)
    : list (string * string) :=
  take 20 (merge_sort item_le (map_to_list (failed_converters self))).

(** ** Reading, saving and [main] *)

Module Args.

(** The namespace that [parse_args] returns. *)
Record t := Make {
  input_file : option string;
  output : option string;
  prompt : option string;
  prompt_column : string;
  max_rows : option Z;
  verbose : bool
}.

End Args.

(** [if x:] for an optional string: [None] and the empty string are
    false. *)
Definition truthy (x : option string) : option string :=
  match x with
  | Some s => if decide (s = "") then None else Some s
  | None => None
  end.

Inductive file_format := Excel | Csv.

(** How a run of the script ends: it waits forever on a conversion, it dies
    of an exception that nothing catches ([Crashes]: the interpreter prints
    the traceback and ends with its own status for that), or [main] ends
    through [sys.exit] or by returning, after having written at most one
    file ([Exits]). *)
Inductive script_outcome :=
| NeverExits
| Crashes
| Exits (code : Z) (written : option (string * file_format * DataFrame)).

Section Script.

(** The plugin directory, as for discovery. *)
Variable import_module : string -> module_load.
Variable converter_dir : option (list string).

(** [pd.read_excel] and [pd.read_csv]: [None] when the call raises. *)
Variables read_excel read_csv : string -> option DataFrame.

(** [to_excel] and [to_csv] on a path: [false] when the call raises. *)
Variables to_excel to_csv : string -> DataFrame -> bool.

(** [datetime.now().strftime("%Y%m%d_%H%M%S")] at the time of saving. *)
Variable timestamp : string.

(** The [try] around [to_excel] with its fallback to [to_csv], as at the
    end of [process_excel] and in [main]. *)
Definition save (output_file : string) (table : DataFrame)
    : option (string * file_format) :=
  if to_excel output_file table then Some (output_file, Excel)
  else
    let csv_file := PyText.replace ".xlsx" ".csv" output_file in
    if to_csv csv_file table then Some (csv_file, Csv) else None.

(** The two nested [try] blocks that read [input_file]. *)
Definition read_input (input_file : string) : option DataFrame :=
  match read_excel input_file with
  | Some df => Some df
  | None => read_csv input_file
  end.

(** [process_excel] from the file name to the file written; [Died] is an
    outcome with pandas 3.0 or later only. *)
Definition process_excel_file (discovery : ConverterDiscovery)
    (input_file : string) (output_file : option string)
    (prompt_column : string) (max_rows : option Z) : script_outcome :=
  match process_excel discovery (read_input input_file) prompt_column
          max_rows with
  | NeverReturns => NeverExits
  | Rejected => Exits 0 None
  | Saved results _ =>
      let output_file :=
        match output_file with
        | Some name => name
        | None => "enriched_prompts_" +:+ timestamp +:+ ".xlsx"
        end in
      match save output_file results with
      | Some (path, format) => Exits 0 (Some (path, format, results))
      | None => Crashes
      end
  | Died _ => Crashes
  end.

(** [main]; the status of [Exits] is the one of [sys.exit] or 0 when
    [main] returns. *)
Definition main (args : Args.t) : script_outcome :=
  let discovery :=
    (discover_and_test_converters import_module init converter_dir).1 in
  if decide (length (text_to_text_converters discovery) = 0) then
    Exits 1 None
  else
    match truthy (Args.prompt args) with
    | Some prompt =>
        match process_single_prompt discovery prompt with
        | None => NeverExits
        | Some (results_df, _) =>
            let output_file :=
              match truthy (Args.output args) with
              | Some name => name
              | None => "prompt_variations_" +:+ timestamp +:+ ".xlsx"
              end in
            match save output_file results_df with
            | Some (path, format) =>
                Exits 0 (Some (path, format, results_df))
            | None => Crashes
            end
        end
    | None =>
        match truthy (Args.input_file args) with
        | Some input_file =>
            process_excel_file discovery input_file (Args.output args)
              (Args.prompt_column args) (Args.max_rows args)
        | None => Exits 1 None
        end
    end.

End Script.

(** ** Notions used in the further statements *)

(** The [Output] and the [Status] of the record of a conversion. *)
Definition record_output (r : result string) : string :=
  match r with
  | Return output_text => output_text
  | Raise e => message e
  end.

Definition record_status (r : result string) : string :=
  match r with
  | Return _ => success_status
  | Raise e => failure_status e
  end.

(** The outcome of a conversion that finishes (a returned empty text stands
    in for one that does not). *)
Definition outcome (c : plugin) (prompt : string) : result string :=
  default (Return "") (await (convert_async c prompt)).

(** A table with the single column [prompt] and one row. *)
Definition one_prompt (prompt : string) : DataFrame :=
  {| nrows := 1; columns := [("prompt", [Text prompt])] |}.

(** The condition under which [main] ends with [sys.exit(1)]: discovery
    found no text-to-text converter, or the command line has neither a
    prompt nor an input file. *)
Definition nothing_to_do (discovery : ConverterDiscovery) (args : Args.t)
    : Prop :=
  text_to_text_converters discovery = []
  ∨ (truthy (Args.prompt args) = None
     ∧ truthy (Args.input_file args) = None).

(** A file system for the examples: nothing can be read, and every table
    can be written as a workbook ([writable]) or only as CSV
    ([csv_only]). *)
Module Files.

Definition unreadable (path : string) : option DataFrame := None.
Definition writable (path : string) (table : DataFrame) : bool := true.
Definition refused (path : string) (table : DataFrame) : bool := false.

End Files.

(** ** The plugin directory of the repository

    [prompt_converter] as it is in the repository.  Both converter modules
    take their imports from [pyrit_compat], which load, and then define a
    class whose [__init__] has the default [converter_target =
    REQUIRED_VALUE]; the defaults of a [def] are evaluated when the [def]
    is executed, the name is bound nowhere in the module, and so the
    execution of the module raises [NameError]. *)
Module Repository.

Definition dir : list string :=
  ["__init__.py"; "pyrit_compat.py"; "tense_converter.py";
   "tone_converter.py"].

Definition required_value_unbound : exn :=
  Exn OtherException "NameError" "name 'REQUIRED_VALUE' is not defined".

Definition import_module (module_name : string) : module_load :=
  if decide (module_name = "tense_converter"
             ∨ module_name = "tone_converter")
  then ImportFails required_value_unbound
  else
    ImportFails
      (Exn OtherException "ModuleNotFoundError"
         ("No module named 'prompt_converter." +:+ module_name +:+ "'")).

End Repository.

(** A class whose instances declare their input kinds as a set, take an
    image path and return a text. *)
Module Tagged.

Definition converter : plugin :=
  {| SUPPORTED_INPUT_TYPES := Some (KindSet false ["image_path"]);
     SUPPORTED_OUTPUT_TYPES := Some (Sequence ["text"]);
     convert_async := λ prompt, Finishes 0 (Return prompt) |}.

Definition TaggedConverter : plugin_class :=
  {| construct := λ _, Return converter |}.

End Tagged.

(** ** The compatibility shim

    A class that takes [__init__], [convert_async] and the two capability
    tuples from the shim's [PromptConverter], directly or through
    [WordLevelConverter] or [LLMGenericTextConverter]: its constructor
    accepts any keyword arguments, it declares text in and text out, and
    its [convert_async] raises [NotImplementedError] with the name of the
    instance's class.  The three base classes themselves are such
    classes. *)
Module Shim.

Definition not_implemented (class_name : string) : exn :=
  Exn OtherException "NotImplementedError"
    (class_name +:+ " must implement convert_async()").

Definition instance_of (class_name : string) : plugin :=
  {| SUPPORTED_INPUT_TYPES := Some (Sequence ["text"]);
     SUPPORTED_OUTPUT_TYPES := Some (Sequence ["text"]);
     convert_async := λ _, Finishes 0 (Raise (not_implemented class_name)) |}.

Definition inheriting (class_name : string) : plugin_class :=
  {| construct := λ _, Return (instance_of class_name) |}.

(** What a converter module has as class members after
    [from pyrit_compat import PromptConverter] and the definition of its
    own class [own]. *)
Definition members (own_name : string) (own : plugin_class)
    : list (string * plugin_class) :=
  [("PromptConverter", inheriting "PromptConverter"); (own_name, own)].

End Shim.

(** A directory with one module that imports the base class and defines
    the scenario's converter. *)
Module WithBase.

Definition dir : list string := ["upper_converter.py"].

Definition import_module (module_name : string) : module_load :=
  Imported (Shim.members "UpperCaseConverter" UpperCase.UpperCaseConverter).

End WithBase.

(** The assignments [d[k] = v] for the pairs of [ws], made in order. *)
Definition assign_all {V} (ws : list (string * V)) (d : PyDict.t V)
    : PyDict.t V :=
  foldl (λ d w, PyDict.set w.1 w.2 d) d ws.

(** The assignments to [text_to_text_converters] that a run over [items]
    makes, in order. *)
Definition text_to_text_writes (items : list probe_item)
    : list (string * plugin) :=
  items ≫=
    (λ item,
       (text_to_text_converters (run_item init item).1
        : list (string * plugin))).

(** ** The import patcher ([patch_imports.py]) *)

Module PatchImports.

Definition newline : ascii := "010"%char.

(** [IMPORT_MAPPINGS], in the order of the dictionary. *)
Definition IMPORT_MAPPINGS : list (string * string) :=
  [ ("from pyrit.prompt_converter.prompt_converter import PromptConverter, ConverterResult",
     "from pyrit_compat import PromptConverter, ConverterResult");
    ("from pyrit.prompt_converter.prompt_converter import ConverterResult, PromptConverter",
     "from pyrit_compat import ConverterResult, PromptConverter");
    ("from pyrit.prompt_converter.prompt_converter import PromptConverter",
     "from pyrit_compat import PromptConverter");
    ("from pyrit.prompt_converter.prompt_converter import ConverterResult",
     "from pyrit_compat import ConverterResult");
    ("from pyrit.models import PromptDataType, data_serializer_factory",
     "from pyrit_compat import PromptDataType, data_serializer_factory");
    ("from pyrit.models import PromptDataType",
     "from pyrit_compat import PromptDataType");
    ("from pyrit.models import PromptDataType, SeedPrompt",
     "from pyrit_compat import PromptDataType, SeedPrompt");
    ("from pyrit.models import SeedPrompt",
     "from pyrit_compat import SeedPrompt");
    ("from pyrit.models import data_serializer_factory",
     "from pyrit_compat import data_serializer_factory");
    ("from pyrit.prompt_converter.word_level_converter import WordLevelConverter",
     "from pyrit_compat import WordLevelConverter");
    ("from pyrit.prompt_converter.text_selection_strategy import WordSelectionStrategy",
     "from pyrit_compat import WordSelectionStrategy");
    ("from pyrit.prompt_converter.llm_generic_text_converter import LLMGenericTextConverter",
     "from pyrit_compat import LLMGenericTextConverter");
    ("from pyrit.prompt_target import PromptChatTarget",
     "from pyrit_compat import PromptChatTarget");
    ("from pyrit.common.apply_defaults import REQUIRED_VALUE, apply_defaults",
     "from pyrit_compat import apply_defaults");
    ("from pyrit.common.apply_defaults import apply_defaults",
     "from pyrit_compat import apply_defaults");
    ("from pyrit.common.apply_defaults import REQUIRED_VALUE",
     "pass  # REQUIRED_VALUE not available") ].

(** The names that [handle_multiline_models_import] lets through. *)
Definition kept_names : list string :=
  ["PromptDataType"; "SeedPrompt"; "data_serializer_factory"; "SeedDataset"].

(** [item.split(' as ')[0].split('#')[0].strip()] *)
Definition item_name (item : string) : string :=
  PyStr.strip (PyText.before "#" (PyText.before " as " item)).

Definition handle_multiline_models_import (imports_text : string) : string :=
  let items :=
    filter (λ item, item ≠ "")
      (PyStr.strip <$> PyText.split "," imports_text) in
  let result_imports :=
    filter (λ name, name ∈ kept_names) (item_name <$> items) in
  match result_imports with
  | [] => "pass  # pyrit.models imports not available"
  | _ => "from pyrit_compat import " +:+ PyText.join ", " result_imports
  end.

(** [re.sub(pattern, replacement, content)] for a pattern of the shape of
    [MULTILINE_PATTERNS]: the literal text [head], an opening parenthesis,
    white space (as much as there is), a group that is as short as
    possible, and a closing parenthesis.  A match starts wherever [head]
    and the parenthesis are followed, anywhere later, by a closing
    parenthesis; the group is the text from the first character that is
    not white space up to the first closing parenthesis; the search goes
    on behind the match.  [skip] counts the characters of the match just
    replaced that are still to pass. *)
Fixpoint sub_import_list (head : string) (replacement : string -> string)
    (skip : nat) (content : string) : string :=
  match content with
  | EmptyString => EmptyString
  | String c rest =>
      match skip with
      | S k => sub_import_list head replacement k rest
      | 0 =>
          let opening := head +:+ "(" in
          if String.prefix opening content then
            let n := String.length opening in
            let body :=
              String.substring n (String.length content - n) content in
            match String.index 0 ")" body with
            | Some i =>
                replacement (PyStr.lstrip (String.substring 0 i body))
                +:+ sub_import_list head replacement (n + i) rest
            | None => String c (sub_import_list head replacement 0 rest)
            end
          else String c (sub_import_list head replacement 0 rest)
      end
  end.

(** [MULTILINE_PATTERNS]: the literal head of each pattern and its
    replacement as a function of the group. *)
Definition MULTILINE_PATTERNS : list (string * (string -> string)) :=
  [ ("from pyrit.models import ", handle_multiline_models_import);
    ("from pyrit.prompt_converter.text_selection_strategy import ",
     λ _, "from pyrit_compat import WordSelectionStrategy");
    ("from pyrit.prompt_converter.word_level_converter import ",
     λ _, "from pyrit_compat import WordLevelConverter");
    ("from pyrit.exceptions import ",
     λ _, "pass  # pyrit.exceptions not shimmed") ].

(** The first pass of [patch_file]. *)
Definition exact_matches (content : string) : string :=
  foldl (λ content '(old_import, new_import),
           if PyStr.contains old_import content
           then PyText.replace old_import new_import content
           else content)
    content IMPORT_MAPPINGS.

(** The second pass. *)
Definition multiline_patterns (content : string) : string :=
  foldl (λ content '(head, replacement),
           sub_import_list head replacement 0 content)
    content MULTILINE_PATTERNS.

(** The loop of the third pass over the lines that are left; [seen] is the
    set of the same name. *)
Fixpoint deduplicate (seen : gset string) (lines : list string)
    : list string :=
  match lines with
  | [] => []
  | line :: rest =>
      let stripped := PyStr.strip line in
      if PyStr.startswith "from pyrit_compat import" stripped
         || negb (PyStr.startswith "from pyrit" stripped)
      then
        if bool_decide (stripped ∉ seen)
           || negb (PyStr.startswith "from pyrit_compat" stripped)
        then
          line ::
            deduplicate
              (if PyStr.startswith "from pyrit_compat" stripped
               then {[stripped]} ∪ seen else seen) rest
        else deduplicate seen rest
      else line :: deduplicate seen rest
  end.

(** The third pass. *)
Definition remove_duplicate_imports (content : string) : string :=
  PyText.join (String newline "")
    (deduplicate ∅ (PyText.split newline content)).

(** What [patch_file] makes of the text of a file. *)
Definition patch_content (content : string) : string :=
  remove_duplicate_imports (multiline_patterns (exact_matches content)).

(** [patch_file]: [read] is the text of the file, [None] when reading
    raises; [write_ok] tells whether writing succeeds.  The result is the
    text written, if any, and the pair of counts that is returned. *)
Definition patch_file (read : option string) (write_ok : bool)
    : option string * (nat * nat) :=
  match read with
  | None => (None, (0, 1))
  | Some original_content =>
      let content := patch_content original_content in
      if decide (content = original_content) then (None, (0, 0))
      else if write_ok then (Some content, (1, 1))
      else (None, (0, 1))
  end.

End PatchImports.

(** ** Notions for the statements about the patcher *)

(** A line that, without the white space around it, starts as an import
    from the shim. *)
Definition is_compat_import (line : string) : bool :=
  PyStr.startswith "from pyrit_compat import" (PyStr.strip line).

(** [p] occurs in [s]. *)
Definition occurs (p s : string) : Prop := ∃ a c, s = a +:+ p +:+ c.

(** One entry of a parenthesised import list as it is written between two
    commas: white space, the imported name, possibly [as] and an alias,
    white space.  An entry without a name is the white space after a
    trailing comma. *)
Record import_item := ImportItem {
  lead : string;
  imported : string;
  alias : option string;
  trail : string
}.

Definition item_text (it : import_item) : string :=
  lead it +:+ imported it
  +:+ match alias it with Some a => " as " +:+ a | None => "" end
  +:+ trail it.

(** White space only. *)
Definition blank (w : string) : Prop :=
  Forall (λ c, PyStr.isspace c = true) (list_ascii_of_string w).

(** A non-empty word without white space, comma or hash. *)
Definition identifier (n : string) : Prop :=
  n ≠ ""
  ∧ Forall (λ c, PyStr.isspace c = false ∧ c ≠ ","%char ∧ c ≠ "#"%char)
      (list_ascii_of_string n).

Definition well_formed (it : import_item) : Prop :=
  blank (lead it) ∧ blank (trail it)
  ∧ ((imported it = "" ∧ alias it = None)
     ∨ (identifier (imported it)
        ∧ ∀ a, alias it = Some a -> identifier a)).

(** The statement that [handle_multiline_models_import] writes for a list
    of names. *)
Definition compat_import (names : list string) : string :=
  match names with
  | [] => "pass  # pyrit.models imports not available"
  | _ => "from pyrit_compat import " +:+ PyText.join ", " names
  end.


(** A text that is empty or ends with a line end. *)
Definition whole_lines (pre : string) : Prop :=
  pre = "" ∨ ∃ p, pre = p +:+ String PatchImports.newline "".

(** The first entry of an import list without the white space in front of
    it. *)
Definition without_lead (it : import_item) : import_item :=
  if decide (imported it = "") then ImportItem "" "" None ""
  else ImportItem "" (imported it) (alias it) (trail it).

(** The entries of an import list written over three lines: a name with
    an alias, a name that the shim does not have, and the line end after
    the trailing comma. *)
Definition three_line_list : list import_item :=
  [ImportItem (String PatchImports.newline "    ") "SeedPrompt" (Some "SP") "";
   ImportItem (String PatchImports.newline "    ") "Message" None "";
   ImportItem (String PatchImports.newline "") "" None ""].

(** * Properties *)

(** ** Strings *)

Section StringFacts.

Lemma prefix_lower (w s : string) :
  String.prefix w s = true ->
  String.prefix (PyStr.lower w) (PyStr.lower s) = true.
Proof.
  revert s. induction w as [|a w IH]; intros [|b s]; simpl; try done.
  destruct (ascii_dec a b) as [->|]; [|done].
  intros Hp. destruct (ascii_dec _ _); [auto | congruence].
Qed.

Lemma contains_lower (w s : string) :
  PyStr.contains w s = true ->
  PyStr.contains (PyStr.lower w) (PyStr.lower s) = true.
Proof.
  induction s as [|b s IH]; cbn [PyStr.contains PyStr.lower].
  - rewrite !orb_false_r. apply (prefix_lower w "").
  - intros [Hp | Hc]%orb_true_iff; apply orb_true_iff.
    + left. apply (prefix_lower w (String b s) Hp).
    + right. auto.
Qed.

(** A lower-case word found in a message is found in the lower-cased
    message. *)
Lemma contains_lower_word (w s : string) :
  PyStr.lower w = w ->
  PyStr.contains w s = true -> PyStr.contains w (PyStr.lower s) = true.
Proof. intros Hw Hc. rewrite <- Hw. by apply contains_lower. Qed.

End StringFacts.

(** ** The prober *)

Section Prober.

Variable cls : plugin_class.

Lemma try_patterns_raise (params : kwargs) (rest : list kwargs) (e : exn) :
  construct cls params = Raise e ->
  try_patterns cls (params :: rest) =
    if keeps_probing e
    then ((try_patterns cls rest).1, params :: (try_patterns cls rest).2)
    else (None, [params]).
Proof.
  intros He. simpl. rewrite He. unfold keeps_probing.
  destruct (try_patterns cls rest) as [r tried].
  destruct (base e); simpl;
    repeat match goal with
           | |- context [PyStr.contains ?w ?s] =>
               destruct (PyStr.contains w s)
           end; done.
Qed.

Lemma try_patterns_return (params : kwargs) (rest : list kwargs)
    (inst : plugin) :
  construct cls params = Return inst ->
  try_patterns cls (params :: rest) = (Some inst, [params]).
Proof. intros He. simpl. by rewrite He. Qed.

(** The constructor calls follow the candidate list: no candidate is
    skipped and none is tried out of turn. *)
Lemma tried_prefix (todo : list kwargs) :
  (try_patterns cls todo).2 `prefix_of` todo.
Proof.
  induction todo as [|params rest IH]; [done|].
  destruct (construct cls params) as [inst|e] eqn:He.
  - rewrite (try_patterns_return _ _ _ He). by apply prefix_cons, prefix_nil.
  - rewrite (try_patterns_raise _ _ _ He).
    destruct (keeps_probing e); simpl.
    + by apply prefix_cons.
    + by apply prefix_cons, prefix_nil.
Qed.

(** When a candidate was tried, all candidates before it had failed in a
    way that keeps the loop going, and the loop went through them. *)
Lemma try_patterns_reach (pre : list kwargs) (params : kwargs)
    (rest : list kwargs) :
  params ∉ pre ->
  params ∈ (try_patterns cls (pre ++ params :: rest)).2 ->
  try_patterns cls (pre ++ params :: rest) =
    ((try_patterns cls (params :: rest)).1,
     pre ++ (try_patterns cls (params :: rest)).2)
  ∧ Forall (λ p, ∃ e, construct cls p = Raise e ∧ keeps_probing e = true)
      pre.
Proof.
  induction pre as [|p pre IH]; intros Hnotin Hin.
  - split; [by destruct (try_patterns _ _) | constructor].
  - apply not_elem_of_cons in Hnotin as [Hne Hnotin].
    rewrite <- app_comm_cons in *.
    destruct (construct cls p) as [inst|e] eqn:He.
    + rewrite (try_patterns_return _ _ _ He) in Hin.
      apply list_elem_of_singleton in Hin. done.
    + rewrite (try_patterns_raise _ _ _ He) in *.
      destruct (keeps_probing e) eqn:Hk; simpl in Hin.
      * apply elem_of_cons in Hin as [?|Hin]; [done|].
        destruct (IH Hnotin Hin) as [-> HF]. split; [done|].
        constructor; eauto.
      * apply list_elem_of_singleton in Hin. done.
Qed.

Lemma try_patterns_all_fail (todo : list kwargs) :
  Forall (λ p, ∃ e, construct cls p = Raise e ∧ keeps_probing e = true)
    todo ->
  try_patterns cls todo = (None, todo).
Proof.
  induction 1 as [|p todo (e & He & Hk) _ IH]; [done|].
  by rewrite (try_patterns_raise _ _ _ He), Hk, IH.
Qed.

End Prober.

Lemma patterns_NoDup : NoDup patterns.
Proof. apply (bool_decide_unpack _). by vm_compute. Qed.

Lemma try_instantiate_eq (cls : plugin_class) :
  _try_instantiate cls = try_patterns cls patterns.
Proof. reflexivity. Qed.

Section ProberAt.

Variable cls : plugin_class.
Variables (todo pre : list kwargs) (params : kwargs) (rest : list kwargs).
Hypothesis todo_NoDup : NoDup todo.
Hypothesis todo_split : todo = pre ++ params :: rest.
Hypothesis tried : params ∈ (try_patterns cls todo).2.

Lemma split_notin : params ∉ pre.
Proof.
  pose proof todo_NoDup as Hnd. rewrite todo_split in Hnd.
  apply NoDup_app in Hnd as (_ & Hdisj & _).
  intros Hp. apply (Hdisj _ Hp). by left.
Qed.

Lemma try_patterns_raise_at (e : exn) :
  construct cls params = Raise e ->
  try_patterns cls todo =
    if keeps_probing e
    then ((try_patterns cls rest).1,
          pre ++ params :: (try_patterns cls rest).2)
    else (None, pre ++ [params]).
Proof.
  intros He. pose proof tried as Hin. rewrite todo_split in Hin |- *.
  destruct (try_patterns_reach cls pre params rest split_notin Hin)
    as [-> _].
  rewrite (try_patterns_raise cls _ _ _ He).
  by destruct (keeps_probing e).
Qed.

Lemma try_patterns_return_at (inst : plugin) :
  construct cls params = Return inst ->
  try_patterns cls todo = (Some inst, pre ++ [params])
  ∧ Forall (λ p, ∃ e, construct cls p = Raise e) pre.
Proof.
  intros He. pose proof tried as Hin. rewrite todo_split in Hin |- *.
  destruct (try_patterns_reach cls pre params rest split_notin Hin)
    as [-> HF].
  rewrite (try_patterns_return cls _ _ _ He). split; [done|].
  eapply Forall_impl; [exact HF|]. intros p (e & ? & _). eauto.
Qed.

End ProberAt.

(** C1 (amended).  When the constructor fails on a candidate that the prober
    tries, a [TypeError] makes the prober go on with the next candidate; a
    [ValueError] does so exactly when its lower-cased message contains
    "required", "empty" or "valid" (in particular when the message itself
    contains one of them) and stops the probing otherwise; any other
    exception stops the probing, with no further candidate tried, unless its
    lower-cased message contains "required" or "missing", in which case the
    prober goes on as well. *)
Theorem C1_failure_classification (cls : plugin_class)
    (pre : list kwargs) (params : kwargs) (rest : list kwargs) (e : exn) :
  patterns = pre ++ params :: rest ->
  params ∈ (_try_instantiate cls).2 ->
  construct cls params = Raise e ->
  let error_str := PyStr.lower (message e) in
  let advances :=
    _try_instantiate cls =
      ((try_patterns cls rest).1, pre ++ params :: (try_patterns cls rest).2) in
  let stops := _try_instantiate cls = (None, pre ++ [params]) in
  (base e = TypeError -> advances)
  ∧ (base e = ValueError ->
     if PyStr.contains "required" error_str
        || PyStr.contains "empty" error_str
        || PyStr.contains "valid" error_str
     then advances else stops)
  ∧ (base e = ValueError ->
     PyStr.contains "required" (message e)
     || PyStr.contains "empty" (message e)
     || PyStr.contains "valid" (message e) = true ->
     advances)
  ∧ (base e ≠ TypeError -> base e ≠ ValueError ->
     if PyStr.contains "required" error_str
        || PyStr.contains "missing" error_str
     then advances else stops).
Proof.
  intros Hsplit Hin He error_str advances stops.
  rewrite try_instantiate_eq in Hin.
  pose proof (try_patterns_raise_at cls patterns pre params rest
                patterns_NoDup Hsplit Hin e He) as Hrun.
  rewrite <- try_instantiate_eq in Hrun.
  unfold advances, stops. unfold keeps_probing in Hrun.
  fold error_str in Hrun.
  repeat split.
  - intros Hb. by rewrite Hb in Hrun.
  - intros Hb. rewrite Hb in Hrun. by destruct (_ || _ || _).
  - intros Hb Hraw. rewrite Hb in Hrun.
    assert (PyStr.contains "required" error_str
            || PyStr.contains "empty" error_str
            || PyStr.contains "valid" error_str = true) as Hlow.
    { apply orb_true_iff in Hraw as [Hraw|Hraw];
        [apply orb_true_iff in Hraw as [Hraw|Hraw]|];
        apply (contains_lower_word _ _ eq_refl) in Hraw;
        unfold error_str; rewrite Hraw; by rewrite ?orb_true_r. }
    by rewrite Hlow in Hrun.
  - intros Hb1 Hb2. destruct (base e); try done; by destruct (_ || _).
Qed.

(** At [NeedsFlagConverter] the failure on the first candidate is a
    [RuntimeError] that mentions "missing": the prober goes on. *)
Lemma C1_failure_classification_witness :
  _try_instantiate NeedsFlag.NeedsFlagConverter =
    (Some UpperCase.converter, [[]; [("append_description", PyBool false)]]).
Proof.
  assert ([] ∈ (_try_instantiate NeedsFlag.NeedsFlagConverter).2) as Hin.
  { vm_compute. left. }
  pose proof (C1_failure_classification NeedsFlag.NeedsFlagConverter
                [] [] (tail patterns) NeedsFlag.error eq_refl Hin eq_refl)
    as H.
  cbv zeta in H. destruct H as (_ & _ & _ & H).
  assert (base NeedsFlag.error ≠ TypeError) as H1 by discriminate.
  assert (base NeedsFlag.error ≠ ValueError) as H2 by discriminate.
  specialize (H H1 H2). vm_compute in H. vm_compute. exact H.
Defined.

(** C1 as stated fails: a failure that is neither a [TypeError] nor a
    [ValueError] with one of the three words does not always stop the
    probing.  [NeedsFlagConverter] raises a [RuntimeError] on the first
    candidate and is instantiated with the second. *)
Lemma C1_counterexample :
  ¬ (∀ (cls : plugin_class) (pre : list kwargs) (params : kwargs)
       (rest : list kwargs) (e : exn),
       patterns = pre ++ params :: rest ->
       params ∈ (_try_instantiate cls).2 ->
       construct cls params = Raise e ->
       base e ≠ TypeError ->
       ¬ (base e = ValueError
          ∧ PyStr.contains "required" (message e)
            || PyStr.contains "empty" (message e)
            || PyStr.contains "valid" (message e) = true) ->
       _try_instantiate cls = (None, pre ++ [params])).
Proof.
  intros H.
  assert ([] ∈ (_try_instantiate NeedsFlag.NeedsFlagConverter).2) as Hin.
  { vm_compute. left. }
  specialize (H NeedsFlag.NeedsFlagConverter [] [] (tail patterns)
                NeedsFlag.error eq_refl Hin eq_refl).
  assert (_try_instantiate NeedsFlag.NeedsFlagConverter = (None, [[]]))
    as Hstop.
  { apply H; [discriminate | by intros [? _]]. }
  apply (f_equal fst) in Hstop. vm_compute in Hstop. discriminate Hstop.
Qed.

(** C2.  The prober calls the constructor on the candidates in the order of
    [patterns], starting with the empty keyword dictionary; the first
    construction that succeeds ends the loop and its instance is returned,
    no later candidate being tried; and when every candidate fails in a way
    that keeps the loop going, the class is recorded in [failed_converters]
    as not instantiable. *)
Theorem C2_first_success_wins (cls : plugin_class)
    (self : ConverterDiscovery) (class_name : string) :
  (_try_instantiate cls).2 `prefix_of` patterns
  ∧ head patterns = Some []
  ∧ head (_try_instantiate cls).2 = Some []
  ∧ (∀ (pre : list kwargs) (params : kwargs) (rest : list kwargs)
       (inst : plugin),
       patterns = pre ++ params :: rest ->
       params ∈ (_try_instantiate cls).2 ->
       construct cls params = Return inst ->
       _try_instantiate cls = (Some inst, pre ++ [params])
       ∧ Forall (λ p, ∃ e, construct cls p = Raise e) pre)
  ∧ ((∀ p, p ∈ patterns ->
        ∃ e, construct cls p = Raise e ∧ keeps_probing e = true) ->
     _try_instantiate cls = (None, patterns)
     ∧ _test_converter_class self class_name cls =
         (set_failed class_name
            "Could not instantiate with any known parameters" self,
          Construct class_name <$> patterns)).
Proof.
  split; [rewrite try_instantiate_eq; apply tried_prefix|].
  split; [done|]. split.
  { rewrite try_instantiate_eq.
    change patterns with ([] :: tail patterns).
    destruct (construct cls []) as [inst|e] eqn:He.
    - by rewrite (try_patterns_return cls _ _ _ He).
    - rewrite (try_patterns_raise cls _ _ _ He). by destruct (keeps_probing e). }
  split.
  - intros pre params rest inst Hsplit Hin He.
    rewrite try_instantiate_eq in Hin |- *.
    exact (try_patterns_return_at cls patterns pre params rest
             patterns_NoDup Hsplit Hin inst He).
  - intros Hall.
    assert (Hnone : _try_instantiate cls = (None, patterns)).
    { rewrite try_instantiate_eq.
      apply try_patterns_all_fail, Forall_forall. exact Hall. }
    split; [done|]. unfold _test_converter_class. by rewrite Hnone.
Qed.

(** [UpperCaseConverter] is built by the first candidate;
    [UnbuildableConverter] exhausts the list and is recorded as failed. *)
Lemma C2_first_success_wins_witness :
  _try_instantiate UpperCase.UpperCaseConverter
    = (Some UpperCase.converter, [[]])
  ∧ failed_converters
      (_test_converter_class init "UnbuildableConverter"
         Unbuildable.UnbuildableConverter).1 !! "UnbuildableConverter"
    = Some "Could not instantiate with any known parameters".
Proof.
  split.
  - pose proof (C2_first_success_wins UpperCase.UpperCaseConverter init
                  "UpperCaseConverter") as (_ & _ & _ & H & _).
    assert ([] ∈ (_try_instantiate UpperCase.UpperCaseConverter).2) as Hin.
    { vm_compute. left. }
    destruct (H [] [] (tail patterns) UpperCase.converter eq_refl Hin eq_refl)
      as [Heq _].
    exact Heq.
  - pose proof (C2_first_success_wins Unbuildable.UnbuildableConverter init
                  "UnbuildableConverter") as (_ & _ & _ & _ & H).
    destruct H as [_ ->].
    + intros p _. exists Unbuildable.error. split; [done|]. by vm_compute.
    + apply lookup_insert_eq.
Defined.

(** ** Insertion-ordered dictionaries *)

Section PyDictFacts.

Context {V : Type}.
Implicit Types (d : PyDict.t V) (k : string) (v : V).

Lemma PyDict_elem_of_set k v d (x : string * V) :
  x ∈ PyDict.set k v d -> x = (k, v) ∨ x ∈ d.
Proof.
  induction d as [|[k' v'] d IH]; simpl.
  - intros ->%list_elem_of_singleton. by left.
  - case_decide.
    + intros [->|?]%elem_of_cons; [by left | right; by right].
    + intros [->|Hx]%elem_of_cons; [right; by left|].
      destruct (IH Hx); [by left | right; by right].
Qed.

Lemma PyDict_keys_set k v d (x : string) :
  x ∈ PyDict.keys (PyDict.set k v d) <-> x = k ∨ x ∈ PyDict.keys d.
Proof.
  unfold PyDict.keys. induction d as [|[k' v'] d IH]; simpl.
  - rewrite list_elem_of_singleton, elem_of_nil. tauto.
  - case_decide; simpl; rewrite !elem_of_cons; [subst | rewrite IH]; tauto.
Qed.

Lemma PyDict_NoDup_set k v d :
  NoDup (PyDict.keys d) -> NoDup (PyDict.keys (PyDict.set k v d)).
Proof.
  unfold PyDict.keys. induction d as [|[k' v'] d IH]; simpl.
  - intros _. apply NoDup_singleton.
  - rewrite !NoDup_cons. intros [Hk Hd]. case_decide; simpl.
    + subst. by rewrite NoDup_cons.
    + rewrite NoDup_cons. split; [|auto].
      intros [?|?]%(PyDict_keys_set k v d k'); [congruence | done].
Qed.

Lemma PyDict_get_set_eq k v d : PyDict.get k (PyDict.set k v d) = Some v.
Proof.
  induction d as [|[k' v'] d IH]; simpl.
  - by rewrite decide_True.
  - case_decide; simpl; [by rewrite decide_True | by rewrite decide_False].
Qed.

Lemma PyDict_get_elem_of k v d : PyDict.get k d = Some v -> (k, v) ∈ d.
Proof.
  induction d as [|[k' v'] d IH]; simpl; [done|].
  case_decide; [intros [= ->]; subst; by left | right; auto].
Qed.

End PyDictFacts.

(** ** One probe *)

Section ProbeStep.

Implicit Types (self : ConverterDiscovery) (n : string) (c : plugin_class).

Lemma first_kind_raise (attr : option capability) (e : exn) :
  first_kind attr = Raise e -> ¬ indexable attr.
Proof.
  destruct attr as [[[|??]|? [|??]]|]; simpl; try discriminate.
  intros _ [].
Qed.

(** What a probe writes, and the calls that it makes, do not depend on the
    ledger.  A probe that stores no failure reason records the instance as
    working; one that does both has met a capability attribute that cannot
    be indexed, after the record was made. *)
Lemma test_class_cases n c :
  ∃ passed reason evs,
    (∀ self,
       _test_converter_class self n c =
         (record_probe n passed reason self, evs))
    ∧ (∀ inst, passed = Some inst -> (_try_instantiate c).1 = Some inst)
    ∧ (passed = None -> is_Some reason)
    ∧ (reason = None -> is_Some passed)
    ∧ (is_Some passed -> is_Some reason ->
       ∃ inst,
         passed = Some inst
         ∧ n ≠ "HumanInTheLoopConverter"
         ∧ ¬ ("text" ∈ getattr_types (SUPPORTED_INPUT_TYPES inst)
              ∧ "text" ∈ getattr_types (SUPPORTED_OUTPUT_TYPES inst))
         ∧ ¬ (indexable (SUPPORTED_INPUT_TYPES inst)
              ∧ indexable (SUPPORTED_OUTPUT_TYPES inst))).
Proof.
  unfold _test_converter_class.
  destruct (_try_instantiate c) as [[inst|] tried].
  2:{ exists None, (Some "Could not instantiate with any known parameters").
      eexists. split; [done|]. split; [done|]. split; [by eauto|].
      split; [done|]. by intros [? [=]]. }
  assert (Hgood : ∀ evs : list event,
    ∃ passed reason evs',
      (∀ self,
         (record_working n inst
            (getattr_types (SUPPORTED_INPUT_TYPES inst))
            (getattr_types (SUPPORTED_OUTPUT_TYPES inst))
            (bool_decide
               ("text" ∈ getattr_types (SUPPORTED_INPUT_TYPES inst))
             && bool_decide
                  ("text" ∈ getattr_types (SUPPORTED_OUTPUT_TYPES inst)))
            self, evs) = (record_probe n passed reason self, evs'))
      ∧ (∀ inst', passed = Some inst' -> Some inst = Some inst')
      ∧ (passed = None -> is_Some reason)
      ∧ (reason = None -> is_Some passed)
      ∧ (is_Some passed -> is_Some reason ->
         ∃ inst',
           passed = Some inst'
           ∧ n ≠ "HumanInTheLoopConverter"
           ∧ ¬ ("text" ∈ getattr_types (SUPPORTED_INPUT_TYPES inst')
                ∧ "text" ∈ getattr_types (SUPPORTED_OUTPUT_TYPES inst'))
           ∧ ¬ (indexable (SUPPORTED_INPUT_TYPES inst')
                ∧ indexable (SUPPORTED_OUTPUT_TYPES inst')))).
  { intros evs. exists (Some inst), None, evs.
    split; [done|]. split; [by intros ? [= ->]|]. split; [done|].
    split; [by eauto|]. by intros _ [? [=]]. }
  assert (Hbad : ∀ (msg : string) (evs : list event),
    ∃ passed reason evs',
      (∀ self, (set_failed n msg self, evs)
               = (record_probe n passed reason self, evs'))
      ∧ (∀ inst', passed = Some inst' -> Some inst = Some inst')
      ∧ (passed = None -> is_Some reason)
      ∧ (reason = None -> is_Some passed)
      ∧ (is_Some passed -> is_Some reason ->
         ∃ inst',
           passed = Some inst'
           ∧ n ≠ "HumanInTheLoopConverter"
           ∧ ¬ ("text" ∈ getattr_types (SUPPORTED_INPUT_TYPES inst')
                ∧ "text" ∈ getattr_types (SUPPORTED_OUTPUT_TYPES inst'))
           ∧ ¬ (indexable (SUPPORTED_INPUT_TYPES inst')
                ∧ indexable (SUPPORTED_OUTPUT_TYPES inst')))).
  { intros msg evs. exists None, (Some msg), evs.
    split; [done|]. split; [done|]. split; [by eauto|].
    split; [done|]. by intros [? [=]]. }
  destruct (decide (n = "HumanInTheLoopConverter")) as [Hname|Hname];
    [apply Hgood|].
  destruct (wait_for _ _) as [r|e]; [|destruct (base e); apply Hbad].
  destruct (bool_decide _ && bool_decide _) eqn:Hb; [apply Hgood|].
  assert (Hnot : ¬ ("text" ∈ getattr_types (SUPPORTED_INPUT_TYPES inst)
                    ∧ "text" ∈ getattr_types (SUPPORTED_OUTPUT_TYPES inst))).
  { intros [Hi Ho]. by rewrite !bool_decide_eq_true_2 in Hb. }
  assert (Hboth : ∀ (msg : string) (evs : list event), ¬ (indexable (SUPPORTED_INPUT_TYPES inst)
                      ∧ indexable (SUPPORTED_OUTPUT_TYPES inst)) ->
    ∃ passed reason evs',
      (∀ self,
         (set_failed n msg
            (record_working n inst
               (getattr_types (SUPPORTED_INPUT_TYPES inst))
               (getattr_types (SUPPORTED_OUTPUT_TYPES inst)) false self),
          evs) = (record_probe n passed reason self, evs'))
      ∧ (∀ inst', passed = Some inst' -> Some inst = Some inst')
      ∧ (passed = None -> is_Some reason)
      ∧ (reason = None -> is_Some passed)
      ∧ (is_Some passed -> is_Some reason ->
         ∃ inst',
           passed = Some inst'
           ∧ n ≠ "HumanInTheLoopConverter"
           ∧ ¬ ("text" ∈ getattr_types (SUPPORTED_INPUT_TYPES inst')
                ∧ "text" ∈ getattr_types (SUPPORTED_OUTPUT_TYPES inst'))
           ∧ ¬ (indexable (SUPPORTED_INPUT_TYPES inst')
                ∧ indexable (SUPPORTED_OUTPUT_TYPES inst')))).
  { intros msg evs Hidx. exists (Some inst), (Some msg), evs.
    split; [intros self; unfold record_probe; by rewrite Hb|].
    split; [by intros ? [= ->]|]. split; [done|]. split; [done|].
    intros _ _. by exists inst. }
  destruct (first_kind (SUPPORTED_INPUT_TYPES inst)) as [k1|e1] eqn:H1.
  2:{ apply Hboth. intros [Hi _]. by apply (first_kind_raise _ _ H1). }
  destruct (first_kind (SUPPORTED_OUTPUT_TYPES inst)) as [k2|e2] eqn:H2.
  2:{ apply Hboth. intros [_ Ho]. by apply (first_kind_raise _ _ H2). }
  apply Hgood.
Qed.

Lemma record_working_working n inst ins outs b self :
  working_converters (record_working n inst ins outs b self) =
    <[n := {| instance := inst; inputs := ins; outputs := outs;
              is_text_to_text := b |}]> (working_converters self).
Proof. unfold record_working. by destruct b. Qed.

Lemma record_working_failed n inst ins outs b self :
  failed_converters (record_working n inst ins outs b self) =
    failed_converters self.
Proof. unfold record_working. by destruct b. Qed.

Lemma record_working_text_to_text n inst ins outs b self :
  text_to_text_converters (record_working n inst ins outs b self) =
    if b then PyDict.set n inst (text_to_text_converters self)
    else text_to_text_converters self.
Proof. unfold record_working. by destruct b. Qed.

Lemma record_probe_working n passed reason self :
  working_converters (record_probe n passed reason self) =
    match passed with
    | Some inst =>
        <[n := {| instance := inst;
                  inputs := getattr_types (SUPPORTED_INPUT_TYPES inst);
                  outputs := getattr_types (SUPPORTED_OUTPUT_TYPES inst);
                  is_text_to_text :=
                    bool_decide
                      ("text" ∈ getattr_types (SUPPORTED_INPUT_TYPES inst))
                    && bool_decide
                         ("text" ∈
                            getattr_types (SUPPORTED_OUTPUT_TYPES inst)) |}]>
          (working_converters self)
    | None => working_converters self
    end.
Proof.
  unfold record_probe.
  destruct reason, passed; cbn [set_failed working_converters];
    by rewrite ?record_working_working.
Qed.

Lemma record_probe_failed n passed reason self :
  failed_converters (record_probe n passed reason self) =
    match reason with
    | Some msg => <[n := msg]> (failed_converters self)
    | None => failed_converters self
    end.
Proof.
  unfold record_probe.
  destruct reason, passed; cbn [set_failed failed_converters];
    by rewrite ?record_working_failed.
Qed.

Lemma record_probe_text_to_text n passed reason self :
  text_to_text_converters (record_probe n passed reason self) =
    match passed with
    | Some inst =>
        if bool_decide ("text" ∈ getattr_types (SUPPORTED_INPUT_TYPES inst))
           && bool_decide
                ("text" ∈ getattr_types (SUPPORTED_OUTPUT_TYPES inst))
        then PyDict.set n inst (text_to_text_converters self)
        else text_to_text_converters self
    | None => text_to_text_converters self
    end.
Proof.
  unfold record_probe.
  destruct reason, passed; cbn [set_failed text_to_text_converters];
    by rewrite ?record_working_text_to_text.
Qed.


End ProbeStep.

(** ** The run *)

Lemma ledger_ok_init : ledger_ok init.
Proof.
  split; [|split]; simpl.
  - intros n Hn. by apply elem_of_nil in Hn.
  - intros n inst Hn. by apply elem_of_nil in Hn.
  - apply NoDup_nil_2.
Qed.

Lemma same_but_failed_at_refl (name : string) (a : ConverterDiscovery) :
  same_but_failed_at name a a.
Proof. done. Qed.

Lemma same_but_failed_at_set (name msg : string) (a : ConverterDiscovery) :
  same_but_failed_at name (set_failed name msg a) a.
Proof.
  repeat split; try done. intros k Hk. simpl. by rewrite lookup_insert_ne.
Qed.

Section RunFacts.

Variable import_module : string -> module_load.

Implicit Types (self st : ConverterDiscovery) (items : list probe_item).

Lemma run_items_app st items1 items2 :
  run_items st (items1 ++ items2) =
    ((run_items (run_items st items1).1 items2).1,
     (run_items st items1).2 ++ (run_items (run_items st items1).1 items2).2).
Proof.
  revert st. induction items1 as [|it items1 IH]; intros st; simpl.
  - by destruct (run_items st items2).
  - destruct (run_item st it) as [st1 ev1]. rewrite IH.
    destruct (run_items st1 items1) as [st2 ev2]; simpl.
    destruct (run_items st2 items2) as [st3 ev3]; simpl.
    by rewrite app_assoc.
Qed.

Lemma run_items_cons st item items :
  run_items st (item :: items) =
    ((run_items (run_item st item).1 items).1,
     (run_item st item).2 ++ (run_items (run_item st item).1 items).2).
Proof.
  simpl. destruct (run_item st item) as [st1 ev1]; simpl.
  by destruct (run_items st1 items).
Qed.

Lemma test_classes_run_items st
    (converter_classes : list (string * plugin_class)) :
  test_classes st converter_classes =
    run_items st ((λ '(name, c), ClassProbe name c) <$> converter_classes).
Proof.
  revert st. induction converter_classes as [|[n c] cs IH]; intros st;
    [done|].
  simpl. destruct (_test_converter_class st n c) as [st1 ev1].
  by rewrite IH.
Qed.

Lemma test_module_run_items st (module_name : string) :
  _test_converter_module import_module st module_name =
    run_items st (module_items import_module module_name).
Proof.
  unfold _test_converter_module, module_items.
  destruct (import_module module_name); [done|].
  apply test_classes_run_items.
Qed.

Lemma test_modules_run_items st (converter_files : list string) :
  test_modules import_module st converter_files =
    run_items st (files_items import_module converter_files).
Proof.
  revert st. induction converter_files as [|f fs IH]; intros st; [done|].
  unfold files_items. simpl. rewrite test_module_run_items.
  rewrite run_items_app.
  destruct (run_items st (module_items import_module (stem f)))
    as [st1 ev1]; simpl.
  rewrite IH. unfold files_items.
  by destruct (run_items st1 _).
Qed.

Lemma discover_run_items st (converter_dir : option (list string)) :
  discover_and_test_converters import_module st converter_dir =
    run_items st (discovery_items import_module converter_dir).
Proof.
  destruct converter_dir as [dir|]; [|done].
  apply test_modules_run_items.
Qed.

End RunFacts.

(** ** What a probe does to the three dictionaries *)

Section LedgerSteps.

Implicit Types (self st : ConverterDiscovery) (items : list probe_item).

Lemma run_item_same (name : string) (a b : ConverterDiscovery)
    (item : probe_item) :
  same_but_failed_at name a b ->
  same_but_failed_at name (run_item a item).1 (run_item b item).1
  ∧ (run_item a item).2 = (run_item b item).2.
Proof.
  intros (Hw & Ht & Hf). destruct item as [m e|n c]; simpl.
  - repeat split; try done. intros k Hk. simpl.
    destruct (decide (m = k)) as [->|];
      [by rewrite !lookup_insert_eq | rewrite !lookup_insert_ne; auto].
  - destruct (test_class_cases n c) as (passed & reason & evs & Hs & _).
    rewrite !Hs; simpl. split; [|done]. repeat split.
    + by rewrite !record_probe_working, Hw.
    + by rewrite !record_probe_text_to_text, Ht.
    + intros k Hk. rewrite !record_probe_failed.
      destruct reason as [msg|]; [|auto].
      destruct (decide (n = k)) as [->|];
        [by rewrite !lookup_insert_eq | rewrite !lookup_insert_ne; auto].
Qed.

Lemma run_items_same (name : string) (a b : ConverterDiscovery) items :
  same_but_failed_at name a b ->
  same_but_failed_at name (run_items a items).1 (run_items b items).1
  ∧ (run_items a items).2 = (run_items b items).2.
Proof.
  revert a b. induction items as [|it items IH]; intros a b Hab; [done|].
  rewrite !run_items_cons; simpl.
  destruct (run_item_same name a b it Hab) as [H1 ->].
  destruct (IH _ _ H1) as [H2 ->]. done.
Qed.

Lemma run_item_ok st (item : probe_item) :
  ledger_ok st -> ledger_ok (run_item st item).1.
Proof.
  intros (H1 & H2 & H3). destruct item as [m e|n c]; simpl; [done|].
  destruct (test_class_cases n c) as (passed & reason & evs & Hs & _).
  rewrite Hs; simpl. unfold ledger_ok.
  rewrite record_probe_working, record_probe_text_to_text.
  destruct passed as [inst|]; [|done].
  destruct (bool_decide _ && bool_decide _) eqn:Hb.
  - apply andb_true_iff in Hb as [Hi%bool_decide_eq_true
                                    Ho%bool_decide_eq_true].
    split; [|split].
    + intros k [->|Hk]%PyDict_keys_set; [set_solver|].
      apply H1 in Hk. set_solver.
    + intros k i [[= -> ->]|Hk]%PyDict_elem_of_set; [done|].
      by eapply H2.
    + by apply PyDict_NoDup_set.
  - split; [|split]; [|done..].
    intros k Hk%H1. set_solver.
Qed.

Lemma run_items_ok st items : ledger_ok st -> ledger_ok (run_items st items).1.
Proof.
  revert st. induction items as [|it items IH]; intros st Hok; [done|].
  rewrite run_items_cons; simpl. by apply IH, run_item_ok.
Qed.

Lemma run_item_class st (n : string) (c : plugin_class) :
  run_item st (ClassProbe n c) = _test_converter_class st n c.
Proof. reflexivity. Qed.

Lemma run_item_load st (m : string) (e : exn) :
  run_item st (LoadFailure m e) =
    (set_failed m ("Import failed: " +:+ type_name e +:+ ": " +:+ message e)
       st, []).
Proof. reflexivity. Qed.



(** Nothing is ever removed from the ledger. *)
Lemma run_item_grows st (item : probe_item) :
  dom (working_converters st) ⊆ dom (working_converters (run_item st item).1)
  ∧ dom (failed_converters st) ⊆ dom (failed_converters (run_item st item).1)
  ∧ PyDict.keys (text_to_text_converters st)
    ⊆ PyDict.keys (text_to_text_converters (run_item st item).1).
Proof.
  destruct item as [m e|n c].
  - rewrite run_item_load.
    cbn [fst set_failed failed_converters working_converters
           text_to_text_converters].
    rewrite dom_insert_L. set_solver.
  - rewrite run_item_class.
    destruct (test_class_cases n c) as (passed & reason & evs & Hs & _).
    rewrite Hs. cbn [fst].
    rewrite record_probe_working, record_probe_failed,
      record_probe_text_to_text.
    repeat split.
    + destruct passed; [rewrite dom_insert_L; set_solver | done].
    + destruct reason; [rewrite dom_insert_L; set_solver | done].
    + destruct passed as [inst|]; [|done].
      destruct (_ && _); [|done].
      intros k Hk. apply PyDict_keys_set. by right.
Qed.

Lemma run_items_grows st items :
  dom (working_converters st) ⊆ dom (working_converters (run_items st items).1)
  ∧ dom (failed_converters st) ⊆ dom (failed_converters (run_items st items).1)
  ∧ PyDict.keys (text_to_text_converters st)
    ⊆ PyDict.keys (text_to_text_converters (run_items st items).1).
Proof.
  revert st. induction items as [|it items IH]; intros st; [done|].
  rewrite run_items_cons. cbn [fst].
  destruct (run_item_grows st it) as (H1 & H2 & H3).
  destruct (IH (run_item st it).1) as (H4 & H5 & H6).
  repeat split; etrans; eauto.
Qed.

End LedgerSteps.

(** ** Module names and class names *)

Section NameFacts.

Implicit Types a b c s t : string.

Lemma string_app_cons x a b : String x a +:+ b = String x (a +:+ b).
Proof. reflexivity. Qed.

Lemma string_app_nil_l b : "" +:+ b = b.
Proof. reflexivity. Qed.

Lemma string_app_assoc a b c : (a +:+ b) +:+ c = a +:+ (b +:+ c).
Proof.
  induction a as [|x a IH]; [done|]. by rewrite !string_app_cons, IH.
Qed.

Lemma string_app_nil_r a : a +:+ "" = a.
Proof.
  induction a as [|x a IH]; [done|]. by rewrite string_app_cons, IH.
Qed.

Lemma string_app_length a b :
  String.length (a +:+ b) = String.length a + String.length b.
Proof.
  induction a as [|x a IH]; [done|].
  rewrite string_app_cons. simpl. by rewrite IH.
Qed.

Lemma rev_app_eq s t : String.rev_app s t = String.rev s +:+ t.
Proof.
  unfold String.rev. revert t.
  induction s as [|x s IH]; intros t; simpl; [done|].
  rewrite (IH (String x t)), (IH (String x "")).
  by rewrite string_app_assoc.
Qed.

Lemma rev_cons x s : String.rev (String x s) = String.rev s +:+ String x "".
Proof. unfold String.rev at 1. simpl. apply rev_app_eq. Qed.

Lemma rev_app_distr a b : String.rev (a +:+ b) = String.rev b +:+ String.rev a.
Proof.
  induction a as [|x a IH].
  - by rewrite string_app_nil_l, string_app_nil_r.
  - by rewrite string_app_cons, !rev_cons, IH, string_app_assoc.
Qed.

Lemma rev_involutive s : String.rev (String.rev s) = s.
Proof.
  induction s as [|x s IH]; [done|].
  by rewrite rev_cons, rev_app_distr, IH.
Qed.

Lemma prefix_app a s : String.prefix a s = true -> ∃ t, s = a +:+ t.
Proof.
  revert s. induction a as [|x a IH]; intros s; [by exists s|].
  destruct s as [|y s]; simpl; [done|].
  destruct (ascii_dec x y) as [->|]; [|done].
  intros [t ->]%IH. by exists t.
Qed.


Lemma substring_app a b : String.substring 0 (String.length a) (a +:+ b) = a.
Proof.
  induction a as [|x a IH]; [by destruct b|].
  rewrite string_app_cons. simpl. by rewrite IH.
Qed.



End NameFacts.

(** ** Discovery *)

Section DiscoveryFacts.

Variable import_module : string -> module_load.



Lemma sorted_converter_files_elem (file : string) (dir : list string) :
  file ∈ sorted_converter_files dir ->
  PyStr.endswith "_converter.py" file = true.
Proof.
  unfold sorted_converter_files. rewrite merge_sort_Permutation.
  by intros [? _]%list_elem_of_filter.
Qed.



Lemma files_items_app (files1 files2 : list string) :
  files_items import_module (files1 ++ files2) =
    files_items import_module files1 ++ files_items import_module files2.
Proof. unfold files_items. apply bind_app. Qed.

Lemma files_items_cons (file : string) (files : list string) :
  files_items import_module (file :: files) =
    module_items import_module (stem file)
    ++ files_items import_module files.
Proof. reflexivity. Qed.

End DiscoveryFacts.



Lemma test_class_human (self : ConverterDiscovery) (cls : plugin_class)
    (inst : plugin) :
  (_try_instantiate cls).1 = Some inst ->
  _test_converter_class self "HumanInTheLoopConverter" cls =
    (record_working "HumanInTheLoopConverter" inst
       (getattr_types (SUPPORTED_INPUT_TYPES inst))
       (getattr_types (SUPPORTED_OUTPUT_TYPES inst))
       (bool_decide ("text" ∈ getattr_types (SUPPORTED_INPUT_TYPES inst))
        && bool_decide ("text" ∈ getattr_types (SUPPORTED_OUTPUT_TYPES inst)))
       self,
     Construct "HumanInTheLoopConverter" <$> (_try_instantiate cls).2).
Proof.
  intros Hinst. unfold _test_converter_class.
  destruct (_try_instantiate cls) as [r tried]. cbn [fst snd] in *. subst r.
  by rewrite decide_True.
Qed.

(** Decompose a membership in an explicit list. *)
Ltac elem_cases H :=
  repeat (apply elem_of_cons in H as [H|H]); [..| by apply elem_of_nil in H].




Section ModuleLoop.

Variable import_module : string -> module_load.
Implicit Types (st a b : ConverterDiscovery) (files : list string).

Lemma test_modules_cons st (file : string) files :
  test_modules import_module st (file :: files) =
    ((test_modules import_module
        (_test_converter_module import_module st (stem file)).1 files).1,
     (_test_converter_module import_module st (stem file)).2
     ++ (test_modules import_module
           (_test_converter_module import_module st (stem file)).1 files).2).
Proof.
  simpl. destruct (_test_converter_module _ _ _) as [st1 ev1]; simpl.
  by destruct (test_modules _ _ _).
Qed.

Lemma test_modules_app st files1 files2 :
  test_modules import_module st (files1 ++ files2) =
    ((test_modules import_module
        (test_modules import_module st files1).1 files2).1,
     (test_modules import_module st files1).2
     ++ (test_modules import_module
           (test_modules import_module st files1).1 files2).2).
Proof.
  by rewrite !test_modules_run_items, files_items_app, run_items_app.
Qed.

Lemma test_modules_same (name : string) a b files :
  same_but_failed_at name a b ->
  same_but_failed_at name (test_modules import_module a files).1
    (test_modules import_module b files).1
  ∧ (test_modules import_module a files).2
    = (test_modules import_module b files).2.
Proof. rewrite !test_modules_run_items. apply run_items_same. Qed.

Lemma test_modules_failed_grows st files :
  dom (failed_converters st)
  ⊆ dom (failed_converters (test_modules import_module st files).1).
Proof. rewrite test_modules_run_items. apply run_items_grows. Qed.

End ModuleLoop.

(** C9.  A class named [HumanInTheLoopConverter] that the prober could
    instantiate is recorded in [working_converters] with its instance and
    capabilities; the only calls made are constructor calls, so
    [convert_async] is never invoked; nothing is recorded as failed; the
    instance is also recorded in [text_to_text_converters] when it declares
    "text" both as input and as output kind, and not otherwise; and both
    records are still there after any further probes. *)
Theorem C9_human_in_the_loop (self : ConverterDiscovery) (cls : plugin_class)
    (inst : plugin) (later : list probe_item) :
  (_try_instantiate cls).1 = Some inst ->
  let name := "HumanInTheLoopConverter" in
  let out := _test_converter_class self name cls in
  let ins := getattr_types (SUPPORTED_INPUT_TYPES inst) in
  let outs := getattr_types (SUPPORTED_OUTPUT_TYPES inst) in
  working_converters out.1 !! name =
    Some {| instance := inst; inputs := ins; outputs := outs;
            is_text_to_text :=
              bool_decide ("text" ∈ ins) && bool_decide ("text" ∈ outs) |}
  ∧ failed_converters out.1 = failed_converters self
  ∧ (∀ ev, ev ∈ out.2 -> ∃ params, ev = Construct name params)
  ∧ ("text" ∈ ins ∧ "text" ∈ outs ->
     PyDict.get name (text_to_text_converters out.1) = Some inst)
  ∧ (¬ ("text" ∈ ins ∧ "text" ∈ outs) ->
     text_to_text_converters out.1 = text_to_text_converters self)
  ∧ name ∈ dom (working_converters (run_items out.1 later).1)
  ∧ ("text" ∈ ins ∧ "text" ∈ outs ->
     name ∈ PyDict.keys (text_to_text_converters (run_items out.1 later).1)).
Proof.
  intros Hinst name out ins outs. subst out name.
  rewrite (test_class_human self cls inst Hinst). cbn [fst snd].
  set (name := "HumanInTheLoopConverter"). fold ins outs.
  rewrite record_working_working, record_working_failed,
    record_working_text_to_text.
  assert (Hget : "text" ∈ ins ∧ "text" ∈ outs ->
                 bool_decide ("text" ∈ ins) && bool_decide ("text" ∈ outs)
                 = true).
  { intros [? ?]. by rewrite !bool_decide_eq_true_2. }
  assert (Hnot : ¬ ("text" ∈ ins ∧ "text" ∈ outs) ->
                 bool_decide ("text" ∈ ins) && bool_decide ("text" ∈ outs)
                 = false).
  { intros Hn. apply not_true_is_false.
    intros [H1%bool_decide_eq_true H2%bool_decide_eq_true]%andb_true_iff.
    by apply Hn. }
  destruct (run_items_grows
              (record_working name inst ins outs
                 (bool_decide ("text" ∈ ins) && bool_decide ("text" ∈ outs))
                 self) later) as (Hw & _ & Ht).
  split; [apply lookup_insert_eq|]. split; [done|]. split.
  { intros ev (params & -> & _)%list_elem_of_fmap. eauto. }
  split; [intros H; rewrite (Hget H); apply PyDict_get_set_eq|].
  split; [intros H; by rewrite (Hnot H)|].
  split.
  - apply Hw. rewrite record_working_working, dom_insert_L. set_solver.
  - intros H. apply Ht. rewrite record_working_text_to_text, (Hget H).
    apply PyDict_keys_set. by left.
Qed.

(** The interactive converter of [Interactive] is recorded as a working
    text-to-text converter although its conversion never finishes. *)
Lemma C9_human_in_the_loop_witness :
  PyDict.get "HumanInTheLoopConverter"
    (text_to_text_converters
       (_test_converter_class init "HumanInTheLoopConverter"
          Interactive.HumanInTheLoopConverter).1)
  = Some Interactive.converter.
Proof.
  assert ((_try_instantiate Interactive.HumanInTheLoopConverter).1
          = Some Interactive.converter) as Hinst by (by vm_compute).
  pose proof (C9_human_in_the_loop init Interactive.HumanInTheLoopConverter
                Interactive.converter [] Hinst) as H.
  cbv zeta in H. destruct H as (_ & _ & _ & H & _).
  apply H. split; vm_compute; left.
Defined.




(** C8.  When a module of the scan cannot be imported, the only change to
    the ledger is the entry of [failed_converters] under the module name,
    which holds the type and the message of the import error; no call is
    made; and discovery goes on with the remaining modules, which make the
    same calls and leave [working_converters], [text_to_text_converters] and
    every other entry of [failed_converters] as they would have been
    without the failing module. *)
Theorem C8_load_failure (import_module : string -> module_load)
    (dir : list string) (self : ConverterDiscovery)
    (pre post : list string) (file : string) (e : exn) :
  sorted_converter_files dir = pre ++ file :: post ->
  import_module (stem file) = ImportFails e ->
  let before := test_modules import_module self pre in
  let error_msg := "Import failed: " +:+ type_name e +:+ ": " +:+ message e in
  let marked := set_failed (stem file) error_msg before.1 in
  _test_converter_module import_module before.1 (stem file) = (marked, [])
  ∧ discover_and_test_converters import_module self (Some dir) =
      ((test_modules import_module marked post).1,
       before.2 ++ (test_modules import_module marked post).2)
  ∧ same_but_failed_at (stem file)
      (test_modules import_module marked post).1
      (test_modules import_module before.1 post).1
  ∧ (test_modules import_module marked post).2
    = (test_modules import_module before.1 post).2
  ∧ stem file ∈ dom (failed_converters (test_modules import_module marked post).1).
Proof.
  intros Hfiles Himp before error_msg marked.
  assert (Hstep : _test_converter_module import_module before.1 (stem file)
                  = (marked, [])).
  { unfold _test_converter_module. by rewrite Himp. }
  split; [exact Hstep|].
  destruct (test_modules_same import_module (stem file) marked before.1 post
              (same_but_failed_at_set (stem file) error_msg before.1))
    as [Hsame Hev].
  split; [|split; [exact Hsame|split; [exact Hev|]]].
  - unfold discover_and_test_converters.
    rewrite Hfiles, test_modules_app, test_modules_cons. fold before.
    rewrite Hstep. cbn [fst snd]. done.
  - apply test_modules_failed_grows.
    unfold marked. cbn [set_failed failed_converters].
    rewrite dom_insert_L. set_solver.
Qed.

(** In the [Mixed] directory [broken_converter.py] is scanned first and
    cannot be imported; it is recorded and the two other modules are still
    probed. *)
Lemma C8_load_failure_witness :
  let run := discover_and_test_converters Mixed.import_module init
               (Some Mixed.dir) in
  "broken_converter" ∈ dom (failed_converters run.1)
  ∧ run.2 = (test_modules Mixed.import_module init
               ["slow_converter.py"; "upper_converter.py"]).2.
Proof.
  assert (sorted_converter_files Mixed.dir
          = [] ++ "broken_converter.py"
            :: ["slow_converter.py"; "upper_converter.py"]) as Hfiles
    by (by vm_compute).
  assert (Mixed.import_module (stem "broken_converter.py")
          = ImportFails Mixed.error) as Himp by (by vm_compute).
  pose proof (C8_load_failure Mixed.import_module Mixed.dir init _ _ _ _
                Hfiles Himp) as H.
  cbv zeta in H |- *. destruct H as (_ & -> & _ & Hev & H).
  cbn [fst snd test_modules app] in Hev, H |- *.
  split; [exact H | exact Hev].
Defined.

(** ** Tables *)

Section PyDictLookup.

Context {V : Type}.
Implicit Types (d : PyDict.t V) (k : string) (v : V).

Lemma PyDict_get_None k d : PyDict.get k d = None <-> k ∉ PyDict.keys d.
Proof.
  unfold PyDict.keys. induction d as [|[k' v'] d IH]; simpl.
  - split; [intros _; apply not_elem_of_nil | done].
  - rewrite not_elem_of_cons. case_decide; [subst|]; split; try done.
    + by intros [? _].
    + intros ?. split; [done | by apply IH].
    + intros [_ ?]. by apply IH.
Qed.

Lemma PyDict_get_is_Some k d : k ∈ PyDict.keys d -> is_Some (PyDict.get k d).
Proof.
  intros Hk. destruct (PyDict.get k d) eqn:Hg; [eauto|].
  by apply PyDict_get_None in Hg.
Qed.

Lemma PyDict_get_app k d1 d2 :
  PyDict.get k (d1 ++ d2) =
    match PyDict.get k d1 with
    | Some v => Some v
    | None => PyDict.get k d2
    end.
Proof.
  induction d1 as [|[k' v'] d1 IH]; simpl; [done|]. by case_decide.
Qed.

(** Updating the values under one key leaves the other keys alone. *)
Lemma PyDict_get_fmap_update (g : V -> V) k l d :
  PyDict.get k
    ((λ x : string * V, if decide (x.1 = l) then (x.1, g x.2) else x) <$> d)
  = if decide (k = l) then g <$> PyDict.get k d else PyDict.get k d.
Proof.
  induction d as [|[k' v'] d IH]; [simpl; by case_decide|].
  rewrite fmap_cons. cbn [fst snd].
  destruct (decide (k' = l)) as [->|Hl]; cbn [PyDict.get]; rewrite IH.
  - destruct (decide (l = k)) as [->|Hk].
    + by rewrite decide_True.
    + by rewrite decide_False by done.
  - destruct (decide (k' = k)) as [->|Hk]; [|done].
    by rewrite decide_False.
Qed.

End PyDictLookup.

Section TableFacts.

Implicit Types (df : DataFrame) (idx i : nat) (label l : string) (v : cell).

Lemma loc_set_nrows idx label v df :
  nrows (Pandas.loc_set idx label v df) = nrows df.
Proof. unfold Pandas.loc_set. by case_decide. Qed.

Lemma loc_set_labels idx label v df :
  Pandas.labels (Pandas.loc_set idx label v df) =
    if decide (label ∈ Pandas.labels df) then Pandas.labels df
    else Pandas.labels df ++ [label].
Proof.
  unfold Pandas.loc_set, Pandas.labels. case_decide; simpl.
  - rewrite <- list_fmap_compose. apply list_fmap_ext.
    intros ? [c cells] _. simpl. by case_decide.
  - by rewrite fmap_app.
Qed.

Lemma loc_set_wf idx label v df :
  Pandas.wf df -> Pandas.wf (Pandas.loc_set idx label v df).
Proof.
  unfold Pandas.wf, Pandas.loc_set. intros Hwf. case_decide; simpl.
  - apply Forall_fmap. eapply Forall_impl; [exact Hwf|].
    intros [c cells] Hlen. simpl in *. case_decide; simpl; [|done].
    by rewrite length_insert.
  - apply Forall_app. split; [done|]. apply Forall_singleton. simpl.
    by rewrite length_insert, length_replicate.
Qed.

(** A column that exists holds one cell per row. *)
Lemma column_length label df (cells : list cell) :
  Pandas.wf df -> Pandas.column label df = Some cells ->
  length cells = nrows df.
Proof.
  unfold Pandas.wf, Pandas.column. intros Hwf Hget%PyDict_get_elem_of.
  by apply (proj1 (Forall_forall _ _) Hwf) in Hget.
Qed.

(** The cell that was assigned reads back. *)
Lemma at_loc_set_eq idx label v df :
  Pandas.wf df -> idx < nrows df ->
  Pandas.at_ idx label (Pandas.loc_set idx label v df) = v.
Proof.
  intros Hwf Hidx. unfold Pandas.at_, Pandas.column, Pandas.loc_set.
  case_decide as Hin; simpl.
  - rewrite (PyDict_get_fmap_update (λ cells, <[idx := v]> cells)).
    rewrite decide_True by done.
    destruct (PyDict_get_is_Some label (columns df) Hin) as [cells Hget].
    rewrite Hget. simpl.
    rewrite list_lookup_insert_eq; [done|].
    by rewrite (column_length label df cells Hwf Hget).
  - rewrite PyDict_get_app.
    rewrite (proj2 (PyDict_get_None label (columns df)) Hin). simpl.
    rewrite decide_True by done. simpl.
    rewrite list_lookup_insert_eq; [done|]. by rewrite length_replicate.
Qed.

(** Every other cell reads as before. *)
Lemma at_loc_set_ne idx label v df i l :
  i ≠ idx ∨ l ≠ label ->
  Pandas.at_ i l (Pandas.loc_set idx label v df) = Pandas.at_ i l df.
Proof.
  intros Hne. unfold Pandas.at_, Pandas.column, Pandas.loc_set.
  case_decide as Hin; simpl.
  - rewrite (PyDict_get_fmap_update (λ cells, <[idx := v]> cells)).
    destruct (decide (l = label)) as [->|]; [|done].
    destruct Hne as [Hi|]; [|done].
    destruct (PyDict.get label (columns df)) as [cells|]; simpl; [|done].
    by rewrite list_lookup_insert_ne.
  - rewrite PyDict_get_app.
    destruct (PyDict.get l (columns df)) as [cells|] eqn:Hget; [done|].
    simpl. destruct (decide (label = l)) as [->|]; [|done]. simpl.
    destruct Hne as [Hi|]; [|done].
    rewrite list_lookup_insert_ne by done.
    destruct (replicate (nrows df) NaN !! i) as [x|] eqn:Hx; [|done].
    by apply lookup_replicate in Hx as [-> _].
Qed.

End TableFacts.


(** ** The batch loops *)

Lemma output_label_inj (n1 n2 : string) :
  output_label n1 = output_label n2 -> n1 = n2.
Proof.
  unfold output_label. intros Heq.
  apply (f_equal String.rev) in Heq. rewrite !rev_app_distr in Heq.
  apply String.app_inj in Heq.
  by rewrite <- (rev_involutive n1), Heq, rev_involutive.
Qed.

Section OneRow.

Variables (idx : nat) (prompt : string).
Implicit Types (d : PyDict.t plugin) (res : DataFrame).

Lemma run_converters_cons (name : string) (c : plugin) d res
    (r : result string) :
  await (convert_async c prompt) = Some r ->
  run_converters idx prompt ((name, c) :: d) res =
    match run_converters idx prompt d
            (Pandas.loc_set idx (output_label name) (outcome_cell r) res) with
    | None => None
    | Some (results, calls) =>
        Some (results, RowConvert idx name prompt :: calls)
    end.
Proof. intros Hr. simpl. rewrite Hr. by destruct r. Qed.

(** One row: every converter is called once, in order; the row count and
    the labels that were there stay; cells outside the row or outside the
    output columns read as before; and each output cell of the row holds
    the outcome of its own conversion. *)
Lemma run_converters_spec d res :
  (∀ x, x ∈ d -> is_Some (await (convert_async x.2 prompt))) ->
  ∃ res',
    run_converters idx prompt d res
      = Some (res', (λ x, RowConvert idx x.1 prompt) <$> d)
    ∧ nrows res' = nrows res
    ∧ (Pandas.wf res -> Pandas.wf res')
    ∧ Pandas.labels res `prefix_of` Pandas.labels res'
    ∧ (∀ i l, i ≠ idx ∨ l ∉ output_label <$> PyDict.keys d ->
              Pandas.at_ i l res' = Pandas.at_ i l res)
    ∧ (Pandas.wf res -> idx < nrows res -> NoDup (PyDict.keys d) ->
       ∀ x, x ∈ d ->
            Pandas.at_ idx (output_label x.1) res' = converted x.2 prompt).
Proof.
  revert res. induction d as [|[name c] d IH]; intros res Hfin.
  - exists res. repeat split; try done. by intros _ _ _ x ?%elem_of_nil.
  - destruct (Hfin (name, c)) as [r Hr]; [by left|]. simpl in Hr.
    set (res1 := Pandas.loc_set idx (output_label name) (outcome_cell r) res).
    destruct (IH res1) as (res' & Hrun & Hn & Hwf & Hlab & Hframe & Hcell).
    { intros x Hx. apply Hfin. by right. }
    exists res'. rewrite (run_converters_cons _ _ _ _ _ Hr). fold res1.
    rewrite Hrun. split; [done|].
    split; [by rewrite Hn; apply loc_set_nrows|].
    split; [intros; by apply Hwf, loc_set_wf|].
    split.
    { etrans; [|exact Hlab]. unfold res1. rewrite loc_set_labels.
      case_decide; [done | by apply prefix_app_r]. }
    split.
    + intros i l Hil. rewrite Hframe.
      * apply at_loc_set_ne. destruct Hil as [?|Hl]; [by left | right].
        intros ->. apply Hl. unfold PyDict.keys. simpl. by left.
      * destruct Hil as [?|Hl]; [by left | right].
        intros Hin. apply Hl. unfold PyDict.keys. simpl. by right.
    + intros Hwfr Hidx Hnd x Hx. unfold PyDict.keys in Hnd. simpl in Hnd.
      apply NoDup_cons in Hnd as [Hname Hnd].
      apply elem_of_cons in Hx as [->|Hx].
      * simpl. rewrite Hframe.
        -- unfold res1. rewrite at_loc_set_eq by done.
           unfold converted. by rewrite Hr.
        -- right. intros (n' & Heq%output_label_inj & Hn')%list_elem_of_fmap.
           by subst n'.
      * apply Hcell; try done.
        -- by apply loc_set_wf.
        -- unfold res1. by rewrite loc_set_nrows.
Qed.

End OneRow.

Section Rows.

Variable d : PyDict.t plugin.
Hypothesis d_NoDup : NoDup (PyDict.keys d).
Implicit Types (res : DataFrame) (prompts : list cell).

Lemma run_rows_spec (idx0 : nat) prompts res :
  Pandas.wf res -> idx0 + length prompts <= nrows res ->
  all_finish d prompts ->
  ∃ res',
    run_rows idx0 prompts d res = Some (res', expected_calls idx0 prompts d)
    ∧ nrows res' = nrows res
    ∧ Pandas.wf res'
    ∧ Pandas.labels res `prefix_of` Pandas.labels res'
    ∧ (∀ i l,
         (∀ k p, i = idx0 + k -> prompts !! k = Some p -> skipped p = true)
         ∨ l ∉ output_label <$> PyDict.keys d ->
         Pandas.at_ i l res' = Pandas.at_ i l res)
    ∧ (∀ k p x, prompts !! k = Some p -> skipped p = false -> x ∈ d ->
                Pandas.at_ (idx0 + k) (output_label x.1) res'
                = converted x.2 (Pandas.str p)).
Proof.
  revert idx0 res. induction prompts as [|p0 rest IH]; intros idx0 res Hwf Hlen Hfin.
  - exists res. repeat split; done.
  - simpl in Hlen.
    assert (all_finish d rest) as Hfin'.
    { intros x p Hx Hp. apply Hfin; [done | by right]. }
    cbn [run_rows expected_calls]. destruct (skipped p0) eqn:Hskip.
    + destruct (IH (S idx0) res Hwf ltac:(lia) Hfin')
        as (res' & Hrun & Hn & Hwf' & Hlab & Hframe & Hcell).
      exists res'. split; [done|]. split; [done|]. split; [done|].
      split; [done|]. split.
      * intros i l [Hi|Hl]; apply Hframe; [left | by right].
        intros k p -> Hk. apply (Hi (S k) p); [lia | done].
      * intros [|k] p x Hk Hp Hx; simpl in Hk.
        -- congruence.
        -- replace (idx0 + S k) with (S idx0 + k) by lia. by apply Hcell.
    + destruct (run_converters_spec idx0 (Pandas.str p0) d res)
        as (res1 & Hrun1 & Hn1 & Hwf1 & Hlab1 & Hframe1 & Hcell1).
      { intros x Hx. apply Hfin; [done | by left | done]. }
      destruct (IH (S idx0) res1 (Hwf1 Hwf) ltac:(lia) Hfin')
        as (res' & Hrun & Hn & Hwf' & Hlab & Hframe & Hcell).
      exists res'. rewrite Hrun1, Hrun.
      split; [done|]. split; [congruence|]. split; [done|].
      split; [by etrans|]. split.
      * intros i l Hil. rewrite Hframe.
        -- apply Hframe1. destruct Hil as [Hi|Hl]; [left | by right].
           intros ->. specialize (Hi 0 p0 ltac:(lia) eq_refl). congruence.
        -- destruct Hil as [Hi|Hl]; [left | by right].
           intros k p -> Hk. apply (Hi (S k) p); [lia | done].
      * intros [|k] p x Hk Hp Hx; simpl in Hk.
        -- injection Hk as ->. rewrite Nat.add_0_r. rewrite Hframe.
           ++ apply Hcell1; [done | lia | done | done].
           ++ left. intros k p' Hk'. lia.
        -- replace (idx0 + S k) with (S idx0 + k) by lia. by apply Hcell.
Qed.

(** A call for a row is a call for a row that was not skipped. *)
Lemma expected_calls_row (idx0 : nat) prompts (i : nat) (n q : string) :
  RowConvert i n q ∈ expected_calls idx0 prompts d ->
  ∃ k p, i = idx0 + k ∧ prompts !! k = Some p ∧ skipped p = false.
Proof.
  revert idx0. induction prompts as [|p0 rest IH]; intros idx0; simpl.
  - by intros ?%elem_of_nil.
  - intros [Hin|Hin]%elem_of_app.
    + destruct (skipped p0) eqn:Hskip; [by apply elem_of_nil in Hin|].
      apply list_elem_of_fmap in Hin as (x & [= -> _ _] & _).
      exists 0, p0. split; [lia | done].
    + destruct (IH _ Hin) as (k & p & -> & Hk & Hp).
      exists (S k), p. split; [lia | done].
Qed.

End Rows.

(** ** The row cap *)

Section Cap.

Implicit Types (df : DataFrame) (n : Z) (max_rows : option Z).

Lemma head_labels n df : Pandas.labels (Pandas.head n df) = Pandas.labels df.
Proof.
  unfold Pandas.labels, Pandas.head. simpl.
  rewrite <- list_fmap_compose. by apply list_fmap_ext.
Qed.

Lemma head_wf n df : Pandas.wf df -> Pandas.wf (Pandas.head n df).
Proof.
  unfold Pandas.wf, Pandas.head. simpl. intros Hwf.
  apply Forall_fmap. eapply Forall_impl; [exact Hwf|].
  intros [c cells] Hlen. simpl in *. rewrite length_take. lia.
Qed.

Lemma cap_rows_labels max_rows df :
  Pandas.labels (cap_rows max_rows df) = Pandas.labels df.
Proof.
  destruct max_rows as [n|]; simpl; [|done].
  case_decide; [done | apply head_labels].
Qed.

Lemma cap_rows_wf max_rows df : Pandas.wf df -> Pandas.wf (cap_rows max_rows df).
Proof.
  destruct max_rows as [n|]; simpl; [|done].
  case_decide; [done | apply head_wf].
Qed.

End Cap.

(** ** The batch run *)

Section Batch.

Variables (discovery : ConverterDiscovery) (df : DataFrame).
Variables (prompt_column : string) (max_rows : option Z).

Let d := text_to_text_converters discovery.
Let table := cap_rows max_rows df.
Let prompts := default [] (Pandas.column prompt_column table).

Hypothesis df_wf : Pandas.wf df.
Hypothesis column_found : prompt_column ∈ Pandas.labels df.
Hypothesis d_NoDup : NoDup (PyDict.keys d).
Hypothesis finish : all_finish d prompts.

Lemma process_excel_unfold :
  process_excel discovery (Some df) prompt_column max_rows =
    match run_rows 0 prompts d table with
    | None => NeverReturns
    | Some (results, calls) => Saved results calls
    end.
Proof. unfold process_excel. by rewrite decide_True. Qed.

Lemma prompts_length : length prompts = nrows table.
Proof.
  assert (prompt_column ∈ Pandas.labels table) as Hin.
  { unfold table. by rewrite cap_rows_labels. }
  destruct (PyDict_get_is_Some prompt_column (columns table) Hin)
    as [cells Hcells].
  unfold prompts, Pandas.column. rewrite Hcells. simpl.
  apply (column_length prompt_column table cells); [|done].
  by apply cap_rows_wf.
Qed.

(** The batch run returns; it makes the expected calls; the table it
    writes has the rows and the labels of the capped input; the output
    cell of a row that was not skipped holds the outcome of its own
    conversion, and every cell of a skipped row or outside the output
    columns reads as in the input. *)
Lemma process_excel_spec :
  ∃ results,
    process_excel discovery (Some df) prompt_column max_rows
      = Saved results (expected_calls 0 prompts d)
    ∧ nrows results = nrows table
    ∧ Pandas.labels table `prefix_of` Pandas.labels results
    ∧ (∀ idx label,
         (∀ prompt, prompts !! idx = Some prompt -> skipped prompt = true)
         ∨ label ∉ output_label <$> PyDict.keys d ->
         Pandas.at_ idx label results = Pandas.at_ idx label table)
    ∧ (∀ idx prompt x,
         prompts !! idx = Some prompt -> skipped prompt = false -> x ∈ d ->
         Pandas.at_ idx (output_label x.1) results
         = converted x.2 (Pandas.str prompt)).
Proof.
  destruct (run_rows_spec d d_NoDup 0 prompts table)
    as (results & Hrun & Hn & _ & Hlab & Hframe & Hcell).
  { by apply cap_rows_wf. }
  { rewrite prompts_length. lia. }
  { exact finish. }
  exists results. rewrite process_excel_unfold, Hrun.
  split; [done|]. split; [done|]. split; [done|]. split.
  - intros idx label [Hskip|Hl]; apply Hframe; [left | by right].
    intros k p -> Hk. by apply (Hskip p).
  - intros idx prompt x Hp Hs Hx. by apply (Hcell idx prompt x).
Qed.

End Batch.

(** ** The two versions of pandas *)

Section Pandas3Facts.

Variable df : DataFrame.

(** Where pandas 3.0 accepts a text for every output column, the loops
    run as with an earlier pandas. *)
Lemma run_converters_3 (idx : nat) (prompt : string)
    (converters : list (string * plugin)) (results : DataFrame) :
  (∀ x, x ∈ converters -> Pandas.takes_text (output_label x.1) df = true) ->
  Pandas3.run_converters df idx prompt converters results =
    match run_converters idx prompt converters results with
    | Some (results, calls) => Completes results calls
    | None => Waits
    end.
Proof.
  revert results.
  induction converters as [|[name c] converters IH]; intros results Hok;
    [done|].
  cbn [Pandas3.run_converters run_converters].
  destruct (await (convert_async c prompt)) as [r|]; [|done].
  change (name +:+ "_output") with (output_label (name, c).1).
  rewrite (Hok (name, c)) by left.
  rewrite IH by (intros x Hx; apply Hok; by right).
  by destruct (run_converters _ _ _ _) as [[? ?]|].
Qed.

Lemma run_rows_3 (idx : nat) (prompts : list cell)
    (converters : list (string * plugin)) (results : DataFrame) :
  (∀ x, x ∈ converters -> Pandas.takes_text (output_label x.1) df = true) ->
  Pandas3.run_rows df idx prompts converters results =
    match run_rows idx prompts converters results with
    | Some (results, calls) => Completes results calls
    | None => Waits
    end.
Proof.
  intros Hok. revert idx results.
  induction prompts as [|prompt prompts IH]; intros idx results; [done|].
  cbn [Pandas3.run_rows run_rows].
  destruct (skipped prompt); [apply IH|].
  rewrite run_converters_3 by done.
  destruct (run_converters _ _ _ _) as [[results1 calls1]|]; [|done].
  rewrite IH. by destruct (run_rows _ _ _ _) as [[? ?]|].
Qed.

Lemma process_excel_3 (discovery : ConverterDiscovery)
    (prompt_column : string) (max_rows : option Z) :
  (∀ x, x ∈ text_to_text_converters discovery ->
        Pandas.takes_text (output_label x.1) df = true) ->
  Pandas3.process_excel discovery (Some df) prompt_column max_rows
  = process_excel discovery (Some df) prompt_column max_rows.
Proof.
  intros Hok. unfold Pandas3.process_excel, process_excel.
  case_decide; [|done]. cbv zeta. rewrite run_rows_3 by done.
  by destruct (run_rows _ _ _ _) as [[? ?]|].
Qed.

(** A label that the table does not have takes a text. *)
Lemma takes_text_fresh (label : string) :
  label ∉ Pandas.labels df -> Pandas.takes_text label df = true.
Proof.
  unfold Pandas.takes_text, Pandas.labels.
  induction (columns df) as [|col cols IH]; [done|].
  rewrite fmap_cons, not_elem_of_cons. intros [Hne Hin].
  cbn [forallb]. rewrite bool_decide_eq_false_2 by done.
  cbn [negb orb andb]. by apply IH.
Qed.

(** With either pandas, a table without a column named like an output
    column is processed in the same way. *)
Lemma process_excel_3_fresh (discovery : ConverterDiscovery)
    (prompt_column : string) (max_rows : option Z) :
  (∀ x, x ∈ text_to_text_converters discovery ->
        output_label x.1 ∉ Pandas.labels df) ->
  Pandas3.process_excel discovery (Some df) prompt_column max_rows
  = process_excel discovery (Some df) prompt_column max_rows.
Proof.
  intros Hfresh. apply process_excel_3.
  intros x Hx. by apply takes_text_fresh, Hfresh.
Qed.

(** The calls of a run that an assignment ends are the first of the calls
    of a whole run: no row is converted that a whole run skips. *)
Lemma run_converters_3_calls (idx : nat) (prompt : string)
    (converters : list (string * plugin)) (results : DataFrame) :
  match Pandas3.run_converters df idx prompt converters results with
  | Completes _ calls =>
      calls = (λ x, RowConvert idx x.1 prompt) <$> converters
  | Raises calls =>
      calls `prefix_of` (λ x, RowConvert idx x.1 prompt) <$> converters
  | Waits => True
  end.
Proof.
  revert results.
  induction converters as [|[name c] converters IH]; intros results; [done|].
  cbn [Pandas3.run_converters].
  destruct (await (convert_async c prompt)) as [r|]; [|done].
  destruct (Pandas.takes_text _ df).
  - specialize
      (IH (Pandas.loc_set idx (name +:+ "_output")
             match r with
             | Return output_text => Text output_text
             | Raise e => Text ("ERROR: " +:+ message e)
             end results)).
    destruct (Pandas3.run_converters _ _ _ _ _) as [r1 calls| |calls];
      [|done|].
    + rewrite fmap_cons. by f_equal.
    + rewrite fmap_cons. by apply prefix_cons.
  - rewrite fmap_cons. apply prefix_cons, prefix_nil.
Qed.

Lemma run_rows_3_calls (idx : nat) (prompts : list cell)
    (converters : list (string * plugin)) (results : DataFrame) :
  match Pandas3.run_rows df idx prompts converters results with
  | Completes _ calls => calls = expected_calls idx prompts converters
  | Raises calls => calls `prefix_of` expected_calls idx prompts converters
  | Waits => True
  end.
Proof.
  revert idx results.
  induction prompts as [|prompt prompts IH]; intros idx results; [done|].
  cbn [Pandas3.run_rows expected_calls].
  destruct (skipped prompt); [apply IH|].
  pose proof (run_converters_3_calls idx (Pandas.str prompt) converters
                results) as Hrow.
  destruct (Pandas3.run_converters _ _ _ _ _) as [r1 calls| |calls];
    [|done|].
  - subst calls. specialize (IH (S idx) r1).
    destruct (Pandas3.run_rows _ _ _ _ _) as [r2 calls'| |calls'];
      [|done|].
    + by f_equal.
    + destruct IH as [k ->]. exists k. by rewrite (assoc_L (++)).
  - destruct Hrow as [k ->]. eexists. by rewrite <- (assoc_L (++)).
Qed.

End Pandas3Facts.




Lemma skipped_true_iff (prompt : cell) :
  skipped prompt = true
  <-> Pandas.isna prompt = true ∨ PyStr.strip (Pandas.str prompt) = "".
Proof.
  unfold skipped. rewrite orb_true_iff, bool_decide_eq_true. tauto.
Qed.

(** C7.  In a batch run in which every started conversion finishes, a row
    whose prompt cell is missing or blank after trimming is skipped: no
    converter is called for it and every cell of the row reads as in the
    input, the output columns included.  In the scenario, with the prompts
    "hi", "" and "go" and [UpperCaseConverter] as found by discovery, the
    two non-empty rows are converted, to "HI" and "GO", and the empty row
    is skipped. *)
Theorem C7_blank_rows_skipped :
  (∀ (discovery : ConverterDiscovery) (df : DataFrame)
     (prompt_column : string) (max_rows : option Z),
     let d := text_to_text_converters discovery in
     let table := cap_rows max_rows df in
     let prompts := default [] (Pandas.column prompt_column table) in
     Pandas.wf df ->
     prompt_column ∈ Pandas.labels df ->
     NoDup (PyDict.keys d) ->
     all_finish d prompts ->
     ∃ results calls,
       process_excel discovery (Some df) prompt_column max_rows
         = Saved results calls
       ∧ ∀ idx prompt,
           prompts !! idx = Some prompt ->
           Pandas.isna prompt = true
           ∨ PyStr.strip (Pandas.str prompt) = "" ->
           (∀ name p, RowConvert idx name p ∉ calls)
           ∧ (∀ label,
                Pandas.at_ idx label results = Pandas.at_ idx label table))
  ∧ text_to_text_converters Scenario.discovery
    = [("UpperCaseConverter", UpperCase.converter)]
  ∧ process_excel Scenario.discovery (Some Scenario.df) "prompt" None
    = Saved
        {| nrows := 3;
           columns :=
             [("prompt", [Text "hi"; Text ""; Text "go"]);
              ("UpperCaseConverter_output", [Text "HI"; NaN; Text "GO"])] |}
        [RowConvert 0 "UpperCaseConverter" "hi";
         RowConvert 2 "UpperCaseConverter" "go"].
Proof.
  split; [|split; by vm_compute].
  intros discovery df prompt_column max_rows d table prompts
    Hwf Hcol Hnd Hfin.
  destruct (process_excel_spec discovery df prompt_column max_rows
              Hwf Hcol Hnd Hfin)
    as (results & Hrun & _ & _ & Hframe & _).
  exists results, (expected_calls 0 prompts d). split; [exact Hrun|].
  intros idx prompt Hp Hblank%skipped_true_iff. split.
  - intros name p (k & q & Hidx & Hk & Hq)%expected_calls_row.
    cbn [Nat.add] in Hidx. subst k. fold prompts in Hk.
    rewrite Hk in Hp. injection Hp as ->. congruence.
  - intros label. apply Hframe. left. intros q Hq.
    change (prompts !! idx = Some q) in Hq. rewrite Hp in Hq.
    by injection Hq as <-.
Qed.

(** The general part at the scenario: the second row is skipped. *)
Lemma C7_blank_rows_skipped_witness :
  ∃ results calls,
    process_excel Scenario.discovery (Some Scenario.df) "prompt" None
      = Saved results calls
    ∧ (∀ name p, RowConvert 1 name p ∉ calls)
    ∧ Pandas.at_ 1 "UpperCaseConverter_output" results = NaN.
Proof.
  destruct C7_blank_rows_skipped as (H & Hd & _).
  specialize (H Scenario.discovery Scenario.df "prompt" None).
  cbv zeta in H. rewrite Hd in H.
  destruct H as (results & calls & Hrun & Hskip).
  - repeat constructor.
  - left.
  - apply (bool_decide_unpack _). by vm_compute.
  - intros x p Hx _ _. elem_cases Hx; subst x; simpl; eauto.
  - exists results, calls. split; [exact Hrun|].
    destruct (Hskip 1 (Text "") eq_refl (or_intror eq_refl)) as [Hc Hcell].
    split; [exact Hc|]. by rewrite Hcell.
Defined.

(** C10.  A row cap of 0 is no cap: [process_excel] does with [max_rows = 0]
    exactly what it does without [max_rows], on the whole input; a positive
    cap keeps the first [max_rows] rows; and the input is only ever cut
    when [max_rows] is a number other than 0. *)
Theorem C10_zero_cap_is_no_cap (discovery : ConverterDiscovery)
    (input : option DataFrame) (prompt_column : string) (df : DataFrame) :
  process_excel discovery input prompt_column (Some 0%Z)
    = process_excel discovery input prompt_column None
  ∧ cap_rows (Some 0%Z) df = df
  ∧ cap_rows None df = df
  ∧ (∀ n : Z, (0 < n)%Z ->
       nrows (cap_rows (Some n) df) = Z.to_nat n `min` nrows df
       ∧ columns (cap_rows (Some n) df)
         = (λ col, (col.1, take (Z.to_nat n) col.2)) <$> columns df)
  ∧ (∀ max_rows : option Z,
       cap_rows max_rows df ≠ df -> ∃ n, max_rows = Some n ∧ n ≠ 0%Z).
Proof.
  split; [done|]. split; [done|]. split; [done|]. split.
  - intros n Hn. unfold cap_rows, Pandas.head.
    rewrite decide_False by lia.
    assert ((0 <=? n)%Z = true) as -> by (apply Z.leb_le; lia). done.
  - intros [n|] Hcut; [|done]. exists n. split; [done|].
    intros ->. by apply Hcut.
Qed.

(** A cap of 2 keeps the first two rows of the scenario table; a cap of 0
    keeps all three. *)
Lemma C10_zero_cap_is_no_cap_witness :
  nrows (cap_rows (Some 2%Z) Scenario.df) = 2
  ∧ nrows (cap_rows (Some 0%Z) Scenario.df) = 3.
Proof.
  destruct (C10_zero_cap_is_no_cap init None "prompt" Scenario.df)
    as (_ & -> & _ & H & _).
  destruct (H 2%Z ltac:(lia)) as [-> _]. done.
Defined.

(** ** The enriched table *)

Section Columns.

Implicit Types (cols A B : list (string * list cell)) (label : string).




End Columns.

Section EnrichedRow.

Variables (idx N : nat) (prompt : string).
Implicit Types (d : PyDict.t plugin) (A : list (string * list cell)).




End EnrichedRow.

Section EnrichedRows.

Variables (N : nat) (d : PyDict.t plugin).
Hypothesis d_NoDup : NoDup (PyDict.keys d).
Implicit Types (A : list (string * list cell)) (prompts : list cell).




End EnrichedRows.




(** * Further properties *)

(** ** The single-prompt processor *)

Lemma single_prompt_loop_spec (prompt : string) (d : list (string * plugin))
    (results : prompt_results) :
  (∀ x, x ∈ d -> is_Some (await (convert_async x.2 prompt))) ->
  single_prompt_loop prompt d results =
    Some ({| Converter := Converter results ++ d.*1;
             Input := Input results ++ ((λ _, prompt) <$> d);
             Output :=
               Output results
               ++ ((λ x, record_output (outcome x.2 prompt)) <$> d);
             Status :=
               Status results
               ++ ((λ x, record_status (outcome x.2 prompt)) <$> d) |},
          d.*1).
Proof.
  revert results. induction d as [|[name c] d IH]; intros results Hfin.
  - simpl. rewrite !app_nil_r. by destruct results.
  - destruct (Hfin (name, c)) as [r Hr]; [by left|]. cbn [snd] in Hr.
    assert (outcome c prompt = r) as Ho by (unfold outcome; by rewrite Hr).
    cbn [single_prompt_loop]. rewrite Hr.
    rewrite IH by (intros x Hx; apply Hfin; by right).
    rewrite !fmap_cons. cbn [fst snd]. rewrite Ho.
    destruct r; cbn [record_output record_status Converter Input Output
                       Status]; by rewrite <- !app_assoc.
Qed.

(** X1.  When every conversion finishes, [process_single_prompt] returns a
    table of four columns with one record per text-to-text converter, in
    the order of the ledger: the converter's name, the prompt, the output
    text and the success mark when the conversion returned, the exception's
    message and the cross with its type name when it raised.  Each converter
    is called once, whatever the conversions before it did. *)
Theorem X1_single_prompt_records (discovery : ConverterDiscovery)
    (prompt : string) :
  let d : list (string * plugin) := text_to_text_converters discovery in
  (∀ x, x ∈ d -> is_Some (await (convert_async x.2 prompt))) ->
  process_single_prompt discovery prompt =
    Some ({| nrows := length d;
             columns :=
               [("Converter", (λ x, Text x.1) <$> d);
                ("Input", (λ _, Text prompt) <$> d);
                ("Output",
                 (λ x, Text (record_output (outcome x.2 prompt))) <$> d);
                ("Status",
                 (λ x, Text (record_status (outcome x.2 prompt))) <$> d)] |},
          PyDict.keys d).
Proof.
  intros d Hfin. unfold process_single_prompt. fold d.
  rewrite (single_prompt_loop_spec prompt d _ Hfin).
  unfold results_frame. cbn [Converter Input Output Status app].
  by rewrite length_fmap, <- !list_fmap_compose.
Qed.

(** With the converters of [Faulty] the prompt "go" gives one failure
    record and one success record. *)
Lemma X1_single_prompt_records_witness :
  process_single_prompt Faulty.discovery "go" =
    Some ({| nrows := 2;
             columns :=
               [("Converter",
                 [Text "PickyConverter"; Text "UpperCaseConverter"]);
                ("Input", [Text "go"; Text "go"]);
                ("Output", [Text "bad input"; Text "GO"]);
                ("Status", [Text (failure_status Faulty.error);
                            Text success_status])] |},
          ["PickyConverter"; "UpperCaseConverter"]).
Proof.
  assert (text_to_text_converters Faulty.discovery
          = [("PickyConverter", Faulty.picky);
             ("UpperCaseConverter", UpperCase.converter)]) as Hd
    by (by vm_compute).
  pose proof (X1_single_prompt_records Faulty.discovery "go") as H.
  cbv zeta in H. rewrite Hd in H. rewrite H; [by vm_compute|].
  intros x Hx. elem_cases Hx; subst x; vm_compute; eauto.
Defined.

(** ** Batch and single-prompt processing side by side *)

Lemma run_rows_all_skipped (d : PyDict.t plugin) (results : DataFrame)
    (prompts : list cell) (idx : nat) :
  Forall (λ p, skipped p = true) prompts ->
  run_rows idx prompts d results = Some (results, []).
Proof.
  intros Hall. revert idx.
  induction Hall as [|p prompts Hp _ IH]; intros idx; [done|].
  cbn [run_rows]. rewrite Hp. apply IH.
Qed.

(** X2.  A batch run over a table in which every prompt of the (capped)
    prompt column is missing or blank calls no converter and writes the
    capped table as it is: no output column is added. *)
Theorem X2_blank_table_unchanged (discovery : ConverterDiscovery)
    (df : DataFrame) (prompt_column : string) (max_rows : option Z) :
  let table := cap_rows max_rows df in
  prompt_column ∈ Pandas.labels df ->
  Forall (λ p, skipped p = true)
    (default [] (Pandas.column prompt_column table)) ->
  process_excel discovery (Some df) prompt_column max_rows = Saved table [].
Proof.
  intros table Hcol Hall. unfold process_excel.
  rewrite decide_True by done. fold table.
  by rewrite run_rows_all_skipped.
Qed.

(** The table whose only prompt is blank, under the converters of
    [Faulty]. *)
Lemma X2_blank_table_unchanged_witness :
  process_excel Faulty.discovery (Some (one_prompt "  ")) "prompt" None
  = Saved (one_prompt "  ") [].
Proof.
  apply (X2_blank_table_unchanged Faulty.discovery (one_prompt "  ")
           "prompt" None).
  - by left.
  - constructor; [vm_compute; reflexivity | constructor].
Defined.

Lemma at_results_frame (i : nat) (a b c e : list cell) (n : nat) :
  Pandas.at_ i "Output"
    {| nrows := n;
       columns := [("Converter", a); ("Input", b); ("Output", c);
                   ("Status", e)] |} = default NaN (c !! i)
  ∧ Pandas.at_ i "Status"
      {| nrows := n;
         columns := [("Converter", a); ("Input", b); ("Output", c);
                     ("Status", e)] |} = default NaN (e !! i).
Proof. done. Qed.

Lemma failure_status_ne (e : exn) : failure_status e ≠ success_status.
Proof. unfold failure_status, success_status. by rewrite string_app_cons. Qed.

Lemma skipped_text_false (prompt : string) :
  PyStr.strip prompt ≠ "" -> skipped (Text prompt) = false.
Proof.
  intros H. unfold skipped. cbn [Pandas.isna Pandas.str orb].
  by apply bool_decide_eq_false.
Qed.

(** X3.  For a prompt that is not blank and converters that all finish on
    it, the batch run over the one-row table of that prompt and the
    single-prompt run agree: the batch cell of a converter holds the
    [Output] of the converter's record when the record's [Status] is the
    success mark, and "ERROR: " followed by that [Output] otherwise. *)
Theorem X3_batch_agrees_with_single (discovery : ConverterDiscovery)
    (prompt : string) :
  let d : list (string * plugin) := text_to_text_converters discovery in
  NoDup (PyDict.keys d) ->
  (∀ x, x ∈ d -> is_Some (await (convert_async x.2 prompt))) ->
  PyStr.strip prompt ≠ "" ->
  ∃ batch calls single called,
    process_excel discovery (Some (one_prompt prompt)) "prompt" None
      = Saved batch calls
    ∧ process_single_prompt discovery prompt = Some (single, called)
    ∧ ∀ i name c, d !! i = Some (name, c) ->
        ∃ text,
          Pandas.at_ i "Output" single = Text text
          ∧ (Pandas.at_ i "Status" single = Text success_status ->
             Pandas.at_ 0 (name +:+ "_output") batch = Text text)
          ∧ (Pandas.at_ i "Status" single ≠ Text success_status ->
             Pandas.at_ 0 (name +:+ "_output") batch
             = Text ("ERROR: " +:+ text)).
Proof.
  intros d Hnd Hfin Hstrip.
  pose proof (skipped_text_false prompt Hstrip) as Hskip.
  destruct (process_excel_spec discovery (one_prompt prompt) "prompt" None)
    as (batch & Hrun & _ & _ & _ & Hcell).
  { by repeat constructor. }
  { by left. }
  { exact Hnd. }
  { intros x p Hx Hp _. apply list_elem_of_singleton in Hp as ->.
    by apply Hfin. }
  exists batch. eexists. eexists. eexists.
  split; [exact Hrun|]. split.
  { unfold process_single_prompt. fold d.
    rewrite (single_prompt_loop_spec prompt d _ Hfin). reflexivity. }
  intros i name c Hi.
  exists (record_output (outcome c prompt)).
  unfold results_frame. cbn [Converter Input Output Status app].
  destruct (at_results_frame i
              (Text <$> d.*1) (Text <$> ((λ _, prompt) <$> d))
              (Text <$> ((λ x, record_output (outcome x.2 prompt)) <$> d))
              (Text <$> ((λ x, record_status (outcome x.2 prompt)) <$> d))
              (length (d.*1))) as [-> ->].
  rewrite !list_lookup_fmap, Hi. cbn [fmap option_fmap option_map default snd].
  split; [done|].
  change (name +:+ "_output") with (output_label (name, c).1).
  rewrite (Hcell 0 (Text prompt) (name, c)); [|done|done|].
  2: { by apply (list_elem_of_lookup_2 _ i). }
  cbn [Pandas.str snd]. unfold converted, outcome.
  assert ((name, c) ∈ d) as Hin by (by apply (list_elem_of_lookup_2 _ i)).
  destruct (Hfin (name, c) Hin) as [r Hr].
  cbn [snd] in Hr. rewrite Hr. cbn [default]. unfold id.
  destruct r as [text|e]; cbn [outcome_cell record_output record_status].
  - split; [done|]. intros H. by destruct H.
  - split; [|done]. intros H. destruct (failure_status_ne e). congruence.
Qed.

(** The prompt "go" under the converters of [Faulty]: the first converter
    raises, the second returns. *)
Lemma X3_batch_agrees_with_single_witness :
  ∃ batch calls single called,
    process_excel Faulty.discovery (Some (one_prompt "go")) "prompt" None
      = Saved batch calls
    ∧ process_single_prompt Faulty.discovery "go" = Some (single, called)
    ∧ ∀ i name c,
        text_to_text_converters Faulty.discovery !! i = Some (name, c) ->
        ∃ text,
          Pandas.at_ i "Output" single = Text text
          ∧ (Pandas.at_ i "Status" single = Text success_status ->
             Pandas.at_ 0 (name +:+ "_output") batch = Text text)
          ∧ (Pandas.at_ i "Status" single ≠ Text success_status ->
             Pandas.at_ 0 (name +:+ "_output") batch
             = Text ("ERROR: " +:+ text)).
Proof.
  apply (X3_batch_agrees_with_single Faulty.discovery "go").
  - apply (bool_decide_unpack _). by vm_compute.
  - intros x Hx.
    change (x ∈ [("PickyConverter", Faulty.picky);
                 ("UpperCaseConverter", UpperCase.converter)]) in Hx.
    elem_cases Hx; subst x; vm_compute; eauto.
  - by vm_compute.
Defined.

(** ** The summary line *)

(** X4.  After a discovery run on a fresh ledger there are at least as
    many working converters as text-to-text converters: the count of
    "other converters" that [main] prints, the difference of the two, is
    never negative. *)
Theorem X4_other_converters_count (import_module : string -> module_load)
    (converter_dir : option (list string)) :
  let st := (discover_and_test_converters import_module init converter_dir).1 in
  length (text_to_text_converters st) <= size (working_converters st).
Proof.
  intros st. subst st. rewrite discover_run_items.
  destruct (run_items_ok init (discovery_items import_module converter_dir)
              ledger_ok_init) as (Hsub & _ & Hnd).
  set (st := (run_items init _).1) in *.
  rewrite <- size_dom. unfold size, set_size.
  replace (length (text_to_text_converters st))
    with (length (PyDict.keys (text_to_text_converters st)))
    by (unfold PyDict.keys; apply length_fmap).
  apply submseteq_length, NoDup_submseteq; [done|].
  intros n Hn. apply elem_of_elements. by apply Hsub.
Qed.

(** ** The exit status of [main] *)

Section MainFacts.

Variable import_module : string -> module_load.
Variable converter_dir : option (list string).
Variables read_excel read_csv : string -> option DataFrame.
Variables to_excel to_csv : string -> DataFrame -> bool.
Variable timestamp : string.

Let discovery :=
  (discover_and_test_converters import_module init converter_dir).1.
Let run := main import_module converter_dir read_excel read_csv to_excel
             to_csv timestamp.

Lemma main_nothing_to_do (args : Args.t) :
  nothing_to_do discovery args -> run args = Exits 1 None.
Proof.
  unfold run, main. fold discovery. intros [Hnone|[Hp Hf]].
  - by rewrite Hnone.
  - rewrite Hp, Hf. by case_decide.
Qed.

Lemma main_something (args : Args.t) (code : Z)
    (written : option (string * file_format * DataFrame)) :
  ¬ nothing_to_do discovery args ->
  run args = Exits code written -> code = 0%Z.
Proof.
  unfold run, main, nothing_to_do. fold discovery. intros Hnot.
  case_decide as Hlen.
  { destruct Hnot. left. by apply nil_length_inv. }
  destruct (truthy (Args.prompt args)) as [prompt|] eqn:Hp.
  - destruct (process_single_prompt discovery prompt) as [[table ?]|];
      [|done].
    destruct (save _ _ _ _) as [[path format]|]; [|done].
    by intros [= <- _].
  - destruct (truthy (Args.input_file args)) as [input_file|] eqn:Hf.
    + unfold process_excel_file.
      destruct (process_excel _ _ _ _) as [| |results calls|calls];
        [done| | |done].
      * by intros [= <- _].
      * destruct (save _ _ _ _) as [[path format]|]; [|done].
        by intros [= <- _].
    + destruct Hnot. by right.
Qed.

Lemma main_rejected (args : Args.t) (input_file : string) :
  text_to_text_converters discovery ≠ [] ->
  truthy (Args.prompt args) = None ->
  truthy (Args.input_file args) = Some input_file ->
  process_excel discovery (read_input read_excel read_csv input_file)
    (Args.prompt_column args) (Args.max_rows args) = Rejected ->
  run args = Exits 0 None.
Proof.
  intros Hd Hp Hf Hrej. unfold run, main. fold discovery.
  rewrite decide_False by (by intros ?%nil_length_inv).
  rewrite Hp, Hf. unfold process_excel_file. by rewrite Hrej.
Qed.

End MainFacts.

(** X5.  [main] ends through [sys.exit(1)] exactly when discovery found
    no text-to-text converter or the command line has neither a non-empty
    prompt nor a non-empty input file, and it has written no file then;
    whenever [main] ends otherwise without an uncaught exception, it
    returns, with exit status 0. *)
Theorem X5_main_exit_status (import_module : string -> module_load)
    (converter_dir : option (list string))
    (read_excel read_csv : string -> option DataFrame)
    (to_excel to_csv : string -> DataFrame -> bool) (timestamp : string)
    (args : Args.t) :
  let discovery :=
    (discover_and_test_converters import_module init converter_dir).1 in
  let run := main import_module converter_dir read_excel read_csv to_excel
               to_csv timestamp in
  (nothing_to_do discovery args -> run args = Exits 1 None)
  ∧ (∀ code written, run args = Exits code written ->
       (code = 1%Z ∧ written = None ∧ nothing_to_do discovery args)
       ∨ (code = 0%Z ∧ ¬ nothing_to_do discovery args)).
Proof.
  intros discovery run. split; [apply main_nothing_to_do|].
  intros code written Hrun.
  assert (Decision (nothing_to_do discovery args)) as [Hn|Hn].
  { unfold nothing_to_do.
    destruct (text_to_text_converters discovery); [left; by left|].
    destruct (truthy (Args.prompt args)); [right; intros [?|[? ?]]; done|].
    destruct (truthy (Args.input_file args));
      [right; intros [?|[? ?]]; done|].
    left. by right. }
  - left. unfold run in Hrun. rewrite main_nothing_to_do in Hrun by done.
    by injection Hrun as <- <-.
  - right. split; [|done]. by eapply main_something.
Qed.

(** X6.  In batch mode (no prompt, an input file) with at least one
    text-to-text converter, an input that can be read neither as a workbook
    nor as CSV, or that lacks the prompt column, makes [main] return, with
    exit status 0, without having written anything. *)
Theorem X6_unusable_input_exits_zero (import_module : string -> module_load)
    (converter_dir : option (list string))
    (read_excel read_csv : string -> option DataFrame)
    (to_excel to_csv : string -> DataFrame -> bool) (timestamp : string)
    (args : Args.t) (input_file : string) :
  let discovery :=
    (discover_and_test_converters import_module init converter_dir).1 in
  text_to_text_converters discovery ≠ [] ->
  truthy (Args.prompt args) = None ->
  truthy (Args.input_file args) = Some input_file ->
  (read_excel input_file = None ∧ read_csv input_file = None)
  ∨ (∃ df, read_input read_excel read_csv input_file = Some df
           ∧ Args.prompt_column args ∉ Pandas.labels df) ->
  main import_module converter_dir read_excel read_csv to_excel to_csv
    timestamp args = Exits 0 None.
Proof.
  intros discovery Hd Hp Hf Hin.
  apply (main_rejected _ _ _ _ _ _ _ args input_file Hd Hp Hf).
  destruct Hin as [[He Hc]|(df & Hdf & Hcol)].
  - unfold read_input. by rewrite He, Hc.
  - rewrite Hdf. unfold process_excel. by rewrite decide_False.
Qed.

(** With the converters of [Faulty] and a file that cannot be read. *)
Lemma X6_unusable_input_exits_zero_witness :
  main Faulty.import_module (Some ["text_converter.py"]) Files.unreadable
    Files.unreadable Files.writable Files.writable "20250101_120000"
    (Args.Make (Some "missing.xlsx") None None "prompt" None false)
  = Exits 0 None.
Proof.
  apply (X6_unusable_input_exits_zero Faulty.import_module
           (Some ["text_converter.py"]) Files.unreadable Files.unreadable
           Files.writable Files.writable "20250101_120000"
           (Args.Make (Some "missing.xlsx") None None "prompt" None false)
           "missing.xlsx").
  - by vm_compute.
  - reflexivity.
  - reflexivity.
  - left. split; reflexivity.
Defined.

(** ** The name of the CSV fallback *)

Lemma replace_absent (old new s : string) :
  PyStr.contains old s = false -> PyText.replace old new s = s.
Proof.
  unfold PyText.replace. induction s as [|c s IH]; [done|].
  cbn [PyStr.contains PyText.replace_from].
  intros [Hp Hc]%orb_false_elim. rewrite Hp. by rewrite IH.
Qed.

Lemma prefix_xlsx_stem (stem : string) :
  stem ≠ "" ->
  String.prefix ".xlsx" stem = false ->
  String.prefix ".xlsx" (stem +:+ ".xlsx") = false.
Proof.
  intros Hne Hp.
  destruct stem as [|c1 [|c2 [|c3 [|c4 [|c5 stem]]]]]; [done|..];
    rewrite ?string_app_cons, ?string_app_nil_l;
    cbn [String.prefix] in *;
    repeat match goal with
           | |- context [ascii_dec ?a ?b] =>
               destruct (ascii_dec a b); try done; subst
           end.
  by destruct stem.
Qed.

Lemma replace_xlsx_suffix (new stem : string) :
  PyStr.contains ".xlsx" stem = false ->
  PyText.replace ".xlsx" new (stem +:+ ".xlsx") = stem +:+ new.
Proof.
  unfold PyText.replace. induction stem as [|c stem IH].
  - intros _. rewrite !string_app_nil_l.
    cbn [PyText.replace_from String.prefix String.length Nat.sub].
    repeat (destruct (ascii_dec _ _); [|done]).
    by rewrite string_app_nil_r.
  - intros Hc. pose proof Hc as Hc'.
    cbn [PyStr.contains] in Hc'. apply orb_false_elim in Hc' as [Hp Hrest].
    rewrite !string_app_cons. cbn [PyText.replace_from].
    rewrite <- string_app_cons, prefix_xlsx_stem by done.
    by rewrite IH.
Qed.

(** X7.  When [to_excel] fails on an output name that does not contain
    ".xlsx", the fallback writes the CSV text under that very name (so a
    name such as "out.xls" ends up holding CSV), and the run dies when
    that fails too. *)
Theorem X7_csv_fallback_same_name (to_excel to_csv : string -> DataFrame -> bool)
    (output_file : string) (table : DataFrame) :
  PyStr.contains ".xlsx" output_file = false ->
  to_excel output_file table = false ->
  save to_excel to_csv output_file table
  = if to_csv output_file table then Some (output_file, Csv) else None.
Proof.
  intros Hc He. unfold save. rewrite He. by rewrite replace_absent.
Qed.

Lemma X7_csv_fallback_same_name_witness :
  save Files.refused Files.writable "out.xls" (one_prompt "hi")
  = Some ("out.xls", Csv).
Proof.
  apply (X7_csv_fallback_same_name Files.refused Files.writable "out.xls"
           (one_prompt "hi")); reflexivity.
Defined.

(** X8.  When [to_excel] fails on an output name that ends in ".xlsx" and
    has no other ".xlsx" in it, the fallback writes the CSV text under the
    name with ".csv" in place of that ending. *)
Theorem X8_csv_fallback_renamed (to_excel to_csv : string -> DataFrame -> bool)
    (stem : string) (table : DataFrame) :
  PyStr.contains ".xlsx" stem = false ->
  to_excel (stem +:+ ".xlsx") table = false ->
  save to_excel to_csv (stem +:+ ".xlsx") table
  = if to_csv (stem +:+ ".csv") table then Some (stem +:+ ".csv", Csv)
    else None.
Proof.
  intros Hc He. unfold save. rewrite He. by rewrite replace_xlsx_suffix.
Qed.

Lemma X8_csv_fallback_renamed_witness :
  save Files.refused Files.writable "my.data.xlsx" (one_prompt "hi")
  = Some ("my.data.csv", Csv).
Proof.
  apply (X8_csv_fallback_renamed Files.refused Files.writable "my.data"
           (one_prompt "hi")); reflexivity.
Defined.

(** ** The failure report *)

Lemma string_compare_refl (s : string) : String.compare s s = Eq.
Proof.
  induction s as [|c s IH]; [done|]. cbn [String.compare].
  unfold Ascii.compare. by rewrite N.compare_refl.
Qed.

Lemma string_leb_refl (s : string) : String.leb s s = true.
Proof. unfold String.leb. by rewrite string_compare_refl. Qed.

Lemma string_compare_trans (a b c : string) :
  String.compare a b ≠ Gt -> String.compare b c ≠ Gt ->
  String.compare a c ≠ Gt.
Proof.
  revert b c. induction a as [|x a IH]; intros [|y b] [|z c]; try done.
  cbn [String.compare]. unfold Ascii.compare.
  destruct (N.compare_spec (N_of_ascii x) (N_of_ascii y)) as [Hxy|Hxy|Hxy];
    destruct (N.compare_spec (N_of_ascii y) (N_of_ascii z)) as [Hyz|Hyz|Hyz];
    try done.
  - rewrite Hxy, Hyz, N.compare_refl. apply IH.
  - intros _ _. by rewrite Hxy, (proj2 (N.compare_lt_iff _ _) Hyz).
  - intros _ _. by rewrite <- Hyz, (proj2 (N.compare_lt_iff _ _) Hxy).
  - intros _ _.
    by rewrite (proj2 (N.compare_lt_iff _ _) (N.lt_trans _ _ _ Hxy Hyz)).
Qed.

Lemma string_leb_trans (a b c : string) :
  String.leb a b = true -> String.leb b c = true -> String.leb a c = true.
Proof.
  unfold String.leb. intros Hab Hbc.
  pose proof (string_compare_trans a b c) as H.
  destruct (String.compare a b), (String.compare b c),
    (String.compare a c); try done; by destruct H.
Qed.

#[global] Instance item_le_total : Total item_le.
Proof.
  intros a b. unfold item_le. repeat case_decide; try congruence;
    apply String.leb_total.
Qed.

#[global] Instance item_le_trans : Transitive item_le.
Proof.
  intros a b c. unfold item_le. intros Hab Hbc.
  destruct (decide (a.1 = b.1)) as [E1|N1];
    destruct (decide (b.1 = c.1)) as [E2|N2];
    destruct (decide (a.1 = c.1)) as [E3|N3]; try congruence.
  - by eapply string_leb_trans.
  - destruct N1. apply String.leb_antisym; [done|]. by rewrite E3.
  - by eapply string_leb_trans.
Qed.

Lemma item_le_name (a b : string * string) :
  item_le a b -> String.leb a.1 b.1 = true.
Proof.
  unfold item_le. case_decide as H; [|done].
  intros _. rewrite H. apply string_leb_refl.
Qed.

Lemma sorted_names (l : list (string * string)) :
  StronglySorted item_le l -> NoDup l.*1 ->
  StronglySorted (λ a b, a.1 ≠ b.1 ∧ String.leb a.1 b.1 = true) l.
Proof.
  induction 1 as [|a l Hl IH Ha]; [constructor|].
  rewrite fmap_cons, NoDup_cons. intros [Hnot Hnd].
  constructor; [by apply IH|].
  apply Forall_forall. intros b Hb. split.
  - intros Hab. apply Hnot. rewrite Hab. by apply list_elem_of_fmap_2.
  - apply item_le_name. by apply (proj1 (Forall_forall _ _) Ha).
Qed.

(** X9.  The failure report of a verbose discovery run shows the recorded
    failures with their reasons in strictly ascending order of name; it
    shows all of them when there are at most 20, and otherwise 20 of them
    such that no omitted name comes before a shown one. *)
Theorem X9_failure_details (self : ConverterDiscovery) :
  let shown := failure_details self in
  let failed := failed_converters self in
  length shown = 20 `min` size failed
  ∧ StronglySorted (λ a b, a.1 ≠ b.1 ∧ String.leb a.1 b.1 = true) shown
  ∧ (∀ n msg, (n, msg) ∈ shown -> failed !! n = Some msg)
  ∧ (∀ n msg, failed !! n = Some msg ->
       (n, msg) ∈ shown
       ∨ (20 < size failed ∧ ∀ x, x ∈ shown -> String.leb x.1 n = true)).
Proof.
  intros shown failed. subst shown. unfold failure_details. fold failed.
  set (L := merge_sort item_le (map_to_list failed)).
  assert (L ≡ₚ map_to_list failed) as Hperm
    by apply merge_sort_Permutation.
  assert (StronglySorted item_le L) as Hsorted
    by (apply StronglySorted_merge_sort; apply _).
  assert (length L = size failed) as Hlen
    by (by rewrite Hperm, length_map_to_list).
  assert (NoDup L.*1) as Hnd
    by (rewrite Hperm; apply NoDup_fst_map_to_list).
  split; [by rewrite length_take, Hlen|]. split.
  { apply sorted_names.
    - apply (StronglySorted_app_1_l _ _ (drop 20 L)). by rewrite take_drop.
    - apply (NoDup_app (take 20 L).*1 (drop 20 L).*1).
      by rewrite <- fmap_app, take_drop. }
  split.
  { intros n msg Hin. apply elem_of_map_to_list. rewrite <- Hperm.
    rewrite <- (take_drop 20 L). apply elem_of_app. by left. }
  intros n msg Hn.
  apply elem_of_map_to_list in Hn. rewrite <- Hperm in Hn.
  rewrite <- (take_drop 20 L) in Hn.
  apply elem_of_app in Hn as [Hn|Hn]; [by left|]. right. split.
  - rewrite <- Hlen. destruct (decide (20 < length L)) as [|Hshort]; [done|].
    rewrite drop_ge in Hn by lia. by apply elem_of_nil in Hn.
  - intros x Hx. change n with (n, msg).1. apply item_le_name.
    apply (StronglySorted_app_1_elem_of _ (take 20 L) (drop 20 L));
      [by rewrite take_drop | done | done].
Qed.

(** ** A directory in which no module loads *)

Lemma run_items_no_class (st : ConverterDiscovery) (items : list probe_item) :
  (∀ n c, ClassProbe n c ∉ items) ->
  working_converters (run_items st items).1 = working_converters st
  ∧ text_to_text_converters (run_items st items).1
    = text_to_text_converters st.
Proof.
  revert st. induction items as [|it items IH]; intros st Hno; [done|].
  rewrite run_items_cons. cbn [fst].
  destruct it as [m e|n c]; [|by destruct (Hno n c); left].
  rewrite run_item_load. cbn [fst].
  destruct (IH (set_failed m
                  ("Import failed: " +:+ type_name e +:+ ": " +:+ message e)
                  st)) as [-> ->]; [|done].
  intros n c Hin. apply (Hno n c). by right.
Qed.

Lemma discovery_items_all_fail (import_module : string -> module_load)
    (converter_dir : option (list string)) :
  (∀ dir file, converter_dir = Some dir -> file ∈ dir ->
     PyStr.endswith "_converter.py" file = true ->
     ∃ e, import_module (stem file) = ImportFails e) ->
  ∀ n c, ClassProbe n c ∉ discovery_items import_module converter_dir.
Proof.
  intros Hfail n c. destruct converter_dir as [dir|]; [|apply not_elem_of_nil].
  cbn [discovery_items]. unfold files_items.
  intros (file & Hin & Hfile)%list_elem_of_bind.
  pose proof (sorted_converter_files_elem _ _ Hfile) as Hname.
  unfold sorted_converter_files in Hfile.
  rewrite merge_sort_Permutation in Hfile.
  apply list_elem_of_filter in Hfile as [_ Hdir].
  destruct (Hfail dir file eq_refl Hdir Hname) as [e He].
  unfold module_items in Hin. rewrite He in Hin.
  by apply list_elem_of_singleton in Hin.
Qed.

(** X10.  When every converter module of the plugin directory fails to
    load, discovery ends without a working converter and [main], which
    starts once the command line has been parsed, ends through
    [sys.exit(1)] without reading or writing a file, whatever the parsed
    arguments are. *)
Theorem X10_no_module_loads (import_module : string -> module_load)
    (dir : list string)
    (read_excel read_csv : string -> option DataFrame)
    (to_excel to_csv : string -> DataFrame -> bool) (timestamp : string)
    (args : Args.t) :
  let st := (discover_and_test_converters import_module init (Some dir)).1 in
  (∀ file, file ∈ dir ->
     PyStr.endswith "_converter.py" file = true ->
     ∃ e, import_module (stem file) = ImportFails e) ->
  working_converters st = ∅
  ∧ text_to_text_converters st = []
  ∧ main import_module (Some dir) read_excel read_csv to_excel to_csv
      timestamp args = Exits 1 None.
Proof.
  intros st Hfail.
  assert (working_converters st = ∅ ∧ text_to_text_converters st = [])
    as [Hw Ht].
  { subst st. rewrite discover_run_items.
    apply run_items_no_class, discovery_items_all_fail.
    intros dir' file [= <-]. apply Hfail. }
  split; [done|]. split; [done|].
  apply main_nothing_to_do. by left.
Qed.

(** The plugin directory of the repository: [tense_converter] and
    [tone_converter] both fail to load. *)
Lemma X10_no_module_loads_witness :
  let st :=
    (discover_and_test_converters Repository.import_module init
       (Some Repository.dir)).1 in
  working_converters st = ∅
  ∧ text_to_text_converters st = []
  ∧ main Repository.import_module (Some Repository.dir) Files.unreadable
      Files.unreadable Files.writable Files.writable "20250101_120000"
      (Args.Make None None (Some "Tell me a story") "prompt" None true)
    = Exits 1 None.
Proof.
  apply (X10_no_module_loads Repository.import_module Repository.dir).
  intros file Hin _. unfold Repository.import_module.
  case_decide; eauto.
Defined.

(** ** What one probe touches *)

Lemma PyDict_get_set_ne {V} (k n : string) (v : V) (d : PyDict.t V) :
  k ≠ n -> PyDict.get k (PyDict.set n v d) = PyDict.get k d.
Proof.
  intros Hne. induction d as [|[k' v'] d IH]; simpl.
  - by rewrite decide_False.
  - case_decide; simpl.
    + subst k'. by rewrite !decide_False.
    + case_decide; [done | exact IH].
Qed.

Lemma PyDict_keys_set_prefix {V} (n : string) (v : V) (d : PyDict.t V) :
  PyDict.keys d `prefix_of` PyDict.keys (PyDict.set n v d).
Proof.
  unfold PyDict.keys. induction d as [|[k' v'] d IH]; simpl.
  - apply prefix_nil.
  - case_decide; simpl; [by subst | by apply prefix_cons].
Qed.

(** X11.  A probe of a class touches only what the ledger holds under the
    class name: the entries of every other name in the three dictionaries
    are as before, and the converters already in
    [text_to_text_converters] keep their places.  It records the name as
    working, leaving [failed_converters] as it was; or as failed, leaving
    the other two dictionaries as they were; or as both, leaving
    [text_to_text_converters] as it was, and this only for an instance
    under another name than [HumanInTheLoopConverter] that is not
    text-to-text and has a capability attribute that cannot be indexed, a
    set with members.  An entry that an earlier probe made under the same
    name in a dictionary that the probe does not write stays.
    [TaggedConverter], whose input kinds are a set, is recorded as both. *)
Theorem X11_probe_frame (self : ConverterDiscovery) (class_name : string)
    (converter_class : plugin_class) :
  let st := (_test_converter_class self class_name converter_class).1 in
  (∀ k, k ≠ class_name ->
     working_converters st !! k = working_converters self !! k
     ∧ failed_converters st !! k = failed_converters self !! k
     ∧ PyDict.get k (text_to_text_converters st)
       = PyDict.get k (text_to_text_converters self))
  ∧ PyDict.keys (text_to_text_converters self)
      `prefix_of` PyDict.keys (text_to_text_converters st)
  ∧ ((class_name ∈ dom (working_converters st)
      ∧ failed_converters st = failed_converters self)
     ∨ (class_name ∈ dom (failed_converters st)
        ∧ working_converters st = working_converters self
        ∧ text_to_text_converters st = text_to_text_converters self)
     ∨ (class_name ∈ dom (working_converters st)
        ∧ class_name ∈ dom (failed_converters st)
        ∧ text_to_text_converters st = text_to_text_converters self
        ∧ class_name ≠ "HumanInTheLoopConverter"
        ∧ ∃ inst,
            (_try_instantiate converter_class).1 = Some inst
            ∧ ¬ ("text" ∈ getattr_types (SUPPORTED_INPUT_TYPES inst)
                 ∧ "text" ∈ getattr_types (SUPPORTED_OUTPUT_TYPES inst))
            ∧ ¬ (indexable (SUPPORTED_INPUT_TYPES inst)
                 ∧ indexable (SUPPORTED_OUTPUT_TYPES inst))))
  ∧ (let tagged :=
       (_test_converter_class init "TaggedConverter"
          Tagged.TaggedConverter).1 in
     "TaggedConverter" ∈ dom (working_converters tagged)
     ∧ failed_converters tagged !! "TaggedConverter"
       = Some "Testing failed: TypeError: 'set' object is not subscriptable"
     ∧ text_to_text_converters tagged = []).
Proof.
  intros st. subst st.
  split; [|split; [|split]].
  4:{ cbv zeta. split; [|split; by vm_compute].
      apply elem_of_dom. vm_compute. eauto. }
  all: destruct (test_class_cases class_name converter_class)
         as (passed & reason & evs & H & Hinst & Hnone & Hsome & Hboth);
       rewrite H; cbn [fst];
       rewrite ?record_probe_working, ?record_probe_failed,
         ?record_probe_text_to_text.
  - intros k Hk. split; [|split].
    + destruct passed; [by rewrite lookup_insert_ne | done].
    + destruct reason; [by rewrite lookup_insert_ne | done].
    + destruct passed as [inst|]; [|done].
      destruct (_ && _); [|done]. by apply PyDict_get_set_ne.
  - destruct passed as [inst|]; [|done].
    destruct (_ && _); [|done]. apply PyDict_keys_set_prefix.
  - destruct passed as [inst|], reason as [msg|].
    + right; right.
      destruct (Hboth ltac:(eauto) ltac:(eauto))
        as (inst' & [= <-] & Hname & Htext & Hidx).
      rewrite !dom_insert_L.
      split; [set_solver|]. split; [set_solver|]. split.
      * destruct (bool_decide _ && bool_decide _) eqn:Hb; [|done].
        apply andb_true_iff in Hb as [Hi%bool_decide_eq_true
                                        Ho%bool_decide_eq_true].
        by destruct Htext.
      * split; [done|]. exists inst. split; [by apply Hinst|done].
    + left. rewrite dom_insert_L. set_solver.
    + right; left. rewrite dom_insert_L. set_solver.
    + by destruct (Hnone eq_refl) as [? [=]].
Qed.

(** ** The base classes of the shim as plugins *)

Lemma shim_class_probe (self : ConverterDiscovery) (class_name : string) :
  class_name ≠ "HumanInTheLoopConverter" ->
  _test_converter_class self class_name (Shim.inheriting class_name) =
    (set_failed class_name
       ("Testing failed: NotImplementedError: " +:+ class_name
        +:+ " must implement convert_async()") self,
     [Construct class_name []; Probe class_name "test"]).
Proof.
  intros Hname. unfold _test_converter_class.
  rewrite try_instantiate_eq.
  change (try_patterns (Shim.inheriting class_name) patterns)
    with (Some (Shim.instance_of class_name), [[] : kwargs]).
  cbv beta iota. rewrite decide_False by done. reflexivity.
Qed.

Lemma run_items_failed_intro (st : ConverterDiscovery)
    (items : list probe_item) (it : probe_item) (n msg : string) :
  it ∈ items ->
  (∀ self, (run_item self it).1 = set_failed n msg self) ->
  n ∈ dom (failed_converters (run_items st items).1).
Proof.
  intros (l1 & l2 & ->)%list_elem_of_split Hit.
  rewrite run_items_app. destruct (run_items st l1) as [st1 ev1].
  rewrite run_items_cons. cbn [fst].
  destruct (run_items (run_item st1 it).1 l2) as [st2 ev2] eqn:Hrest.
  destruct (run_item st1 it) as [st' ev'] eqn:Hstep. cbn [fst] in *.
  destruct (run_items_grows st' l2) as (_ & Hgrow & _).
  rewrite Hrest in Hgrow. cbn [fst] in Hgrow. apply Hgrow.
  pose proof (Hit st1) as Hset. rewrite Hstep in Hset. cbn [fst] in Hset.
  rewrite Hset. cbn [set_failed failed_converters].
  rewrite dom_insert_L. set_solver.
Qed.

(** X12.  When a converter module of the plugin directory loads and has
    among its class members, under its own name, a class that inherits its
    constructor and [convert_async] from the shim's [PromptConverter] (the
    base classes [PromptConverter], [WordLevelConverter] and
    [LLMGenericTextConverter] are such classes), and that name ends in
    "Converter", does not start with "_" and is not
    [HumanInTheLoopConverter], the class is probed with that module: the
    first candidate constructs it, its test conversion raises
    [NotImplementedError], the probe stores that as the reason of the
    failure and nothing else, and the name is in [failed_converters] at
    the end of the run. *)
Theorem X12_shim_base_classes_fail (import_module : string -> module_load)
    (self : ConverterDiscovery) (dir : list string) (file class_name : string)
    (classes : list (string * plugin_class)) :
  let st := (discover_and_test_converters import_module self (Some dir)).1 in
  file ∈ dir ->
  PyStr.endswith "_converter.py" file = true ->
  import_module (stem file) = Imported classes ->
  (class_name, Shim.inheriting class_name) ∈ classes ->
  PyStr.endswith "Converter" class_name = true ->
  PyStr.startswith "_" class_name = false ->
  class_name ≠ "HumanInTheLoopConverter" ->
  class_name ∈ dom (failed_converters st)
  ∧ ∀ ledger,
      _test_converter_class ledger class_name (Shim.inheriting class_name) =
        (set_failed class_name
           ("Testing failed: NotImplementedError: " +:+ class_name
            +:+ " must implement convert_async()") ledger,
         [Construct class_name []; Probe class_name "test"]).
Proof.
  intros st Hfile Hglob Himp Hcls Hend Hstart Hname.
  split; [|intros ledger; by apply shim_class_probe].
  subst st. rewrite discover_run_items.
  apply (run_items_failed_intro _ _
           (ClassProbe class_name (Shim.inheriting class_name)) class_name
           ("Testing failed: NotImplementedError: " +:+ class_name
            +:+ " must implement convert_async()")).
  - cbn [discovery_items]. unfold files_items.
    apply list_elem_of_bind. exists file. split.
    + unfold module_items. rewrite Himp.
      apply list_elem_of_fmap.
      exists (class_name, Shim.inheriting class_name). split; [done|].
      by apply list_elem_of_filter.
    + unfold sorted_converter_files. rewrite merge_sort_Permutation.
      by apply list_elem_of_filter.
  - intros ledger. rewrite run_item_class. by rewrite shim_class_probe.
Qed.

(** The module of [WithBase] imports [PromptConverter]: the base class
    ends in [failed_converters]. *)
Lemma X12_shim_base_classes_fail_witness :
  "PromptConverter" ∈
    dom (failed_converters
           (discover_and_test_converters WithBase.import_module init
              (Some WithBase.dir)).1).
Proof.
  apply (X12_shim_base_classes_fail WithBase.import_module init WithBase.dir
           "upper_converter.py" "PromptConverter"
           (Shim.members "UpperCaseConverter" UpperCase.UpperCaseConverter)).
  - by left.
  - reflexivity.
  - reflexivity.
  - by left.
  - reflexivity.
  - reflexivity.
  - done.
Defined.

(** ** The order of the directory listing *)

#[global] Instance path_le_trans : Transitive path_le.
Proof. intros a b c. apply string_leb_trans. Qed.

#[global] Instance path_le_antisymm : AntiSymm (=) path_le.
Proof. intros a b. apply String.leb_antisym. Qed.

#[global] Instance path_le_total : Total path_le.
Proof. intros a b. apply String.leb_total. Qed.

Lemma sorted_converter_files_perm (dir dir' : list string) :
  NoDup dir -> NoDup dir' ->
  (∀ file, PyStr.endswith "_converter.py" file = true ->
           file ∈ dir <-> file ∈ dir') ->
  sorted_converter_files dir = sorted_converter_files dir'.
Proof.
  intros Hnd Hnd' Hsame. unfold sorted_converter_files.
  apply (Sorted_unique path_le).
  - apply Sorted_merge_sort, _.
  - apply Sorted_merge_sort, _.
  - rewrite !merge_sort_Permutation.
    apply NoDup_Permutation; [by apply NoDup_filter..|].
    intros file. rewrite !list_elem_of_filter. split.
    + intros [Hglob Hin]. split; [done|]. by apply Hsame.
    + intros [Hglob Hin]. split; [done|]. by apply Hsame.
Qed.

(** X13.  Discovery depends only on which files matching
    [*_converter.py] the plugin directory holds: neither the order in
    which the directory lists its files nor the other files in it change
    the ledger or the calls that are made. *)
Theorem X13_listing_order_irrelevant (import_module : string -> module_load)
    (self : ConverterDiscovery) (dir dir' : list string) :
  NoDup dir -> NoDup dir' ->
  (∀ file, PyStr.endswith "_converter.py" file = true ->
           file ∈ dir <-> file ∈ dir') ->
  discover_and_test_converters import_module self (Some dir)
  = discover_and_test_converters import_module self (Some dir').
Proof.
  intros Hnd Hnd' Hsame. cbn [discover_and_test_converters].
  by rewrite (sorted_converter_files_perm dir dir').
Qed.

(** The directory of the repository, listed in another order and without
    the files that are no converter modules. *)
Lemma X13_listing_order_irrelevant_witness :
  discover_and_test_converters Repository.import_module init
    (Some Repository.dir)
  = discover_and_test_converters Repository.import_module init
      (Some ["tone_converter.py"; "tense_converter.py"]).
Proof.
  apply (X13_listing_order_irrelevant Repository.import_module init
           Repository.dir ["tone_converter.py"; "tense_converter.py"]).
  - apply (bool_decide_unpack _). by vm_compute.
  - apply (bool_decide_unpack _). by vm_compute.
  - intros file Hglob. unfold Repository.dir. rewrite !elem_of_cons.
    split.
    + intros [->|[->|[->|[->|H]]]]; [done | done | tauto | tauto |].
      by apply elem_of_nil in H.
    + intros [->|[->|H]]; [tauto | tauto |]. by apply elem_of_nil in H.
Defined.

(** ** Running discovery again *)

Section AssignAll.

Context {V : Type}.
Implicit Types (d : PyDict.t V) (ws : list (string * V)).

Lemma PyDict_get_set k n (v : V) d :
  PyDict.get k (PyDict.set n v d)
  = if decide (n = k) then Some v else PyDict.get k d.
Proof.
  case_decide as Hk.
  - subst. apply PyDict_get_set_eq.
  - by apply PyDict_get_set_ne.
Qed.

Lemma PyDict_keys_set_in n (v : V) d :
  n ∈ PyDict.keys d -> PyDict.keys (PyDict.set n v d) = PyDict.keys d.
Proof.
  unfold PyDict.keys. induction d as [|[k' v'] d IH]; simpl.
  - by intros ?%elem_of_nil.
  - case_decide; simpl; [by subst|].
    intros [?|Hin]%elem_of_cons; [by subst|]. f_equal. by apply IH.
Qed.

Lemma PyDict_ext d1 d2 :
  PyDict.keys d1 = PyDict.keys d2 -> NoDup (PyDict.keys d1) ->
  (∀ k, PyDict.get k d1 = PyDict.get k d2) -> d1 = d2.
Proof.
  unfold PyDict.keys. revert d2.
  induction d1 as [|[k1 v1] d1 IH]; intros [|[k2 v2] d2]; try done.
  rewrite !fmap_cons. cbn [fst]. intros [= <- Hkeys].
  rewrite NoDup_cons. intros [Hk1 Hnd] Hget.
  pose proof (Hget k1) as Hv. simpl in Hv. rewrite !decide_True in Hv by done.
  injection Hv as <-. f_equal. apply IH; [done | done |].
  intros k. destruct (decide (k = k1)) as [->|Hne].
  - rewrite (proj2 (PyDict_get_None k1 d1)) by done.
    rewrite (proj2 (PyDict_get_None k1 d2)); [done|].
    unfold PyDict.keys. by rewrite <- Hkeys.
  - pose proof (Hget k) as Hk. simpl in Hk.
    by rewrite !decide_False in Hk by done.
Qed.

Lemma assign_all_cons w ws d :
  assign_all (w :: ws) d = assign_all ws (PyDict.set w.1 w.2 d).
Proof. reflexivity. Qed.

Lemma assign_all_app ws1 ws2 d :
  assign_all (ws1 ++ ws2) d = assign_all ws2 (assign_all ws1 d).
Proof. unfold assign_all. apply foldl_app. Qed.

Lemma assign_all_get k ws d :
  PyDict.get k (assign_all ws d)
  = match PyDict.get k (rev ws) with
    | Some v => Some v
    | None => PyDict.get k d
    end.
Proof.
  revert d. induction ws as [|[k1 v1] ws IH]; intros d; [done|].
  rewrite assign_all_cons, IH. cbn [rev fst snd].
  rewrite PyDict_get_app, PyDict_get_set.
  destruct (PyDict.get k (rev ws)); [done|]. simpl. by case_decide.
Qed.

Lemma assign_all_NoDup ws d :
  NoDup (PyDict.keys d) -> NoDup (PyDict.keys (assign_all ws d)).
Proof.
  revert d. induction ws as [|w ws IH]; intros d Hnd; [done|].
  rewrite assign_all_cons. by apply IH, PyDict_NoDup_set.
Qed.

Lemma assign_all_keys_grow ws d k :
  k ∈ PyDict.keys d -> k ∈ PyDict.keys (assign_all ws d).
Proof.
  revert d. induction ws as [|w ws IH]; intros d Hk; [done|].
  rewrite assign_all_cons. apply IH, PyDict_keys_set. by right.
Qed.

Lemma assign_all_keys_written ws d w :
  w ∈ ws -> w.1 ∈ PyDict.keys (assign_all ws d).
Proof.
  revert d. induction ws as [|w' ws IH]; intros d; [by intros ?%elem_of_nil|].
  rewrite assign_all_cons. intros [->|Hin]%elem_of_cons; [|by apply IH].
  apply assign_all_keys_grow, PyDict_keys_set. by left.
Qed.

Lemma assign_all_keys_same ws d :
  (∀ w, w ∈ ws -> w.1 ∈ PyDict.keys d) ->
  PyDict.keys (assign_all ws d) = PyDict.keys d.
Proof.
  revert d. induction ws as [|w ws IH]; intros d Hin; [done|].
  rewrite assign_all_cons.
  assert (w.1 ∈ PyDict.keys d) as Hw by (apply Hin; by left).
  rewrite IH; [by apply PyDict_keys_set_in|].
  intros w' Hw'. rewrite PyDict_keys_set_in by done. apply Hin. by right.
Qed.

Lemma assign_all_twice ws d :
  NoDup (PyDict.keys d) ->
  assign_all ws (assign_all ws d) = assign_all ws d.
Proof.
  intros Hnd. apply PyDict_ext.
  - apply assign_all_keys_same. intros w Hw.
    by apply assign_all_keys_written.
  - by do 2 apply assign_all_NoDup.
  - intros k. rewrite !assign_all_get.
    by destruct (PyDict.get k (rev ws)).
Qed.

End AssignAll.

Lemma ledger_eq (a b : ConverterDiscovery) :
  working_converters a = working_converters b ->
  failed_converters a = failed_converters b ->
  text_to_text_converters a = text_to_text_converters b -> a = b.
Proof. destruct a, b. simpl. by intros -> -> ->. Qed.

(** A probe does not read the ledger: what it does to a ledger is what it
    does to a fresh one, laid over the ledger. *)
Lemma run_item_over (st : ConverterDiscovery) (it : probe_item) :
  working_converters (run_item st it).1
  = working_converters (run_item init it).1 ∪ working_converters st
  ∧ failed_converters (run_item st it).1
    = failed_converters (run_item init it).1 ∪ failed_converters st
  ∧ text_to_text_converters (run_item st it).1
    = assign_all (text_to_text_converters (run_item init it).1)
        (text_to_text_converters st)
  ∧ (run_item st it).2 = (run_item init it).2.
Proof.
  destruct it as [m e|n c].
  - rewrite !run_item_load.
    cbn [fst snd set_failed init working_converters failed_converters
           text_to_text_converters].
    rewrite (left_id_L ∅ (∪)), insert_empty, <- insert_union_singleton_l.
    done.
  - rewrite !run_item_class.
    destruct (test_class_cases n c) as (passed & reason & evs & H & _).
    rewrite !H; cbn [fst snd].
    rewrite !record_probe_working, !record_probe_failed,
      !record_probe_text_to_text.
    cbn [init working_converters failed_converters text_to_text_converters].
    split; [|split; [|split; [|done]]].
    + destruct passed; [|by rewrite (left_id_L ∅ (∪))].
      by rewrite insert_empty, <- insert_union_singleton_l.
    + destruct reason; [|by rewrite (left_id_L ∅ (∪))].
      by rewrite insert_empty, <- insert_union_singleton_l.
    + destruct passed as [inst|]; [|done]. by destruct (_ && _).
Qed.

Lemma run_items_over (st : ConverterDiscovery) (items : list probe_item) :
  working_converters (run_items st items).1
  = working_converters (run_items init items).1 ∪ working_converters st
  ∧ failed_converters (run_items st items).1
    = failed_converters (run_items init items).1 ∪ failed_converters st
  ∧ text_to_text_converters (run_items st items).1
    = assign_all (text_to_text_writes items) (text_to_text_converters st)
  ∧ (run_items st items).2 = (run_items init items).2.
Proof.
  revert st. induction items as [|it items IH]; intros st.
  - cbn [run_items fst snd init working_converters failed_converters].
    by rewrite !(left_id_L ∅ (∪)).
  - rewrite !run_items_cons. cbn [fst snd].
    destruct (IH (run_item st it).1) as (Hw & Hf & Ht & He).
    destruct (IH (run_item init it).1) as (Hw0 & Hf0 & _ & He0).
    destruct (run_item_over st it) as (Hw1 & Hf1 & Ht1 & He1).
    rewrite Hw, Hf, Ht, He, Hw0, Hf0, He0, Hw1, Hf1, Ht1, He1.
    rewrite !(assoc_L (∪)).
    split; [done|]. split; [done|]. split; [|done].
    unfold text_to_text_writes. rewrite bind_cons.
    by rewrite assign_all_app.
Qed.

(** X14.  Discovery is idempotent: a second run over the same plugin
    directory makes the same calls as the first and leaves the ledger as
    the first run left it. *)
Theorem X14_discovery_idempotent (import_module : string -> module_load)
    (converter_dir : option (list string)) (self : ConverterDiscovery) :
  let first := discover_and_test_converters import_module self converter_dir in
  NoDup (PyDict.keys (text_to_text_converters self)) ->
  discover_and_test_converters import_module first.1 converter_dir = first.
Proof.
  intros first Hnd. subst first. rewrite !discover_run_items.
  set (items := discovery_items import_module converter_dir).
  destruct (run_items_over self items) as (Hw & Hf & Ht & He).
  destruct (run_items_over (run_items self items).1 items)
    as (Hw2 & Hf2 & Ht2 & He2).
  destruct (run_items (run_items self items).1 items) as [st2 ev2].
  destruct (run_items self items) as [st1 ev1].
  cbn [fst snd] in *. f_equal; [|congruence].
  apply ledger_eq.
  - rewrite Hw2, Hw, (assoc_L (∪)). by rewrite (idemp_L (∪)).
  - rewrite Hf2, Hf, (assoc_L (∪)). by rewrite (idemp_L (∪)).
  - rewrite Ht2, Ht. by apply assign_all_twice.
Qed.

(** The scenario directory, run twice from the fresh ledger. *)
Lemma X14_discovery_idempotent_witness :
  discover_and_test_converters Scenario.import_module Scenario.discovery
    (Some Scenario.dir)
  = discover_and_test_converters Scenario.import_module init
      (Some Scenario.dir).
Proof.
  apply (X14_discovery_idempotent Scenario.import_module (Some Scenario.dir)
           init).
  apply NoDup_nil_2.
Defined.

(** ** The third pass of the patcher *)

Lemma prefix_app_r (a x : string) : String.prefix a (a +:+ x) = true.
Proof.
  induction a as [|c a IH]; [by destruct x|].
  rewrite string_app_cons. cbn [String.prefix].
  by destruct (ascii_dec c c).
Qed.

Lemma prefix_trans (a b s : string) :
  String.prefix a b = true -> String.prefix b s = true ->
  String.prefix a s = true.
Proof.
  intros [t ->]%prefix_app [u ->]%prefix_app.
  rewrite string_app_assoc. apply prefix_app_r.
Qed.

Lemma deduplicate_cons (seen : gset string) (line : string)
    (rest : list string) :
  PatchImports.deduplicate seen (line :: rest) =
    if is_compat_import line && bool_decide (PyStr.strip line ∈ seen)
    then PatchImports.deduplicate seen rest
    else
      line ::
        PatchImports.deduplicate
          (if is_compat_import line then {[PyStr.strip line]} ∪ seen
           else seen) rest.
Proof.
  cbn [PatchImports.deduplicate]. unfold is_compat_import, PyStr.startswith.
  set (stripped := PyStr.strip line).
  destruct (String.prefix "from pyrit_compat import" stripped) eqn:Himport.
  - rewrite (prefix_trans "from pyrit_compat" "from pyrit_compat import"
               stripped eq_refl Himport).
    cbn [orb negb andb]. rewrite orb_false_r.
    destruct (decide (stripped ∈ seen)) as [Hin|Hin].
    + by rewrite bool_decide_eq_false_2, bool_decide_eq_true_2 by auto.
    + by rewrite bool_decide_eq_true_2, bool_decide_eq_false_2 by auto.
  - cbn [orb andb].
    destruct (String.prefix "from pyrit" stripped) eqn:Hpyrit; [done|].
    cbn [negb].
    destruct (String.prefix "from pyrit_compat" stripped) eqn:Hcompat.
    + by rewrite (prefix_trans "from pyrit" "from pyrit_compat" stripped
                    eq_refl Hcompat) in Hpyrit.
    + by rewrite orb_true_r.
Qed.

Section Deduplicate.

Implicit Types (seen : gset string) (lines : list string).

Lemma deduplicate_sublist seen lines :
  PatchImports.deduplicate seen lines `sublist_of` lines.
Proof.
  revert seen. induction lines as [|line rest IH]; intros seen; [done|].
  rewrite deduplicate_cons.
  destruct (_ && _); [by apply sublist_cons | by apply sublist_skip].
Qed.

Lemma deduplicate_others seen lines :
  filter (λ l, is_compat_import l = false)
    (PatchImports.deduplicate seen lines)
  = filter (λ l, is_compat_import l = false) lines.
Proof.
  revert seen. induction lines as [|line rest IH]; intros seen; [done|].
  rewrite deduplicate_cons.
  destruct (is_compat_import line) eqn:Himport.
  - rewrite (filter_cons_False _ line rest) by (by rewrite Himport).
    destruct (_ && _); [done|].
    rewrite filter_cons_False by (by rewrite Himport). apply IH.
  - cbn [andb]. rewrite !filter_cons_True by done. by rewrite IH.
Qed.

Lemma deduplicate_fresh seen lines (line : string) :
  line ∈ PatchImports.deduplicate seen lines ->
  is_compat_import line = true -> PyStr.strip line ∉ seen.
Proof.
  revert seen. induction lines as [|l rest IH]; intros seen.
  - by intros ?%elem_of_nil.
  - rewrite deduplicate_cons.
    destruct (is_compat_import l) eqn:Himport; cbn [andb].
    + destruct (bool_decide (PyStr.strip l ∈ seen)) eqn:Hseen.
      * apply IH.
      * apply bool_decide_eq_false in Hseen.
        intros [->|Hin]%elem_of_cons Hline; [done|].
        pose proof (IH _ Hin Hline). set_solver.
    + intros [->|Hin]%elem_of_cons Hline; [congruence|]. by apply (IH seen).
Qed.

Lemma deduplicate_NoDup seen lines :
  NoDup (PyStr.strip <$>
           filter (λ l, is_compat_import l = true)
             (PatchImports.deduplicate seen lines)).
Proof.
  revert seen. induction lines as [|l rest IH]; intros seen.
  - apply NoDup_nil_2.
  - rewrite deduplicate_cons.
    destruct (is_compat_import l) eqn:Himport; cbn [andb].
    + destruct (bool_decide (PyStr.strip l ∈ seen)); [apply IH|].
      rewrite filter_cons_True by done. rewrite fmap_cons.
      apply NoDup_cons. split; [|apply IH].
      intros (l' & Heq & Hin)%list_elem_of_fmap.
      apply list_elem_of_filter in Hin as [Hl' Hin].
      pose proof (deduplicate_fresh _ _ _ Hin Hl') as Hfresh.
      rewrite <- Heq in Hfresh. set_solver.
    + rewrite filter_cons_False by (by rewrite Himport). apply IH.
Qed.

Lemma deduplicate_covers seen lines (line : string) :
  line ∈ lines ->
  (is_compat_import line = true ∧ PyStr.strip line ∈ seen)
  ∨ ∃ line', line' ∈ PatchImports.deduplicate seen lines
             ∧ PyStr.strip line' = PyStr.strip line.
Proof.
  revert seen. induction lines as [|l rest IH]; intros seen.
  - by intros ?%elem_of_nil.
  - rewrite deduplicate_cons. intros [->|Hin]%elem_of_cons.
    + destruct (is_compat_import l) eqn:Himport; cbn [andb].
      * destruct (bool_decide (PyStr.strip l ∈ seen)) eqn:Hseen.
        -- left. by apply bool_decide_eq_true in Hseen.
        -- right. exists l. split; [by left | done].
      * right. exists l. split; [by left | done].
    + destruct (is_compat_import l && bool_decide (PyStr.strip l ∈ seen))
        eqn:Hdrop.
      * apply (IH seen Hin).
      * destruct (IH (if is_compat_import l then {[PyStr.strip l]} ∪ seen
                      else seen) Hin) as [[Hline Hseen]|(l' & Hl' & Heq)].
        -- destruct (is_compat_import l) eqn:Himport.
           ++ apply elem_of_union in Hseen as [Hsame|Hseen]; [|by left].
              apply elem_of_singleton in Hsame.
              right. exists l. split; [by left | done].
           ++ by left.
        -- right. exists l'. split; [by right | done].
Qed.

Lemma deduplicate_idemp seen lines :
  PatchImports.deduplicate seen (PatchImports.deduplicate seen lines)
  = PatchImports.deduplicate seen lines.
Proof.
  revert seen. induction lines as [|l rest IH]; intros seen; [done|].
  rewrite deduplicate_cons.
  destruct (is_compat_import l && bool_decide (PyStr.strip l ∈ seen))
    eqn:Hdrop; [apply IH|].
  rewrite deduplicate_cons, Hdrop. by rewrite IH.
Qed.

Lemma deduplicate_none seen lines :
  Forall (λ l, is_compat_import l = false) lines ->
  PatchImports.deduplicate seen lines = lines.
Proof.
  intros Hall. revert seen.
  induction Hall as [|l rest Hl _ IH]; intros seen; [done|].
  rewrite deduplicate_cons, Hl. cbn [andb]. by rewrite IH.
Qed.

End Deduplicate.

(** X15.  The loop that removes duplicate imports keeps the lines in
    their order and adds none; it keeps every line that is not an import
    from [pyrit_compat]; among the lines it keeps, no two imports from
    [pyrit_compat] are equal up to the white space around them; and every
    line of the input is still there up to that white space.  A line is
    compared without its indentation: an import inside a function body
    counts as a duplicate of the same import at the top of the file. *)
Theorem X15_deduplicate_imports (lines : list string) :
  let kept := PatchImports.deduplicate ∅ lines in
  kept `sublist_of` lines
  ∧ filter (λ l, is_compat_import l = false) kept
    = filter (λ l, is_compat_import l = false) lines
  ∧ NoDup (PyStr.strip <$> filter (λ l, is_compat_import l = true) kept)
  ∧ ∀ line, line ∈ lines ->
      ∃ line', line' ∈ kept ∧ PyStr.strip line' = PyStr.strip line.
Proof.
  intros kept. subst kept.
  split; [apply deduplicate_sublist|].
  split; [apply deduplicate_others|].
  split; [apply deduplicate_NoDup|].
  intros line Hin.
  destruct (deduplicate_covers ∅ lines line Hin) as [[_ Hseen]|H]; [|done].
  by apply elem_of_empty in Hseen.
Qed.

(** ** Lines *)

Section Lines.

Variable sep : ascii.

Lemma split_nonempty (s : string) : PyText.split sep s ≠ [].
Proof.
  destruct s as [|c s]; [done|]. cbn [PyText.split].
  case_decide; [done|]. by destruct (PyText.split sep s).
Qed.

Lemma join_cons (w : string) (ws : list string) :
  ws ≠ [] ->
  PyText.join (String sep "") (w :: ws)
  = w +:+ String sep (PyText.join (String sep "") ws).
Proof. by destruct ws. Qed.

Lemma join_split (s : string) :
  PyText.join (String sep "") (PyText.split sep s) = s.
Proof.
  induction s as [|c s IH]; [done|]. cbn [PyText.split].
  case_decide as Hc.
  - rewrite join_cons by apply split_nonempty.
    rewrite string_app_nil_l, IH. by subst.
  - pose proof (split_nonempty s) as Hne.
    destruct (PyText.split sep s) as [|w ws]; [done|].
    destruct ws as [|w' ws].
    + cbn [PyText.join] in *. by rewrite IH.
    + rewrite join_cons by done. rewrite join_cons in IH by done.
      by rewrite string_app_cons, IH.
Qed.

Lemma split_no_sep (w : string) :
  sep ∉ list_ascii_of_string w -> PyText.split sep w = [w].
Proof.
  induction w as [|c w IH]; [done|]. cbn [list_ascii_of_string PyText.split].
  rewrite not_elem_of_cons. intros [Hc Hw].
  rewrite decide_False by done. by rewrite IH.
Qed.

Lemma split_app_sep (w rest : string) :
  sep ∉ list_ascii_of_string w ->
  PyText.split sep (w +:+ String sep rest) = w :: PyText.split sep rest.
Proof.
  induction w as [|c w IH].
  - intros _. rewrite string_app_nil_l. cbn [PyText.split].
    by rewrite decide_True.
  - cbn [list_ascii_of_string]. rewrite not_elem_of_cons. intros [Hc Hw].
    rewrite string_app_cons. cbn [PyText.split].
    rewrite decide_False by done. by rewrite IH.
Qed.

Lemma split_join (ls : list string) :
  ls ≠ [] ->
  Forall (λ l, sep ∉ list_ascii_of_string l) ls ->
  PyText.split sep (PyText.join (String sep "") ls) = ls.
Proof.
  intros Hne Hall. induction Hall as [|w ws Hw Hws IH]; [done|].
  destruct ws as [|w' ws].
  - cbn [PyText.join]. by apply split_no_sep.
  - rewrite join_cons by done. rewrite split_app_sep by done.
    by rewrite IH.
Qed.

Lemma split_lines_no_sep (s : string) :
  Forall (λ l, sep ∉ list_ascii_of_string l) (PyText.split sep s).
Proof.
  induction s as [|c s IH].
  - repeat constructor. apply not_elem_of_nil.
  - cbn [PyText.split]. case_decide as Hc.
    + constructor; [apply not_elem_of_nil | done].
    + destruct (PyText.split sep s) as [|w ws].
      * repeat constructor. cbn [list_ascii_of_string].
        rewrite not_elem_of_cons. split; [congruence | apply not_elem_of_nil].
      * apply Forall_cons in IH as [Hw Hws]. constructor; [|done].
        cbn [list_ascii_of_string]. rewrite not_elem_of_cons.
        split; [congruence | done].
Qed.

End Lines.

(** X16.  The third pass of [patch_file] is idempotent on the text of a
    file: removing the duplicate imports from a text from which they have
    been removed changes nothing. *)
Theorem X16_remove_duplicates_idempotent (content : string) :
  PatchImports.remove_duplicate_imports
    (PatchImports.remove_duplicate_imports content)
  = PatchImports.remove_duplicate_imports content.
Proof.
  unfold PatchImports.remove_duplicate_imports.
  set (lines := PyText.split PatchImports.newline content).
  rewrite split_join.
  - by rewrite deduplicate_idemp.
  - pose proof (split_nonempty PatchImports.newline content) as Hne.
    fold lines in Hne. destruct lines as [|l rest]; [done|].
    rewrite deduplicate_cons.
    rewrite (bool_decide_eq_false_2 (PyStr.strip l ∈ ∅))
      by apply not_elem_of_empty.
    by rewrite andb_false_r.
  - apply Forall_forall. intros l Hl.
    apply (elem_of_sublist _ lines) in Hl; [|apply deduplicate_sublist].
    revert l Hl. apply Forall_forall, split_lines_no_sep.
Qed.

(** ** Texts that the patcher leaves alone *)

Lemma contains_occurs (p s : string) : PyStr.contains p s = true <-> occurs p s.
Proof.
  split.
  - induction s as [|x s IH]; cbn [PyStr.contains].
    + rewrite orb_false_r. intros [t ->]%prefix_app. by exists "", t.
    + intros [[t ->]%prefix_app|Hc]%orb_true_iff; [by exists "", t|].
      destruct (IH Hc) as (a & c & ->). by exists (String x a), c.
  - intros (a & c & ->). induction a as [|x a IH].
    + rewrite string_app_nil_l.
      destruct (p +:+ c) eqn:Hs; cbn [PyStr.contains]; rewrite <- Hs;
        by rewrite prefix_app_r.
    + rewrite string_app_cons. cbn [PyStr.contains]. rewrite IH.
      apply orb_true_r.
Qed.

Lemma occurs_trans (a b c : string) : occurs a b -> occurs b c -> occurs a c.
Proof.
  intros (x & y & ->) (u & v & ->). exists (u +:+ x), (y +:+ v).
  by rewrite !string_app_assoc.
Qed.

Lemma occurs_prefix (p s : string) : String.prefix p s = true -> occurs p s.
Proof. intros [t ->]%prefix_app. by exists "", t. Qed.

Lemma lstrip_occurs (s : string) : ∃ w, s = w +:+ PyStr.lstrip s.
Proof.
  induction s as [|c s [w IH]]; [by exists ""|]. cbn [PyStr.lstrip].
  destruct (PyStr.isspace c); [|by exists ""].
  exists (String c w). by rewrite string_app_cons, <- IH.
Qed.

Lemma strip_occurs (s : string) : occurs (PyStr.strip s) s.
Proof.
  unfold PyStr.strip.
  destruct (lstrip_occurs s) as [w Hw].
  destruct (lstrip_occurs (String.rev (PyStr.lstrip s))) as [w' Hw'].
  exists w, (String.rev w').
  rewrite <- rev_app_distr, <- Hw', rev_involutive. exact Hw.
Qed.

Lemma split_head (sep : ascii) (s w : string) (ws : list string) :
  PyText.split sep s = w :: ws -> ∃ b, s = w +:+ b.
Proof.
  intros H. pose proof (join_split sep s) as Hj. rewrite H in Hj.
  destruct ws as [|w' ws].
  - cbn [PyText.join] in Hj. exists "". by rewrite string_app_nil_r.
  - rewrite join_cons in Hj by done. eauto.
Qed.

Lemma split_occurs (sep : ascii) (s line : string) :
  line ∈ PyText.split sep s -> occurs line s.
Proof.
  revert line. induction s as [|c s IH]; intros line.
  - intros ->%list_elem_of_singleton. by exists "", "".
  - cbn [PyText.split]. case_decide as Hc.
    + intros [->|Hin]%elem_of_cons.
      * by exists "", (String c s).
      * destruct (IH line Hin) as (a & b & ->). by exists (String c a), b.
    + pose proof (split_nonempty sep s) as Hne.
      destruct (PyText.split sep s) as [|w ws] eqn:Hsplit; [done|].
      intros [->|Hin]%elem_of_cons.
      * destruct (split_head sep s w ws Hsplit) as [b ->]. by exists "", b.
      * destruct (IH line) as (a & b & ->); [by right|].
        by exists (String c a), b.
Qed.

Lemma contains_longer (p key s : string) :
  String.prefix p key = true -> PyStr.contains p s = false ->
  PyStr.contains key s = false.
Proof.
  intros Hp Hs. destruct (PyStr.contains key s) eqn:Hkey; [|done].
  apply contains_occurs in Hkey.
  assert (occurs p s) as Hocc
    by (eapply occurs_trans; [by apply occurs_prefix | done]).
  apply contains_occurs in Hocc. congruence.
Qed.

Lemma exact_matches_none (mappings : list (string * string))
    (content : string) :
  Forall (λ m, PyStr.contains m.1 content = false) mappings ->
  foldl (λ content '(old_import, new_import),
           if PyStr.contains old_import content
           then PyText.replace old_import new_import content
           else content) content mappings = content.
Proof.
  induction 1 as [|[old new] mappings Hm _ IH]; [done|].
  cbn [foldl]. cbn [fst] in Hm. by rewrite Hm.
Qed.

Lemma sub_import_list_none (head : string) (replacement : string -> string)
    (content : string) :
  PyStr.contains (head +:+ "(") content = false ->
  PatchImports.sub_import_list head replacement 0 content = content.
Proof.
  induction content as [|c content IH]; [done|].
  cbn [PyStr.contains]. intros [Hp Hc]%orb_false_elim.
  cbn [PatchImports.sub_import_list]. rewrite Hp. by rewrite IH.
Qed.

Lemma multiline_patterns_none
    (patterns : list (string * (string -> string))) (content : string) :
  Forall (λ m, PyStr.contains (m.1 +:+ "(") content = false) patterns ->
  foldl (λ content '(head, replacement),
           PatchImports.sub_import_list head replacement 0 content)
    content patterns = content.
Proof.
  induction 1 as [|[head replacement] patterns Hm _ IH]; [done|].
  cbn [foldl]. cbn [fst] in Hm. by rewrite sub_import_list_none.
Qed.

Lemma remove_duplicate_imports_none (content : string) :
  PyStr.contains "from pyrit" content = false ->
  PatchImports.remove_duplicate_imports content = content.
Proof.
  intros Hnone. unfold PatchImports.remove_duplicate_imports.
  rewrite deduplicate_none; [apply join_split|].
  apply Forall_forall. intros line Hline.
  destruct (is_compat_import line) eqn:Himport; [|done].
  assert (occurs "from pyrit" content) as Hocc.
  { eapply occurs_trans; [|by eapply split_occurs].
    eapply occurs_trans; [|apply strip_occurs].
    apply occurs_prefix.
    by apply (prefix_trans _ "from pyrit_compat import"). }
  apply contains_occurs in Hocc. congruence.
Qed.

(** X17.  A file whose text does not contain "from pyrit" goes through the
    three passes of [patch_file] unchanged, character for character: the
    file is not written and the call returns (0, 0). *)
Theorem X17_patch_leaves_other_files (content : string) (write_ok : bool) :
  PyStr.contains "from pyrit" content = false ->
  PatchImports.patch_content content = content
  ∧ PatchImports.patch_file (Some content) write_ok = (None, (0, 0)).
Proof.
  intros Hnone.
  assert (PatchImports.patch_content content = content) as Hsame.
  { unfold PatchImports.patch_content.
    unfold PatchImports.exact_matches. rewrite exact_matches_none.
    - unfold PatchImports.multiline_patterns.
      rewrite multiline_patterns_none.
      + by apply remove_duplicate_imports_none.
      + unfold PatchImports.MULTILINE_PATTERNS.
        repeat constructor; by apply (contains_longer "from pyrit").
    - unfold PatchImports.IMPORT_MAPPINGS.
      repeat constructor; by apply (contains_longer "from pyrit"). }
  split; [done|]. unfold PatchImports.patch_file.
  by rewrite decide_True.
Qed.

(** A module without imports from [pyrit]. *)
Lemma X17_patch_leaves_other_files_witness :
  PatchImports.patch_content "import os"  = "import os"
  ∧ PatchImports.patch_file (Some "import os") true = (None, (0, 0)).
Proof.
  apply (X17_patch_leaves_other_files "import os" true). reflexivity.
Defined.

(** ** The parenthesised import list *)

Section Strip.

Lemma chars_app (a b : string) :
  list_ascii_of_string (a +:+ b)
  = list_ascii_of_string a ++ list_ascii_of_string b.
Proof.
  induction a as [|c a IH]; [done|].
  rewrite string_app_cons. cbn [list_ascii_of_string]. by rewrite IH.
Qed.

Lemma chars_rev (s : string) :
  list_ascii_of_string (String.rev s) = rev (list_ascii_of_string s).
Proof.
  induction s as [|c s IH]; [done|].
  rewrite rev_cons, chars_app, IH. by cbn [list_ascii_of_string rev].
Qed.

Lemma blank_app (a b : string) : blank a -> blank b -> blank (a +:+ b).
Proof. unfold blank. rewrite chars_app. apply Forall_app_2. Qed.

Lemma blank_rev (w : string) : blank w -> blank (String.rev w).
Proof. unfold blank. rewrite chars_rev. apply Forall_rev. Qed.

Lemma lstrip_blank_app (w s : string) :
  blank w -> PyStr.lstrip (w +:+ s) = PyStr.lstrip s.
Proof.
  unfold blank. induction w as [|c w IH]; [done|].
  cbn [list_ascii_of_string]. intros [Hc Hw]%Forall_cons.
  rewrite string_app_cons. cbn [PyStr.lstrip]. rewrite Hc. by apply IH.
Qed.

Lemma lstrip_blank (w : string) : blank w -> PyStr.lstrip w = "".
Proof.
  intros Hw. rewrite <- (string_app_nil_r w). by rewrite lstrip_blank_app.
Qed.

Lemma lstrip_clean (c : ascii) (s : string) :
  PyStr.isspace c = false -> PyStr.lstrip (String c s) = String c s.
Proof. intros Hc. cbn [PyStr.lstrip]. by rewrite Hc. Qed.

Lemma strip_padded (w1 core w2 : string) (c c' : ascii) (t t' : string) :
  blank w1 -> blank w2 ->
  core = String c t -> PyStr.isspace c = false ->
  String.rev core = String c' t' -> PyStr.isspace c' = false ->
  PyStr.strip (w1 +:+ core +:+ w2) = core.
Proof.
  intros Hw1 Hw2 -> Hc Hrev Hc'. unfold PyStr.strip.
  rewrite lstrip_blank_app by done.
  rewrite string_app_cons, (lstrip_clean c (t +:+ w2)) by done.
  rewrite <- string_app_cons, rev_app_distr.
  rewrite lstrip_blank_app by (by apply blank_rev).
  rewrite Hrev, (lstrip_clean c' t') by done.
  by rewrite <- Hrev, rev_involutive.
Qed.

Lemma strip_blank (w : string) : blank w -> PyStr.strip w = "".
Proof. intros Hw. unfold PyStr.strip. by rewrite (lstrip_blank w) by done. Qed.

End Strip.

Section ImportItems.

Lemma before_absent (c0 : ascii) (sep' s : string) :
  c0 ∉ list_ascii_of_string s -> PyText.before (String c0 sep') s = s.
Proof.
  induction s as [|c s IH]; [done|].
  cbn [list_ascii_of_string]. rewrite not_elem_of_cons. intros [Hc Hs].
  cbn [PyText.before String.prefix].
  destruct (ascii_dec c0 c); [done|]. by rewrite IH.
Qed.

Lemma before_stop (c0 : ascii) (sep' name rest : string) :
  c0 ∉ list_ascii_of_string name ->
  PyText.before (String c0 sep') (name +:+ String c0 sep' +:+ rest) = name.
Proof.
  induction name as [|c name IH].
  - intros _. rewrite string_app_nil_l.
    pose proof (prefix_app_r (String c0 sep') rest) as Hp.
    rewrite string_app_cons in *. cbn [PyText.before]. by rewrite Hp.
  - cbn [list_ascii_of_string]. rewrite not_elem_of_cons. intros [Hc Hs].
    rewrite string_app_cons. cbn [PyText.before String.prefix].
    destruct (ascii_dec c0 c); [done|]. by rewrite IH.
Qed.

Lemma identifier_first (n : string) :
  identifier n -> ∃ c t, n = String c t ∧ PyStr.isspace c = false.
Proof.
  intros [Hne Hall]. destruct n as [|c t]; [done|].
  cbn [list_ascii_of_string] in Hall.
  apply Forall_cons in Hall as [[Hc _] _]. eauto.
Qed.

Lemma identifier_rev (n : string) : identifier n -> identifier (String.rev n).
Proof.
  intros [Hne Hall]. split.
  - intros Hrev. apply Hne. by rewrite <- (rev_involutive n), Hrev.
  - rewrite chars_rev. by apply Forall_rev.
Qed.

Lemma identifier_without (n : string) (c : ascii) :
  identifier n ->
  PyStr.isspace c = true ∨ c = ","%char ∨ c = "#"%char ->
  c ∉ list_ascii_of_string n.
Proof.
  intros [_ Hall] Hc Hin.
  apply (proj1 (Forall_forall _ _) Hall) in Hin as (Hs & Hcomma & Hhash).
  destruct Hc as [Hc|[Hc|Hc]]; congruence.
Qed.

Lemma blank_without_comma (w : string) :
  blank w -> ","%char ∉ list_ascii_of_string w.
Proof.
  intros Hall Hin. by apply (proj1 (Forall_forall _ _) Hall) in Hin.
Qed.

Lemma strip_identifier (n : string) : identifier n -> PyStr.strip n = n.
Proof.
  intros Hn.
  destruct (identifier_first n Hn) as (c & t & Hc & Hs).
  destruct (identifier_first _ (identifier_rev n Hn)) as (c' & t' & Hc' & Hs').
  rewrite <- (string_app_nil_r n) at 1.
  rewrite <- (string_app_nil_l (n +:+ "")).
  by apply (strip_padded "" n "" c c' t t'); [constructor..| | | |].
Qed.

(** The text of an entry between its white space. *)
Let core (it : import_item) : string :=
  imported it
  +:+ match alias it with Some a => " as " +:+ a | None => "" end.

Lemma item_text_core (it : import_item) :
  item_text it = lead it +:+ core it +:+ trail it.
Proof. unfold item_text, core. by rewrite !string_app_assoc. Qed.

Lemma item_no_comma (it : import_item) :
  well_formed it -> ","%char ∉ list_ascii_of_string (item_text it).
Proof.
  intros (Hlead & Htrail & Hitem). unfold item_text.
  rewrite !chars_app, !elem_of_app.
  intros [Hin|[Hin|[Hin|Hin]]].
  - by apply blank_without_comma in Hin.
  - destruct Hitem as [[Hn _]|[Hn _]].
    + rewrite Hn in Hin. by apply elem_of_nil in Hin.
    + apply (identifier_without _ ","%char Hn) in Hin; [done | auto].
  - destruct Hitem as [[_ Ha]|[_ Ha]].
    + rewrite Ha in Hin. by apply elem_of_nil in Hin.
    + destruct (alias it) as [a|]; [|by apply elem_of_nil in Hin].
      rewrite chars_app, elem_of_app in Hin. destruct Hin as [Hin|Hin].
      * cbn [list_ascii_of_string] in Hin.
        repeat (apply elem_of_cons in Hin as [Hin|Hin]; [done|]).
        by apply elem_of_nil in Hin.
      * apply (identifier_without _ ","%char (Ha a eq_refl)) in Hin;
          [done | auto].
  - by apply blank_without_comma in Hin.
Qed.

Lemma strip_item_blank (it : import_item) :
  well_formed it -> imported it = "" -> PyStr.strip (item_text it) = "".
Proof.
  intros (Hlead & Htrail & Hitem) Hn.
  destruct Hitem as [[_ Ha]|[[Hne _] _]]; [|done].
  unfold item_text. rewrite Hn, Ha, !string_app_nil_l.
  by apply strip_blank, blank_app.
Qed.

Lemma strip_item (it : import_item) :
  well_formed it -> imported it ≠ "" ->
  PyStr.strip (item_text it) = core it
  ∧ core it ≠ ""
  ∧ PatchImports.item_name (core it) = imported it.
Proof.
  intros (Hlead & Htrail & Hitem) Hne.
  destruct Hitem as [[Hn _]|[Hn Ha]]; [done|].
  destruct (identifier_first _ Hn) as (c & t & Hc & Hs).
  assert (∃ c' t', String.rev (core it) = String c' t'
                   ∧ PyStr.isspace c' = false) as (c' & t' & Hrev & Hs').
  { unfold core. destruct (alias it) as [a|].
    - destruct (identifier_first _ (identifier_rev a (Ha a eq_refl)))
        as (c' & t' & Hc' & Hs').
      exists c', (t' +:+ String.rev (imported it +:+ " as ")).
      by rewrite <- string_app_assoc, rev_app_distr, Hc', string_app_cons.
    - rewrite string_app_nil_r.
      destruct (identifier_first _ (identifier_rev _ Hn))
        as (c' & t' & Hc' & Hs'). eauto. }
  assert (core it = String c (t +:+ match alias it with
                                    | Some a => " as " +:+ a
                                    | None => ""
                                    end)) as Hcore.
  { unfold core. by rewrite Hc, string_app_cons. }
  split; [|split].
  - rewrite item_text_core.
    exact (strip_padded (lead it) (core it) (trail it) c c' _ t'
             Hlead Htrail Hcore Hs Hrev Hs').
  - by rewrite Hcore.
  - unfold PatchImports.item_name, core.
    assert (PyText.before " as "
              (imported it +:+ match alias it with
                               | Some a => " as " +:+ a
                               | None => ""
                               end) = imported it) as ->.
    { destruct (alias it) as [a|].
      - apply (before_stop " "%char "as " (imported it) a).
        apply identifier_without; auto.
      - rewrite string_app_nil_r. apply before_absent.
        apply identifier_without; auto. }
    rewrite before_absent by (apply identifier_without; auto).
    by apply strip_identifier.
Qed.

Lemma parse_items (items : list import_item) :
  Forall well_formed items ->
  filter (λ name, name ∈ PatchImports.kept_names)
    (PatchImports.item_name
       <$> filter (λ item, item ≠ "")
             (PyStr.strip <$> (item_text <$> items)))
  = filter (λ name, name ∈ PatchImports.kept_names) (imported <$> items).
Proof.
  induction 1 as [|it items Hit _ IH]; [done|].
  rewrite !fmap_cons.
  destruct (decide (imported it = "")) as [Hn|Hn].
  - rewrite (strip_item_blank it Hit Hn).
    rewrite filter_cons_False by (by intros []).
    rewrite Hn, (filter_cons_False _ "")
      by (apply (bool_decide_unpack _); by vm_compute).
    exact IH.
  - destruct (strip_item it Hit Hn) as (-> & Hcore & Hname).
    rewrite filter_cons_True by done. rewrite fmap_cons, Hname.
    destruct (decide (imported it ∈ PatchImports.kept_names)).
    + rewrite !filter_cons_True by done. by rewrite IH.
    + rewrite !filter_cons_False by done. exact IH.
Qed.

End ImportItems.

Lemma import_list_split (items : list import_item) :
  items ≠ [] -> Forall well_formed items ->
  PyText.split "," (PyText.join "," (item_text <$> items))
  = item_text <$> items.
Proof.
  intros Hne Hall. apply (split_join ","%char).
  - by destruct items.
  - apply Forall_fmap. eapply Forall_impl; [exact Hall|].
    intros it Hit. by apply item_no_comma.
Qed.

(** X18.  On a well-formed list of entries separated by commas (names
    with white space around them, possibly with an alias, possibly with a
    trailing comma), [handle_multiline_models_import] writes an import of
    the names among [PromptDataType], [SeedPrompt],
    [data_serializer_factory] and [SeedDataset], in the order of the list,
    and the [pass] line when there is none: every other name of the list is
    dropped, and so is every alias. *)
Theorem X18_multiline_models_import (items : list import_item) :
  Forall well_formed items ->
  PatchImports.handle_multiline_models_import
    (PyText.join "," (item_text <$> items))
  = compat_import
      (filter (λ name, name ∈ PatchImports.kept_names) (imported <$> items)).
Proof.
  intros Hall. destruct items as [|it items].
  - (* the empty text has the one item "", which is dropped *)
    reflexivity.
  - unfold PatchImports.handle_multiline_models_import.
    rewrite import_list_split by done.
    unfold compat_import. by rewrite parse_items.
Qed.

Lemma blank_by_decide (w : string) :
  bool_decide
    (Forall (λ c, PyStr.isspace c = true) (list_ascii_of_string w)) = true ->
  blank w.
Proof. intros Hw%bool_decide_eq_true. exact Hw. Qed.

Lemma identifier_by_decide (n : string) :
  n ≠ "" ->
  bool_decide
    (Forall (λ c, PyStr.isspace c = false ∧ c ≠ ","%char ∧ c ≠ "#"%char)
       (list_ascii_of_string n)) = true ->
  identifier n.
Proof. intros Hn Hall%bool_decide_eq_true. by split. Qed.

Lemma three_line_list_wf : Forall well_formed three_line_list.
Proof.
  repeat apply Forall_cons_2; [| | |apply Forall_nil_2];
    (split; [by apply blank_by_decide|split; [by apply blank_by_decide|]]);
    cbn [imported alias].
  - right. split; [by apply identifier_by_decide|].
    intros a [= <-]. by apply identifier_by_decide.
  - right. split; [by apply identifier_by_decide|]. by intros a [=].
  - by left.
Qed.

(** An import list over three lines with an alias, a name that the shim
    does not have and a trailing comma. *)
Lemma X18_multiline_models_import_witness :
  PatchImports.handle_multiline_models_import
    (PyText.join "," (item_text <$> three_line_list))
  = "from pyrit_compat import SeedPrompt".
Proof.
  apply (X18_multiline_models_import three_line_list).
  exact three_line_list_wf.
Defined.

(** ** A batch run from the command line *)



(** ** The second pass of the patcher on a parenthesised import *)

Section SubImportList.

Variable head : string.
Variable replacement : string -> string.

Hypothesis head_one_line :
  PatchImports.newline ∉ list_ascii_of_string (head +:+ "(").

Lemma sub_import_list_eq (c : ascii) (rest : string) :
  PatchImports.sub_import_list head replacement 0 (String c rest) =
    if String.prefix (head +:+ "(") (String c rest) then
      match
        String.index 0 ")"
          (String.substring (String.length (head +:+ "("))
             (String.length (String c rest) - String.length (head +:+ "("))
             (String c rest))
      with
      | Some i =>
          replacement
            (PyStr.lstrip
               (String.substring 0 i
                  (String.substring (String.length (head +:+ "("))
                     (String.length (String c rest)
                      - String.length (head +:+ "("))
                     (String c rest))))
          +:+ PatchImports.sub_import_list head replacement
                (String.length (head +:+ "(") + i) rest
      | None =>
          String c (PatchImports.sub_import_list head replacement 0 rest)
      end
    else String c (PatchImports.sub_import_list head replacement 0 rest).
Proof. reflexivity. Qed.

Lemma prefix_app_cases (o p x : string) :
  String.prefix o (p +:+ x) = true ->
  String.prefix o p = true ∨ ∃ o2, o = p +:+ o2.
Proof.
  revert o. induction p as [|c p IH]; intros o; [right; by exists o|].
  destruct o as [|d o]; [by left|].
  rewrite string_app_cons. cbn [String.prefix].
  destruct (ascii_dec d c) as [->|]; [|done].
  intros [Hp|[o2 ->]]%IH; [by left|]. right. by exists o2.
Qed.

Lemma sub_import_list_skip (x y : string) :
  PatchImports.sub_import_list head replacement (String.length x) (x +:+ y)
  = PatchImports.sub_import_list head replacement 0 y.
Proof.
  induction x as [|c x IH]; [done|].
  rewrite string_app_cons. cbn [String.length PatchImports.sub_import_list].
  exact IH.
Qed.

Lemma whole_lines_tail (c : ascii) (b : string) :
  whole_lines (String c b) ->
  whole_lines b ∧ PatchImports.newline ∈ list_ascii_of_string (String c b).
Proof.
  intros [Hb|[p Hp]]; [done|]. split.
  - destruct p as [|c' p].
    + rewrite string_app_nil_l in Hp. injection Hp as _ ->. by left.
    + rewrite string_app_cons in Hp. injection Hp as _ ->. right. by exists p.
  - rewrite Hp, chars_app, elem_of_app. right. by left.
Qed.

Lemma sub_import_list_before (pre x : string) :
  PyStr.contains (head +:+ "(") pre = false -> whole_lines pre ->
  PatchImports.sub_import_list head replacement 0 (pre +:+ x)
  = pre +:+ PatchImports.sub_import_list head replacement 0 x.
Proof.
  induction pre as [|c pre IH]; [done|].
  cbn [PyStr.contains]. intros [Hp Hc]%orb_false_elim Hlines.
  apply whole_lines_tail in Hlines as [Hrest Hnl].
  rewrite !string_app_cons, sub_import_list_eq.
  destruct (String.prefix (head +:+ "(") (String c (pre +:+ x))) eqn:Hpre.
  - rewrite <- string_app_cons in Hpre.
    apply prefix_app_cases in Hpre as [Hpre|[o2 Ho]]; [congruence|].
    destruct head_one_line. rewrite Ho, chars_app, elem_of_app. by left.
  - by rewrite IH.
Qed.

Lemma index_close (a post : string) :
  ")"%char ∉ list_ascii_of_string a ->
  String.index 0 ")" (a +:+ String ")" post) = Some (String.length a).
Proof.
  induction a as [|c a IH].
  - intros _. rewrite string_app_nil_l. cbn [String.index String.prefix].
    destruct (ascii_dec ")" ")"); [|done]. by destruct post.
  - cbn [list_ascii_of_string]. rewrite not_elem_of_cons. intros [Hc Ha].
    rewrite string_app_cons. cbn [String.index String.prefix].
    destruct (ascii_dec ")" c); [done|]. by rewrite IH.
Qed.

Lemma substring_whole (b : string) :
  String.substring 0 (String.length b) b = b.
Proof. induction b as [|c b IH]; [done|]. simpl. by rewrite IH. Qed.

Lemma substring_drop (a b : string) :
  String.substring (String.length a)
    (String.length (a +:+ b) - String.length a) (a +:+ b) = b.
Proof.
  induction a as [|c a IH].
  - rewrite string_app_nil_l. cbn [String.length]. rewrite Nat.sub_0_r.
    apply substring_whole.
  - rewrite string_app_cons. cbn [String.length String.substring].
    exact IH.
Qed.

Lemma sub_import_list_match (group post : string) :
  ")"%char ∉ list_ascii_of_string group ->
  PatchImports.sub_import_list head replacement 0
    ((head +:+ "(") +:+ group +:+ String ")" post)
  = replacement (PyStr.lstrip group)
    +:+ PatchImports.sub_import_list head replacement 0 post.
Proof.
  clear head_one_line. intros Hgroup.
  set (opening := head +:+ "(").
  set (body := group +:+ String ")" post).
  assert (∃ o opening', opening = String o opening') as (o & opening' & Ho).
  { unfold opening. destruct head; rewrite ?string_app_cons; eauto. }
  pose proof (prefix_app_r opening body) as Hp.
  pose proof (substring_drop opening body) as Hbody.
  assert (opening +:+ body = String o (opening' +:+ body)) as Hcontent
    by (by rewrite Ho, string_app_cons).
  rewrite Hcontent in Hp, Hbody |- *.
  rewrite sub_import_list_eq. fold opening. rewrite Hp, Hbody.
  unfold body at 1 2. rewrite index_close by done.
  rewrite substring_app. f_equal.
  replace (String.length opening + String.length group)
    with (String.length (opening' +:+ group +:+ ")")).
  2: { rewrite Ho, !string_app_length. cbn [String.length]. lia. }
  replace (opening' +:+ body) with ((opening' +:+ group +:+ ")") +:+ post).
  2: { unfold body. by rewrite !string_app_assoc. }
  apply sub_import_list_skip.
Qed.

End SubImportList.

Section ModelsImport.

Lemma join_first (sep t : string) (ts : list string) :
  PyText.join sep (t :: ts)
  = t +:+ match ts with [] => "" | _ => sep +:+ PyText.join sep ts end.
Proof. destruct ts; [by rewrite string_app_nil_r | done]. Qed.

Lemma join_chars (sep : string) (ts : list string) (c : ascii) :
  c ∈ list_ascii_of_string (PyText.join sep ts) ->
  c ∈ list_ascii_of_string sep
  ∨ ∃ t, t ∈ ts ∧ c ∈ list_ascii_of_string t.
Proof.
  induction ts as [|t ts IH]; [by intros ?%elem_of_nil|].
  rewrite join_first, chars_app, elem_of_app. intros [Hc|Hc].
  - right. exists t. split; [by left | done].
  - destruct ts as [|t' ts]; [by apply elem_of_nil in Hc|].
    rewrite chars_app, elem_of_app in Hc. destruct Hc as [Hc|Hc]; [by left|].
    destruct (IH Hc) as [?|(u & Hu & Hcu)]; [by left|].
    right. exists u. split; [by right | done].
Qed.

Lemma without_lead_imported (it : import_item) :
  imported (without_lead it) = imported it.
Proof. unfold without_lead. by case_decide. Qed.

Lemma without_lead_wf (it : import_item) :
  well_formed it -> well_formed (without_lead it).
Proof.
  intros (Hlead & Htrail & Hitem). unfold without_lead. case_decide.
  - split; [constructor|]. split; [constructor|]. by left.
  - split; [constructor|]. split; [done|]. done.
Qed.

Lemma lstrip_item (it : import_item) (tail : string) :
  well_formed it ->
  (tail = "" ∨ ∃ t, tail = String "," t) ->
  PyStr.lstrip (item_text it +:+ tail)
  = item_text (without_lead it) +:+ tail.
Proof.
  intros (Hlead & Htrail & Hitem) Htail. unfold item_text, without_lead.
  rewrite !string_app_assoc, lstrip_blank_app by done.
  case_decide as Hn.
  - destruct Hitem as [[_ Ha]|[[Hne _] _]]; [|done].
    rewrite Hn, Ha. cbn [lead imported alias trail].
    rewrite !string_app_nil_l, lstrip_blank_app by done.
    destruct Htail as [->|[t ->]]; [done|]. by apply lstrip_clean.
  - destruct Hitem as [[Hn' _]|[Hid _]]; [done|].
    destruct (identifier_first _ Hid) as (c & t & Hc & Hs).
    cbn [lead imported alias trail]. rewrite string_app_nil_l, Hc.
    rewrite string_app_cons. by apply lstrip_clean.
Qed.

Lemma lstrip_items (ws : string) (items : list import_item) :
  blank ws -> Forall well_formed items ->
  ∃ items',
    PyStr.lstrip (ws +:+ PyText.join "," (item_text <$> items))
    = PyText.join "," (item_text <$> items')
    ∧ Forall well_formed items'
    ∧ imported <$> items' = imported <$> items.
Proof.
  intros Hws Hall. rewrite lstrip_blank_app by done.
  destruct Hall as [|it items Hit Hrest]; [by exists []|].
  exists (without_lead it :: items).
  rewrite !fmap_cons, !join_first, without_lead_imported.
  split; [|split; [|done]].
  - apply lstrip_item; [done|].
    destruct items; [by left | right; eauto].
  - constructor; [by apply without_lead_wf | done].
Qed.

End ModelsImport.

(** X20.  The substitution of the first of the [MULTILINE_PATTERNS]
    rewrites a parenthesised import from [pyrit.models] in place: when
    whole lines without such an import come before it and its list is
    well formed (over one line or several), the text before it stays, the
    import up to its closing parenthesis becomes the import from
    [pyrit_compat] of the names that are kept, or the [pass] line, and the
    substitution goes on in the text behind the parenthesis. *)
Theorem X20_models_import_rewritten (pre ws post : string)
    (items : list import_item) :
  PyStr.contains "from pyrit.models import (" pre = false ->
  whole_lines pre ->
  blank ws ->
  Forall well_formed items ->
  Forall (λ it, ")"%char ∉ list_ascii_of_string (item_text it)) items ->
  PatchImports.sub_import_list "from pyrit.models import "
    PatchImports.handle_multiline_models_import 0
    (pre +:+ "from pyrit.models import (" +:+ ws
     +:+ PyText.join "," (item_text <$> items) +:+ String ")" post)
  = pre
    +:+ compat_import
          (filter (λ name, name ∈ PatchImports.kept_names)
             (imported <$> items))
    +:+ PatchImports.sub_import_list "from pyrit.models import "
          PatchImports.handle_multiline_models_import 0 post.
Proof.
  intros Hpre Hlines Hws Hall Hclose.
  rewrite sub_import_list_before;
    [|apply (bool_decide_unpack _); by vm_compute|done|done].
  f_equal.
  change "from pyrit.models import ("
    with ("from pyrit.models import " +:+ "(").
  rewrite <- (string_app_assoc ws).
  rewrite sub_import_list_match.
  - destruct (lstrip_items ws items Hws Hall) as (items' & -> & Hwf & <-).
    destruct items' as [|it items']; [reflexivity|].
    unfold PatchImports.handle_multiline_models_import.
    rewrite import_list_split by done.
    unfold compat_import. by rewrite parse_items.
  - rewrite chars_app, elem_of_app. intros [Hc|Hc].
    + by apply (proj1 (Forall_forall _ _) Hws) in Hc.
    + apply join_chars in Hc as [Hc|(t & Ht & Hc)].
      * apply list_elem_of_singleton in Hc. done.
      * apply list_elem_of_fmap in Ht as (it & -> & Hit).
        by apply (proj1 (Forall_forall _ _) Hclose) in Hit.
Qed.

(** The import of the three-line list between two other lines. *)
Lemma X20_models_import_rewritten_witness :
  PatchImports.sub_import_list "from pyrit.models import "
    PatchImports.handle_multiline_models_import 0
    (String.concat (String PatchImports.newline "")
       ["import os"; "from pyrit.models import ("; "    SeedPrompt as SP,";
        "    Message,"; ")"; "x = (1)"])
  = String.concat (String PatchImports.newline "")
      ["import os"; "from pyrit_compat import SeedPrompt"; "x = (1)"].
Proof.
  apply (X20_models_import_rewritten
           (String.concat (String PatchImports.newline "") ["import os"; ""])
           "" (String PatchImports.newline "x = (1)") three_line_list).
  - reflexivity.
  - right. by exists "import os".
  - constructor.
  - exact three_line_list_wf.
  - apply (bool_decide_unpack _). by vm_compute.
Defined.

(** ** A single prompt from the command line *)

(** X21.  With a non-empty [--prompt], conversions that all finish and a
    workbook that can be written, [main] ends with exit status 0 having
    written the table of [process_single_prompt], one row per text-to-text
    converter, under the name given by a non-empty [--output] or else
    under [prompt_variations_<timestamp>.xlsx].  The prompt has
    precedence: an input file on the same command line is not read, and
    the prompt column and the row cap are not used. *)
Theorem X21_main_single_prompt (import_module : string -> module_load)
    (converter_dir : option (list string))
    (read_excel read_csv : string -> option DataFrame)
    (to_excel to_csv : string -> DataFrame -> bool) (timestamp : string)
    (args : Args.t) (prompt : string) :
  let discovery :=
    (discover_and_test_converters import_module init converter_dir).1 in
  let d : list (string * plugin) := text_to_text_converters discovery in
  let output_file :=
    match truthy (Args.output args) with
    | Some name => name
    | None => "prompt_variations_" +:+ timestamp +:+ ".xlsx"
    end in
  d ≠ [] ->
  truthy (Args.prompt args) = Some prompt ->
  (∀ x, x ∈ d -> is_Some (await (convert_async x.2 prompt))) ->
  (∀ table, to_excel output_file table = true) ->
  ∃ table,
    process_single_prompt discovery prompt = Some (table, PyDict.keys d)
    ∧ nrows table = length d
    ∧ ∀ read_excel' read_csv' input_file' prompt_column' max_rows',
        main import_module converter_dir read_excel' read_csv' to_excel
          to_csv timestamp
          (Args.Make input_file' (Args.output args) (Args.prompt args)
             prompt_column' max_rows' (Args.verbose args))
        = Exits 0 (Some (output_file, Excel, table)).
Proof.
  intros discovery d output_file Hd Hp Hfin Hsave.
  assert (∃ table, process_single_prompt discovery prompt
                   = Some (table, PyDict.keys d) ∧ nrows table = length d)
    as (table & Hrun & Hrows).
  { unfold process_single_prompt. fold d.
    rewrite (single_prompt_loop_spec prompt d _ Hfin).
    eexists. split; [reflexivity|].
    unfold results_frame. cbn [Converter nrows app].
    by rewrite length_fmap. }
  exists table. split; [done|]. split; [done|].
  intros read_excel' read_csv' input_file' prompt_column' max_rows'.
  unfold main. fold discovery. fold d.
  rewrite decide_False by (by intros ?%nil_length_inv).
  cbn [Args.prompt Args.output]. rewrite Hp, Hrun. fold output_file.
  unfold save. by rewrite Hsave.
Qed.

(** The prompt "go" with the converters of [Faulty], next to an input
    file that cannot be read. *)
Lemma X21_main_single_prompt_witness :
  ∃ table,
    nrows table = 2
    ∧ main Faulty.import_module (Some ["text_converter.py"])
        Files.unreadable Files.unreadable Files.writable Files.writable
        "20250101_120000"
        (Args.Make (Some "missing.xlsx") (Some "out.xlsx") (Some "go")
           "prompt" None false)
      = Exits 0 (Some ("out.xlsx", Excel, table)).
Proof.
  destruct (X21_main_single_prompt Faulty.import_module
              (Some ["text_converter.py"]) Files.unreadable Files.unreadable
              Files.writable Files.writable "20250101_120000"
              (Args.Make None (Some "out.xlsx") (Some "go") "prompt" None
                 false) "go")
    as (table & _ & Hrows & Hmain).
  - by vm_compute.
  - reflexivity.
  - intros x Hx.
    change (x ∈ [("PickyConverter", Faulty.picky);
                 ("UpperCaseConverter", UpperCase.converter)]) in Hx.
    elem_cases Hx; subst x; vm_compute; eauto.
  - done.
  - exists table. split; [exact Hrows|].
    exact (Hmain Files.unreadable Files.unreadable (Some "missing.xlsx")
             "prompt" None).
Defined.
